(** * OpenColorIO: the Iridas .itx and .spi1d file-format adapters and FixedFunctionOp

    A shallow embedding of
      - src/OpenColorIO/fileformats/FileFormatIridasItx.cpp
      - src/OpenColorIO/fileformats/FileFormatSpi1D.cpp
      - src/OpenColorIO/ops/fixedfunction/FixedFunctionOp.cpp
    followed by the properties of the specification that concern them.

    Conventions.  A C++ computation is a value of [outcome]: it returns
    normally, throws, or leaves defined behaviour (signed overflow, an access
    outside an array).  Mutable arguments ([ops], the output stream, the LUT
    array) are passed in and returned.  Floating-point values and the other
    facilities the three files only call ([Externals]) are an interface. *)

From Stdlib Require Import String Ascii ZArith NArith List Bool Lia DecimalString.
From Stdlib Require Import Floats.SpecFloat.
Import ListNotations.

Local Open Scope string_scope.
Local Open Scope Z_scope.

(* ================================================================== *)
(** ** C++ outcomes, integers and vectors *)

Module Cxx.

(** Behaviour the C++ standard leaves undefined. *)
Inductive undefined : Type :=
| SignedOverflow
| ScanOutOfRange
| OutOfBoundsRead (index size : N)
| OutOfBoundsWrite (index size : N).

(** Thrown objects: OCIO's [Exception(what)], [std::length_error], and the
    shape error of the LUT data model (spec section 4.2), whose text is not
    in the sources. *)
Inductive exception : Type :=
| Exception (what : string)
| std_length_error
| ShapeMismatch (expected actual : N).

Inductive outcome (A : Type) : Type :=
| Ok (a : A)
| Throw (e : exception)
| Undefined (u : undefined).

Arguments Ok {A} a.
Arguments Throw {A} e.
Arguments Undefined {A} u.

Definition bind {A B : Type} (m : outcome A) (k : A -> outcome B) : outcome B :=
  match m with
  | Ok a => k a
  | Throw e => Throw e
  | Undefined u => Undefined u
  end.

Definition INT_MIN : Z := - 2 ^ 31.
Definition INT_MAX : Z := 2 ^ 31 - 1.

Definition in_int (z : Z) : bool := (INT_MIN <=? z) && (z <=? INT_MAX).

(** [int] arithmetic: a result outside the type is undefined. *)
Definition int_of (z : Z) : outcome Z :=
  if in_int z then Ok z else Undefined SignedOverflow.

Definition int_mul (a b : Z) : outcome Z := int_of (a * b).
Definition int_incr (a : Z) : outcome Z := int_of (a + 1).

(** Conversion of an unsigned value to [int] (modular). *)
Definition static_cast_int (z : Z) : Z :=
  (z + 2 ^ 31) mod 2 ^ 32 - 2 ^ 31.

(** Conversion of an [int] to [unsigned long] (64 bits). *)
Definition to_unsigned_long (z : Z) : N := Z.to_N (z mod 2 ^ 64).

(** [unsigned long] addition wraps. *)
Definition ulong_add (a b : N) : N := ((a + b) mod 2 ^ 64)%N.

(** [operator<<] on integers. *)
Definition put_int (z : Z) : string := NilZero.string_of_int (Z.to_int z).
Definition put_size_t (n : N) : string := NilZero.string_of_uint (N.to_uint n).

(** [v[i]] on a [std::vector]/[Array]: no bounds check in the source, so an
    index past the end is undefined. *)
Definition vec_get {A : Type} (v : list A) (i : N) : outcome A :=
  match nth_error v (N.to_nat i) with
  | Some a => Ok a
  | None => Undefined (OutOfBoundsRead i (N.of_nat (length v)))
  end.

Fixpoint list_set {A : Type} (v : list A) (i : nat) (a : A) : list A :=
  match v, i with
  | [], _ => []
  | _ :: v', O => a :: v'
  | x :: v', S i' => x :: list_set v' i' a
  end.

Definition vec_set {A : Type} (v : list A) (i : N) (a : A) : outcome (list A) :=
  if (i <? N.of_nat (length v))%N then Ok (list_set v (N.to_nat i) a)
  else Undefined (OutOfBoundsWrite i (N.of_nat (length v))).

(** [std::vector::reserve(n)] with an [int] argument: a negative [n]
    converts to a [size_type] above [max_size()], which throws. *)
Definition reserve (n : Z) : outcome unit :=
  if n <? 0 then Throw std_length_error else Ok tt.

(** A [std::string] read through [c_str()] / a [char] buffer read as a C
    string: the characters before the first NUL. *)
Fixpoint c_str (s : string) : string :=
  match s with
  | EmptyString => EmptyString
  | String c s' => if Ascii.eqb c zero then EmptyString else String c (c_str s')
  end.

(** *** Input streams

    The unread part of a [std::istream], cut at the newlines: every element
    but the last is a line that ends in a newline, the last one ends at the
    end of the stream.  The empty list is a stream that is no longer
    [good()]. *)
Definition istream : Type := list string.

Definition newline : ascii := "010"%char.

Fixpoint istringstream (s : string) : istream :=
  match s with
  | EmptyString => [EmptyString]
  | String c s' =>
      if Ascii.eqb c newline then EmptyString :: istringstream s'
      else match istringstream s' with
           | l :: ls => String c l :: ls
           | [] => [String c EmptyString]
           end
  end.

Definition good (strm : istream) : bool :=
  match strm with [] => false | _ :: _ => true end.

(** [istream.getline(buf, n)]: up to [n-1] characters of the next line.
    The stream stays good only when the newline was reached within the
    buffer; at the end of the stream [eofbit] is set, on a longer line
    [failbit].  Result: the buffer and the stream afterwards. *)
Definition getline (n : nat) (strm : istream) : string * istream :=
  match strm with
  | [] => (EmptyString, [])
  | seg :: rest =>
      if good rest && (String.length seg <=? n - 1)%nat then (seg, rest)
      else (substring 0 (n - 1) seg, [])
  end.

End Cxx.
Export Cxx.

Declare Scope outcome_scope.
Delimit Scope outcome_scope with outcome.
Notation "x <- m ;; k" := (bind m (fun x => k))
  (at level 61, m at next level, right associativity) : outcome_scope.
Local Open Scope outcome_scope.

(* ================================================================== *)
(** ** pystring

    Modelled from the spec: the pystring helpers ([startswith], [strip],
    [lower], [split]) are not among the sources; the adapters isolate "loose
    whitespace" and "case-insensitive tags" with them (spec, section 9).  They
    follow the Python string methods of the same names, with the default
    arguments the adapters use (whitespace). *)

Module pystring.

Definition isspace (c : ascii) : bool :=
  let n := nat_of_ascii c in
  ((9 <=? n) && (n <=? 13))%nat || (n =? 32)%nat.

Definition startswith (s prefix : string) : bool := String.prefix prefix s.

Fixpoint lstrip (s : string) : string :=
  match s with
  | EmptyString => EmptyString
  | String c s' => if isspace c then lstrip s' else s
  end.

Fixpoint rstrip (s : string) : string :=
  match s with
  | EmptyString => EmptyString
  | String c s' =>
      match rstrip s' with
      | EmptyString => if isspace c then EmptyString else String c EmptyString
      | r => String c r
      end
  end.

Definition strip (s : string) : string := lstrip (rstrip s).

Definition tolower (c : ascii) : ascii :=
  let n := nat_of_ascii c in
  if ((65 <=? n) && (n <=? 90))%nat then ascii_of_nat (n + 32) else c.

Fixpoint lower (s : string) : string :=
  match s with
  | EmptyString => EmptyString
  | String c s' => String (tolower c) (lower s')
  end.

(** [split(s, result)] with the default separator: the maximal runs of
    non-whitespace characters, in order. *)
Fixpoint split (s : string) : list string :=
  match s with
  | EmptyString => []
  | String c s' =>
      if isspace c then split s'
      else match s' with
           | EmptyString => [String c EmptyString]
           | String c' _ =>
               if isspace c' then String c EmptyString :: split s'
               else match split s' with
                    | w :: ws => String c w :: ws
                    | [] => [String c EmptyString]
                    end
           end
  end.

End pystring.

(* ================================================================== *)
(** ** Scanning integers: [sscanf("%d")] and [istringstream >> int] *)

Module Scan.

Definition is_digit (c : ascii) : bool :=
  let n := nat_of_ascii c in ((48 <=? n) && (n <=? 57))%nat.

Definition digit_value (c : ascii) : Z := Z.of_nat (nat_of_ascii c) - 48.

Fixpoint scan_digits (s : string) (acc : Z) : Z * string :=
  match s with
  | EmptyString => (acc, EmptyString)
  | String c s' =>
      if is_digit c then scan_digits s' (10 * acc + digit_value c) else (acc, s)
  end.

(** Leading whitespace, an optional sign, then at least one digit: the value
    and the unread rest; [None] when no integer starts the input. *)
Definition scan_integer (s : string) : option (Z * string) :=
  let s1 := pystring.lstrip s in
  let '(neg, s2) :=
    match s1 with
    | String "-"%char t => (true, t)
    | String "+"%char t => (false, t)
    | _ => (false, s1)
    end in
  match s2 with
  | EmptyString => None
  | String c _ =>
      if is_digit c
      then let '(v, rest) := scan_digits s2 0 in Some (if neg then - v else v, rest)
      else None
  end.

(** The unread input after the literal characters of a [sscanf] format. *)
Fixpoint after_literal (lit s : string) : option string :=
  match lit, s with
  | EmptyString, _ => Some s
  | String a lit', String b s' => if Ascii.eqb a b then after_literal lit' s' else None
  | String _ _, EmptyString => None
  end.

(** [sscanf(buffer, "<tag> %d", &x)]: [Ok (Some x)] when it returns 1,
    [Ok None] when it converts nothing.  A value that does not fit the
    [int] is undefined (C11 7.21.6.2p10). *)
Definition sscanf_d (tag buffer : string) : outcome (option Z) :=
  match after_literal tag buffer with
  | None => Ok None
  | Some rest =>
      match scan_integer rest with
      | None => Ok None
      | Some (v, _) => if in_int v then Ok (Some v) else Undefined ScanOutOfRange
      end
  end.

End Scan.

(* ================================================================== *)
(** ** What the three files only call

    Floating-point values, their text conversions, and the payload operations
    of [FixedFunctionOpData] come from the C++ library and from files that are
    not among the sources; they are an interface here.  [Binary32.externals]
    below is an instance with IEEE-754 single precision. *)

Class Externals : Type := {
  float : Type;
  double : Type;
  (** the literals [0.0f] and [1.0f] *)
  float_zero : float;
  float_one : float;
  (** implicit conversion [float] to [double] *)
  double_of_float : float -> double;
  (** ParseUtils [StringToFloat]: the number a token stands for, if any *)
  StringToFloat : string -> option float;
  (** the [%f] directive of [sscanf]: skips whitespace, converts the longest
      number that starts the input, returns it with the unread rest *)
  scanf_f : string -> option (float * string);
  (** [ostream << x] with [floatfield] set to [fixed] and the given precision *)
  put_float_fixed : nat -> float -> string;
  (** [GenerateIdentityLut3D(img, edge, 3, LUT3DORDER_FAST_RED)]: the value it
      stores at a flat index *)
  identity_lut3d : Z -> nat -> float;
  (** [Lut1DOpData(dimension)] and [Lut3DOpData(gridSize)]: the value the
      constructor stores at a flat index *)
  initial_lut1d : N -> nat -> float;
  initial_lut3d : N -> nat -> float;
  (** [FixedFunctionOpData]: style tags, validation, fingerprint *)
  Style : Type;
  FixedFunction_validate : Style -> list double -> outcome unit;
  FixedFunction_fingerprint : Style -> list double -> string
}.

(* ================================================================== *)
(** ** ParseUtils *)

Module ParseUtils.

(** Modelled from the spec: ParseUtils.cpp is not among the sources.
    [StringToInt(&i, str)] reads an [int] from the start of a token with
    [istringstream >> int]; it fails on a token that starts with no integer
    ("non-numeric value", spec section 7) or with one outside the [int]
    range.  Characters left over are accepted. *)
Definition StringToInt (str : string) : option Z :=
  match Scan.scan_integer (c_str str) with
  | Some (v, _) => if in_int v then Some v else None
  | None => None
  end.

Definition chomp_cr (line : string) : string :=
  match String.length line with
  | O => line
  | S n =>
      match get n line with
      | Some c => if Ascii.eqb c "013"%char then substring 0 n line else line
      | None => line
      end
  end.

(** Modelled from the spec: ParseUtils [nextline(istream, line)] is not
    among the sources.  The reader "consumes a text stream fully" (spec
    section 6) through it: each call hands over the next line that is not
    blank, without a trailing carriage return, and the call that finds the
    stream exhausted returns false.  [nextlines] lists the lines of the
    successive calls that return true. *)
Fixpoint nextlines (strm : istream) : list string :=
  match strm with
  | [] => []
  | seg :: rest =>
      let line := chomp_cr seg in
      match pystring.strip line with
      | EmptyString => nextlines rest
      | String _ _ => line :: nextlines rest
      end
  end.

Section WithExternals.
Context `{Externals}.

(** Modelled from the spec: ParseUtils [StringVecToFloatVec(floats,
    parts)] is not among the sources.  It converts every field of a line
    and fails on the first "non-numeric value" (spec section 7); on
    success there are as many floats as fields. *)
Fixpoint StringVecToFloatVec (lineParts : list string) : option (list float) :=
  match lineParts with
  | [] => Some []
  | p :: ps =>
      match StringToFloat p with
      | None => None
      | Some x =>
          match StringVecToFloatVec ps with
          | None => None
          | Some xs => Some (x :: xs)
          end
      end
  end.

End WithExternals.

End ParseUtils.

(* ================================================================== *)
(** ** Directions, LUT data and Ops *)

Module Ops.

Inductive TransformDirection : Type :=
| TRANSFORM_DIR_UNKNOWN
| TRANSFORM_DIR_FORWARD
| TRANSFORM_DIR_INVERSE.

(** Modelled from the spec: [CombineTransformDirections] is not among the
    sources.  Spec section 3: Forward o X = X; Inverse o Forward = Inverse;
    Inverse o Inverse = Forward; anything o Unknown and Unknown o anything are
    Unknown. *)
Definition CombineTransformDirections (d1 d2 : TransformDirection)
  : TransformDirection :=
  match d1, d2 with
  | TRANSFORM_DIR_UNKNOWN, _ => TRANSFORM_DIR_UNKNOWN
  | _, TRANSFORM_DIR_UNKNOWN => TRANSFORM_DIR_UNKNOWN
  | TRANSFORM_DIR_FORWARD, d => d
  | TRANSFORM_DIR_INVERSE, TRANSFORM_DIR_FORWARD => TRANSFORM_DIR_INVERSE
  | TRANSFORM_DIR_INVERSE, TRANSFORM_DIR_INVERSE => TRANSFORM_DIR_FORWARD
  end.

Inductive Interpolation : Type :=
| INTERP_UNKNOWN
| INTERP_NEAREST
| INTERP_LINEAR
| INTERP_TETRAHEDRAL
| INTERP_DEFAULT
| INTERP_BEST.

Inductive BitDepth : Type :=
| BIT_DEPTH_UNKNOWN
| BIT_DEPTH_F32.

(** The part of a [FileTransform] the adapters read. *)
Record FileTransform : Type := {
  getDirection : TransformDirection;
  getInterpolation : Interpolation
}.

Section WithExternals.
Context `{Externals}.

(** *** LUT1D: [dimension] samples, a flat array of 3*dimension values. *)
Record Lut1DOpData : Type := {
  lut1d_dimension : N;
  lut1d_array : list float;
  lut1d_interpolation : Interpolation;
  lut1d_fileOutputBitDepth : BitDepth
}.

(** Modelled from the spec: the constructor [Lut1DOpData(dimension)] is
    not among the sources.  Spec section 3: a LUT1D of [length] samples is
    "stored as a flat sequence of 3*length floating-point values". *)
Definition Lut1DOpData_new (dimension : N) : Lut1DOpData :=
  {| lut1d_dimension := dimension;
     lut1d_array := map (initial_lut1d dimension) (seq 0 (N.to_nat (3 * dimension)));
     lut1d_interpolation := INTERP_DEFAULT;
     lut1d_fileOutputBitDepth := BIT_DEPTH_UNKNOWN |}.

Definition Lut1D_setFileOutputBitDepth (l : Lut1DOpData) (b : BitDepth) :=
  {| lut1d_dimension := lut1d_dimension l;
     lut1d_array := lut1d_array l;
     lut1d_interpolation := lut1d_interpolation l;
     lut1d_fileOutputBitDepth := b |}.

Definition Lut1D_setInterpolation (l : Lut1DOpData) (i : Interpolation) :=
  {| lut1d_dimension := lut1d_dimension l;
     lut1d_array := lut1d_array l;
     lut1d_interpolation := i;
     lut1d_fileOutputBitDepth := lut1d_fileOutputBitDepth l |}.

Definition Lut1D_setArray (l : Lut1DOpData) (a : list float) :=
  {| lut1d_dimension := lut1d_dimension l;
     lut1d_array := a;
     lut1d_interpolation := lut1d_interpolation l;
     lut1d_fileOutputBitDepth := lut1d_fileOutputBitDepth l |}.

(** *** LUT3D: a cube of edge [gridSize], a flat array of 3*gridSize^3
    values. *)
Record Lut3DOpData : Type := {
  lut3d_gridSize : N;
  lut3d_array : list float;
  lut3d_interpolation : Interpolation;
  lut3d_fileOutputBitDepth : BitDepth
}.

(** Modelled from the spec: the constructor [Lut3DOpData(gridSize)] is not
    among the sources.  Spec section 3: a LUT3D of edge N is "stored as a
    flat sequence of 3*N^3 floating-point values". *)
Definition Lut3DOpData_new (gridSize : N) : Lut3DOpData :=
  {| lut3d_gridSize := gridSize;
     lut3d_array :=
       map (initial_lut3d gridSize)
           (seq 0 (N.to_nat (3 * gridSize * gridSize * gridSize)));
     lut3d_interpolation := INTERP_DEFAULT;
     lut3d_fileOutputBitDepth := BIT_DEPTH_UNKNOWN |}.

Definition Lut3D_setFileOutputBitDepth (l : Lut3DOpData) (b : BitDepth) :=
  {| lut3d_gridSize := lut3d_gridSize l;
     lut3d_array := lut3d_array l;
     lut3d_interpolation := lut3d_interpolation l;
     lut3d_fileOutputBitDepth := b |}.

Definition Lut3D_setInterpolation (l : Lut3DOpData) (i : Interpolation) :=
  {| lut3d_gridSize := lut3d_gridSize l;
     lut3d_array := lut3d_array l;
     lut3d_interpolation := i;
     lut3d_fileOutputBitDepth := lut3d_fileOutputBitDepth l |}.

(** Modelled from the spec: [Lut3DOpData::setArrayFromRedFastestOrder] is
    not among the sources.  Spec section 4.2: it "accepts external data
    already in red-fastest order ... and stores it directly (no reordering
    needed because the external format already matches the internal
    layout)"; a count other than 3*N^3 fails "with a ShapeMismatch error
    carrying expected vs. actual counts". *)
Definition setArrayFromRedFastestOrder (l : Lut3DOpData) (lut : list float)
  : outcome Lut3DOpData :=
  let n := lut3d_gridSize l in
  let expected := (3 * n * n * n)%N in
  let actual := N.of_nat (length lut) in
  if (expected =? actual)%N
  then Ok {| lut3d_gridSize := n;
             lut3d_array := lut;
             lut3d_interpolation := lut3d_interpolation l;
             lut3d_fileOutputBitDepth := lut3d_fileOutputBitDepth l |}
  else Throw (ShapeMismatch expected actual).

(** *** Fixed-function payload: a style tag and its parameters, with the
    fingerprint its own [finalize] computes. *)
Record FixedFunctionOpData : Type := {
  ff_style : Style;
  ff_params : list double;
  ff_cacheID : string
}.

(** Modelled from the spec: [FixedFunctionOpData::finalize] and
    [getCacheID] are not among the sources.  Spec sections 2 and 4.3: each
    payload "knows how to validate itself ... and produce a cache
    fingerprint", which is "deterministic in the Op's kind and payload":
    validation, then the fingerprint of the style and the parameters. *)
Definition FixedFunctionOpData_finalize (d : FixedFunctionOpData)
  : outcome FixedFunctionOpData :=
  _ <- FixedFunction_validate (ff_style d) (ff_params d) ;;
  Ok {| ff_style := ff_style d;
        ff_params := ff_params d;
        ff_cacheID := FixedFunction_fingerprint (ff_style d) (ff_params d) |}.

Definition getCacheID (d : FixedFunctionOpData) : string := ff_cacheID d.

(** [class FixedFunctionOp : public Op]: the payload [data()] and the
    [m_cacheID] of the base class. *)
Record FixedFunctionOp : Type := {
  fnData : FixedFunctionOpData;
  m_cacheID : string
}.

(** *** Ops: a closed set of kinds (spec section 9). *)
Inductive Op : Type :=
| Lut1DOp (data : Lut1DOpData) (direction : TransformDirection)
| Lut3DOp (data : Lut3DOpData) (direction : TransformDirection)
| MinMaxOp (from_min3 from_max3 : double * double * double)
           (direction : TransformDirection)
| OfFixedFunctionOp (op : FixedFunctionOp).

Definition OpRcPtrVec : Type := list Op.

(** Modelled from the spec: [CreateLut1DOp], [CreateLut3DOp] and
    [CreateMinMaxOp] are not among the sources.  Spec section 4.6: chain
    assembly "appends Ops"; each call appends the one Op it names, in the
    direction it is given (scenario D writes them [LUT1D(Forward)],
    [RangeRemap(Inverse)], ...). *)
Definition CreateLut1DOp (ops : OpRcPtrVec) (lut : Lut1DOpData)
           (direction : TransformDirection) : OpRcPtrVec :=
  (ops ++ [Lut1DOp lut direction])%list.

Definition CreateLut3DOp (ops : OpRcPtrVec) (lut : Lut3DOpData)
           (direction : TransformDirection) : OpRcPtrVec :=
  (ops ++ [Lut3DOp lut direction])%list.

Definition CreateMinMaxOp (ops : OpRcPtrVec)
           (from_min3 from_max3 : double * double * double)
           (direction : TransformDirection) : OpRcPtrVec :=
  (ops ++ [MinMaxOp from_min3 from_max3 direction])%list.

End WithExternals.

End Ops.
Export Ops.

(* ================================================================== *)
(** ** Cached files

    [CachedFileRcPtr] points to the [LocalCachedFile] of some format;
    [DynamicPtrCast<LocalCachedFile>] succeeds on the adapter's own kind. *)

Module FileCache.

Section WithExternals.
Context `{Externals}.

(** FileFormatIridasItx.cpp, [LocalCachedFile]; [lut3D] may be null. *)
Record ItxCachedFile : Type := {
  lut3D : option Lut3DOpData
}.

(** FileFormatSpi1D.cpp, [LocalCachedFile]; [read] always sets [lut], and
    [buildFileOps] dereferences it without a test. *)
Record Spi1DCachedFile : Type := {
  lut : Lut1DOpData;
  from_min : float;
  from_max : float
}.

Inductive CachedFile : Type :=
| CachedItx (c : ItxCachedFile)
| CachedSpi1D (c : Spi1DCachedFile)
| CachedOther.

End WithExternals.

End FileCache.
Export FileCache.

(* ================================================================== *)
(** ** FileFormatIridasItx.cpp *)

Module IridasItx.

Section WithExternals.
Context `{Externals}.

Definition LocalCachedFile : Type := ItxCachedFile.

Definition ThrowErrorMessage {A : Type} (error fileName : string) (line : Z)
           (lineContent : string) : outcome A :=
  Throw (Exception
    ("Error parsing Iridas .itx file (" ++ fileName ++ ").  "
     ++ (if line =? -1 then ""
         else "At line (" ++ put_int line ++ "): '" ++ lineContent ++ "'.  ")
     ++ error)).

(** The locals of [read] that the line loop updates. *)
Record parse_state : Type := {
  raw : list float;
  size3d : Z;
  in3d : bool
}.

(** The body of [while(nextline(istream, line))], after [++lineNumber]. *)
Definition read_line (fileName line : string) (lineNumber : Z)
           (st : parse_state) : outcome parse_state :=
  if pystring.startswith line "#" then Ok st
  else
    let parts := pystring.split (pystring.lower (pystring.strip line)) in
    match parts with
    | [] => Ok st
    | p0 :: _ =>
        if String.eqb (pystring.lower p0) "lut_3d_size" then
          size <- match parts with
                  | [_; p1] =>
                      match ParseUtils.StringToInt p1 with
                      | Some n => Ok n
                      | None => ThrowErrorMessage "Malformed LUT_3D_SIZE tag."
                                                  fileName lineNumber line
                      end
                  | _ => ThrowErrorMessage "Malformed LUT_3D_SIZE tag."
                                           fileName lineNumber line
                  end ;;
          n1 <- int_mul 3 size ;;
          n2 <- int_mul n1 size ;;
          n3 <- int_mul n2 size ;;
          _ <- reserve n3 ;;
          Ok {| raw := raw st; size3d := size; in3d := true |}
        else if in3d st then
          match ParseUtils.StringVecToFloatVec parts with
          | Some tmpfloats =>
              if (length tmpfloats =? 3)%nat then
                t0 <- vec_get tmpfloats 0 ;;
                t1 <- vec_get tmpfloats 1 ;;
                t2 <- vec_get tmpfloats 2 ;;
                Ok {| raw := (raw st ++ [t0; t1; t2])%list;
                      size3d := size3d st;
                      in3d := in3d st |}
              else ThrowErrorMessage "Malformed color triples specified."
                                     fileName lineNumber line
          | None => ThrowErrorMessage "Malformed color triples specified."
                                      fileName lineNumber line
          end
        else Ok st
    end.

Fixpoint read_lines (fileName : string) (lines : list string) (lineNumber : Z)
         (st : parse_state) : outcome parse_state :=
  match lines with
  | [] => Ok st
  | line :: rest =>
      n <- int_incr lineNumber ;;
      st' <- read_line fileName line n st ;;
      read_lines fileName rest n st'
  end.

Definition read (strm : istream) (fileName : string) : outcome LocalCachedFile :=
  if negb (good strm)
  then Throw (Exception "File stream empty when trying to read Iridas .itx LUT")
  else
    st <- read_lines fileName (ParseUtils.nextlines strm) 0
                     {| raw := []; size3d := 0; in3d := false |} ;;
    if in3d st then
      s2 <- int_mul (size3d st) (size3d st) ;;
      s3 <- int_mul s2 (size3d st) ;;
      let found := (N.of_nat (length (raw st)) / 3)%N in
      if negb (s3 =? static_cast_int (Z.of_N found)) then
        ThrowErrorMessage
          ("Incorrect number of 3D LUT entries. "
           ++ "Found " ++ put_size_t found ++ ", expected " ++ put_int s3 ++ ".")
          fileName (-1) ""
      else
        lut3d <- setArrayFromRedFastestOrder
                   (Lut3D_setFileOutputBitDepth
                      (Lut3DOpData_new (to_unsigned_long (size3d st)))
                      BIT_DEPTH_F32)
                   (raw st) ;;
        Ok {| lut3D := Some lut3d |}
    else ThrowErrorMessage "No 3D LUT found." fileName (-1) "".

(** *** [bake] *)

(** What [bake] asks of the baker, the config and the processors. *)
Record CPUProcessor : Type := {
  apply : list float -> outcome (list float);
  (** [apply] works in place on the image buffer *)
  apply_in_place :
    forall img img', apply img = Ok img' -> length img' = length img
}.

Record Processor : Type := {
  getDefaultCPUProcessor : outcome CPUProcessor
}.

Record LookTransform : Type := {
  look_looks : string;
  look_src : string;
  look_dst : string
}.

Record Config : Type := {
  getProcessor : string -> string -> outcome Processor;
  getProcessor_transform : LookTransform -> TransformDirection -> outcome Processor
}.

Record Baker : Type := {
  getConfig : Config;
  getCubeSize : Z;
  getLooks : string;
  getInputSpace : string;
  getTargetSpace : string
}.

Definition DEFAULT_CUBE_SIZE : Z := 64.

(** The edge size [bake] uses. *)
Definition bake_cubeSize (baker : Baker) : Z :=
  let cubeSize := getCubeSize baker in
  let cubeSize := if cubeSize =? -1 then DEFAULT_CUBE_SIZE else cubeSize in
  Z.max 2 cubeSize.

(** [bake] up to the first write: the identity cube sent through the
    processor. *)
Definition bake_cubeData (baker : Baker) (cubeSize : Z) : outcome (list float) :=
  let config := getConfig baker in
  c2 <- int_mul cubeSize cubeSize ;;
  c3 <- int_mul c2 cubeSize ;;
  n <- int_mul c3 3 ;;
  let cubeData := map (identity_lut3d cubeSize) (seq 0 (Z.to_nat n)) in
  let looks := getLooks baker in
  inputToTarget <-
    (if negb (String.eqb looks "") then
       getProcessor_transform config
         {| look_looks := looks;
            look_src := getInputSpace baker;
            look_dst := getTargetSpace baker |}
         TRANSFORM_DIR_FORWARD
     else getProcessor config (getInputSpace baker) (getTargetSpace baker)) ;;
  cpu <- getDefaultCPUProcessor inputToTarget ;;
  apply cpu cubeData.

(** One row of the output. *)
Definition put_row (r g b : float) : string :=
  put_float_fixed 6 r ++ " " ++ put_float_fixed 6 g ++ " "
  ++ put_float_fixed 6 b ++ String newline "".

(** [for(int i=0; i<cubeSize*cubeSize*cubeSize; ++i)], with [todo]
    iterations left. *)
Fixpoint bake_rows (cubeData : list float) (i : Z) (todo : nat) (ostream : string)
  : string * outcome unit :=
  match todo with
  | O => (ostream, Ok tt)
  | S todo' =>
      match (r <- vec_get cubeData (Z.to_N (3 * i + 0)) ;;
             g <- vec_get cubeData (Z.to_N (3 * i + 1)) ;;
             b <- vec_get cubeData (Z.to_N (3 * i + 2)) ;;
             Ok (put_row r g b)) with
      | Ok row => bake_rows cubeData (i + 1) todo' (ostream ++ row)
      | Throw e => (ostream, Throw e)
      | Undefined u => (ostream, Undefined u)
      end
  end.

(** [bake]: the output stream afterwards and the outcome. *)
Definition bake (baker : Baker) (formatName : string) (ostream : string)
  : string * outcome unit :=
  if negb (String.eqb formatName "iridas_itx") then
    (ostream, Throw (Exception ("Unknown 3dl format name, '" ++ formatName ++ "'.")))
  else
    let cubeSize := bake_cubeSize baker in
    match bake_cubeData baker cubeSize with
    | Throw e => (ostream, Throw e)
    | Undefined u => (ostream, Undefined u)
    | Ok cubeData =>
        let ostream := ostream ++ "LUT_3D_SIZE " ++ put_int cubeSize
                               ++ String newline "" in
        if cubeSize <? 2
        then (ostream, Throw (Exception "Internal cube size exception."))
        else
          match bake_rows cubeData 0 (Z.to_nat (cubeSize * cubeSize * cubeSize))
                          ostream with
          | (ostream, Ok _) => (ostream ++ String newline "", Ok tt)
          | stopped => stopped
          end
    end.

(** *** [buildFileOps]: the [ops] vector afterwards and the outcome.  The
    interpolation is set on the cached LUT, which the new Op shares. *)
Definition buildFileOps (ops : OpRcPtrVec) (untypedCachedFile : CachedFile)
           (fileTransform : FileTransform) (dir : TransformDirection)
  : OpRcPtrVec * outcome unit :=
  match untypedCachedFile with
  | CachedItx cachedFile =>
      let newDir := CombineTransformDirections dir (getDirection fileTransform) in
      match newDir with
      | TRANSFORM_DIR_UNKNOWN =>
          (ops, Throw (Exception
             ("Cannot build file format transform,"
              ++ " unspecified transform direction.")))
      | _ =>
          match lut3D cachedFile with
          | Some l =>
              (CreateLut3DOp ops
                 (Lut3D_setInterpolation l (getInterpolation fileTransform))
                 newDir,
               Ok tt)
          | None => (ops, Ok tt)
          end
      end
  | _ =>
      (ops, Throw (Exception "Cannot build Iridas .itx Op. Invalid cache type."))
  end.

End WithExternals.

End IridasItx.

(* ================================================================== *)
(** ** FileFormatSpi1D.cpp *)

Module Spi1D.

Section WithExternals.
Context `{Externals}.

Definition LocalCachedFile : Type := Spi1DCachedFile.

Definition ThrowErrorMessage {A : Type} (error fileName : string) (line : Z)
           (lineContent : string) : outcome A :=
  Throw (Exception
    ("Error parsing .spi1d file (" ++ fileName ++ ").  "
     ++ (if line =? -1 then ""
         else "At line (" ++ put_int line ++ "): '" ++ lineContent ++ "'.  ")
     ++ error)).

Definition MAX_LINE_SIZE : nat := 4096.

(** The header locals of [read]. *)
Record header : Type := {
  lut_size : Z;
  h_from_min : float;
  h_from_max : float;
  version : Z;
  components : Z
}.

Definition initial_header : header :=
  {| lut_size := -1;
     h_from_min := float_zero;
     h_from_max := float_one;
     version := -1;
     components := -1 |}.

(** [sscanf(lineBuffer, "From %f %f", &a, &b) == 2] *)
Definition sscanf_f_f (tag buffer : string) : option (float * float) :=
  match Scan.after_literal tag buffer with
  | None => None
  | Some rest =>
      match scanf_f rest with
      | None => None
      | Some (a, rest') =>
          match scanf_f rest' with
          | None => None
          | Some (b, _) => Some (a, b)
          end
      end
  end.

(** The tag tests of the header loop on one line. *)
Definition header_line (fileName lineBuffer : string) (currentLine : Z)
           (h : header) : outcome header :=
  let headerLine := lineBuffer in
  if pystring.startswith headerLine "Version" then
    r <- Scan.sscanf_d "Version" lineBuffer ;;
    match r with
    | None => ThrowErrorMessage "Invalid 'Version' Tag."
                                fileName currentLine headerLine
    | Some v =>
        if negb (v =? 1)
        then ThrowErrorMessage "Only format version 1 supported."
                               fileName currentLine headerLine
        else Ok {| lut_size := lut_size h; h_from_min := h_from_min h;
                   h_from_max := h_from_max h; version := v;
                   components := components h |}
    end
  else if pystring.startswith headerLine "From" then
    match sscanf_f_f "From" lineBuffer with
    | None => ThrowErrorMessage "Invalid 'From' Tag."
                                fileName currentLine headerLine
    | Some (a, b) =>
        Ok {| lut_size := lut_size h; h_from_min := a; h_from_max := b;
              version := version h; components := components h |}
    end
  else if pystring.startswith headerLine "Components" then
    r <- Scan.sscanf_d "Components" lineBuffer ;;
    match r with
    | None => ThrowErrorMessage "Invalid 'Components' Tag."
                                fileName currentLine headerLine
    | Some v =>
        Ok {| lut_size := lut_size h; h_from_min := h_from_min h;
              h_from_max := h_from_max h; version := version h;
              components := v |}
    end
  else if pystring.startswith headerLine "Length" then
    r <- Scan.sscanf_d "Length" lineBuffer ;;
    match r with
    | None => ThrowErrorMessage "Invalid 'Length' Tag."
                                fileName currentLine headerLine
    | Some v =>
        Ok {| lut_size := v; h_from_min := h_from_min h;
              h_from_max := h_from_max h; version := version h;
              components := components h |}
    end
  else Ok h.

(** The [do ... while (istream.good() && !startswith(headerLine, "{"))]
    loop: the header, [currentLine] and the stream when it ends.  In the
    branch that goes round again the stream after [getline] is [rest]. *)
Fixpoint read_header (fileName : string) (strm : istream) (currentLine : Z)
         (h : header) : outcome (header * Z * istream) :=
  let '(buffer, strm') := getline MAX_LINE_SIZE strm in
  let lineBuffer := c_str buffer in
  n <- int_incr currentLine ;;
  h' <- header_line fileName lineBuffer n h ;;
  match strm with
  | [] => Ok (h', n, strm')
  | _ :: rest =>
      if good strm' && negb (pystring.startswith lineBuffer "{")
      then read_header fileName rest n h'
      else Ok (h', n, strm')
  end.

(** The checks between the header and the body. *)
Definition check_header (fileName : string) (h : header) : outcome unit :=
  _ <- (if version h =? -1
        then ThrowErrorMessage "Could not find 'Version' Tag." fileName (-1) ""
        else Ok tt) ;;
  _ <- (if lut_size h =? -1
        then ThrowErrorMessage "Could not find 'Length' Tag." fileName (-1) ""
        else Ok tt) ;;
  _ <- (if components h =? -1
        then ThrowErrorMessage "Could not find 'Components' Tag." fileName (-1) ""
        else Ok tt) ;;
  if (components h <? 0) || (components h >? 3)
  then ThrowErrorMessage "Components must be [1,2,3]." fileName (-1) ""
  else Ok tt.

(** The locals the body loop updates. *)
Record body_state : Type := {
  lutArray : list float;
  i : N;
  lineCount : Z
}.

(** [lutArray[i] = a; lutArray[i + 1] = b; lutArray[i + 2] = c; i += 3;
    ++lineCount;] *)
Definition store_entry (st : body_state) (a b c : outcome float)
  : outcome body_state :=
  x <- a ;;
  arr <- vec_set (lutArray st) (i st) x ;;
  y <- b ;;
  arr <- vec_set arr (ulong_add (i st) 1) y ;;
  z <- c ;;
  arr <- vec_set arr (ulong_add (i st) 2) z ;;
  let i' := ulong_add (i st) 3 in
  n <- int_incr (lineCount st) ;;
  Ok {| lutArray := arr; i := i'; lineCount := n |}.

(** The body of the [while (istream.good())] loop after the test for the
    closing brace: [if (line.length() != 0) { ... }]. *)
Definition body_line (fileName line lineBuffer : string) (components currentLine : Z)
           (st : body_state) : outcome body_state :=
  if (String.length line =? 0)%nat then Ok st
  else
    let inputLUT := pystring.split (pystring.strip lineBuffer) in
    values <-
      match ParseUtils.StringVecToFloatVec inputLUT with
      | None => ThrowErrorMessage "Malformed LUT line." fileName currentLine line
      | Some values =>
          if negb (components =? static_cast_int (Z.of_nat (length values)))
          then ThrowErrorMessage "Malformed LUT line." fileName currentLine line
          else Ok values
      end ;;
    if components =? 1 then
      store_entry st (vec_get values 0) (vec_get values 0) (vec_get values 0)
    else if components =? 2 then
      store_entry st (vec_get values 0) (vec_get values 1) (Ok float_zero)
    else if components =? 3 then
      store_entry st (vec_get values 0) (vec_get values 1) (vec_get values 2)
    else Ok st.

(** [getline; ++currentLine; while (good) { ...; getline; ++currentLine; }]:
    each round is one [getline] with its [++currentLine], the test of the
    [while], and the loop body up to the next [getline]. *)
Fixpoint read_body (fileName : string) (components : Z) (strm : istream)
         (currentLine : Z) (st : body_state) : outcome body_state :=
  let '(buffer, strm') := getline MAX_LINE_SIZE strm in
  let lineBuffer := c_str buffer in
  n <- int_incr currentLine ;;
  match strm with
  | [] => Ok st
  | _ :: rest =>
      if good strm' then
        let line := pystring.strip lineBuffer in
        if String.eqb (pystring.lower line) "}" then Ok st
        else
          st' <- body_line fileName line lineBuffer components n st ;;
          read_body fileName components rest n st'
      else Ok st
  end.

Definition read (strm : istream) (fileName : string) : outcome LocalCachedFile :=
  hdr <- read_header fileName strm 0 initial_header ;;
  let '(h, currentLine, strm) := hdr in
  _ <- check_header fileName h ;;
  let lut1d := Lut1D_setFileOutputBitDepth
                 (Lut1DOpData_new (to_unsigned_long (lut_size h)))
                 BIT_DEPTH_F32 in
  st <- read_body fileName (components h) strm currentLine
                  {| lutArray := lut1d_array lut1d; i := 0; lineCount := 0 |} ;;
  if negb (lineCount st =? lut_size h)
  then ThrowErrorMessage "Not enough entries found." fileName (-1) ""
  else Ok {| lut := Lut1D_setArray lut1d (lutArray st);
             from_min := h_from_min h;
             from_max := h_from_max h |}.

(** [buildFileOps]: the [ops] vector afterwards and the outcome.  The
    interpolation is set on the cached LUT, which the new Op shares. *)
Definition buildFileOps (ops : OpRcPtrVec) (untypedCachedFile : CachedFile)
           (fileTransform : FileTransform) (dir : TransformDirection)
  : OpRcPtrVec * outcome unit :=
  match untypedCachedFile with
  | CachedSpi1D cachedFile =>
      let newDir := getDirection fileTransform in
      let newDir := CombineTransformDirections dir newDir in
      let min := (double_of_float (from_min cachedFile),
                  double_of_float (from_min cachedFile),
                  double_of_float (from_min cachedFile)) in
      let max := (double_of_float (from_max cachedFile),
                  double_of_float (from_max cachedFile),
                  double_of_float (from_max cachedFile)) in
      let lut := Lut1D_setInterpolation (lut cachedFile)
                                        (getInterpolation fileTransform) in
      match newDir with
      | TRANSFORM_DIR_FORWARD =>
          let ops := CreateMinMaxOp ops min max TRANSFORM_DIR_FORWARD in
          let ops := CreateLut1DOp ops lut TRANSFORM_DIR_FORWARD in
          (ops, Ok tt)
      | _ =>
          let ops := CreateLut1DOp ops lut TRANSFORM_DIR_INVERSE in
          let ops := CreateMinMaxOp ops min max TRANSFORM_DIR_INVERSE in
          (ops, Ok tt)
      end
  | _ => (ops, Throw (Exception "Cannot build Spi1D Op. Invalid cache type."))
  end.

End WithExternals.

End Spi1D.

(* ================================================================== *)
(** ** FixedFunctionOp.cpp *)

Module FixedFunction.

(** [OptimizationFlags] is a bit mask. *)
Definition OptimizationFlags : Type := N.

Section WithExternals.
Context `{Externals}.

Definition getInfo (self : FixedFunctionOp) : string := "<FixedFunctionOp>".

Definition isSameType (self : FixedFunctionOp) (op : Op) : bool :=
  match op with
  | OfFixedFunctionOp _ => true
  | _ => false
  end.

Definition canCombineWith (self : FixedFunctionOp) (op : Op) : bool := false.

(** [combineWith]: the [ops] vector afterwards and the outcome. *)
Definition combineWith (self : FixedFunctionOp) (ops : OpRcPtrVec) (secondOp : Op)
  : OpRcPtrVec * outcome unit :=
  if negb (canCombineWith self secondOp)
  then (ops, Throw (Exception ("FixedFunctionOp: canCombineWith must be checked "
                               ++ "before calling combineWith.")))
  else (ops, Ok tt).

(** [finalize]: the Op afterwards. *)
Definition finalize (self : FixedFunctionOp) (oFlags : OptimizationFlags)
  : outcome FixedFunctionOp :=
  data <- FixedFunctionOpData_finalize (fnData self) ;;
  let cacheIDStream := "" in
  let cacheIDStream := cacheIDStream ++ "<FixedFunctionOp " in
  let cacheIDStream := cacheIDStream ++ getCacheID data ++ " " in
  let cacheIDStream := cacheIDStream ++ ">" in
  Ok {| fnData := data; m_cacheID := cacheIDStream |}.

End WithExternals.

End FixedFunction.

(* ================================================================== *)
(** ** An instance of the interface: IEEE-754 single precision

    Numbers are [spec_float]s rounded to 24 bits; a number is read from
    decimal notation ([-]digits[.digits][e[-]digits]) and rounded to nearest,
    and written with the requested number of decimals, rounded to nearest. *)

Module Binary32.

Definition prec : Z := 24.
Definition emax : Z := 128.

Definition of_Z (z : Z) : spec_float := binary_normalize prec emax z 0 false.

(** sign, digits and decimal exponent to the nearest single *)
Definition of_decimal (neg : bool) (m e10 : Z) : spec_float :=
  match m with
  | Z0 => S754_zero neg
  | Zpos p =>
      if 0 <=? e10
      then binary_normalize prec emax ((if neg then -1 else 1) * (m * 10 ^ e10)) 0 false
      else SFdiv prec emax (S754_finite neg p 0)
                 (S754_finite false (Z.to_pos (10 ^ (- e10))) 0)
  | Zneg _ => S754_nan
  end.

Definition starts_with_digit (s : string) : bool :=
  match s with
  | String c _ => Scan.is_digit c
  | EmptyString => false
  end.

Definition scan_sign (s : string) : bool * string :=
  match s with
  | String "-"%char t => (true, t)
  | String "+"%char t => (false, t)
  | _ => (false, s)
  end.

Definition scan_exponent (s : string) : Z * string :=
  match s with
  | String c t =>
      if Ascii.eqb c "e"%char || Ascii.eqb c "E"%char then
        let '(neg, t') := scan_sign t in
        if starts_with_digit t'
        then let '(v, rest) := Scan.scan_digits t' 0 in
             (if neg then - v else v, rest)
        else (0, s)
      else (0, s)
  | EmptyString => (0, s)
  end.

Definition scan_float (s : string) : option (spec_float * string) :=
  let '(neg, s1) := scan_sign (pystring.lstrip s) in
  let '(ip, s2) := Scan.scan_digits s1 0 in
  let nd1 := (String.length s1 - String.length s2)%nat in
  let '(m, nd2, s3) :=
    match s2 with
    | String "."%char t =>
        let '(m, rest) := Scan.scan_digits t ip in
        (m, (String.length t - String.length rest)%nat, rest)
    | _ => (ip, O, s2)
    end in
  if (nd1 + nd2 =? 0)%nat then None
  else
    let '(e, rest) := scan_exponent s3 in
    Some (of_decimal neg m (e - Z.of_nat nd2), rest).

Fixpoint zeros (n : nat) : string :=
  match n with
  | O => EmptyString
  | S n' => String "0"%char (zeros n')
  end.

(** the nearest integer to [num / den], ties to even *)
Definition round_div (num den : Z) : Z :=
  let q := num / den in
  let r := num mod den in
  match 2 * r ?= den with
  | Lt => q
  | Gt => q + 1
  | Eq => if Z.even q then q else q + 1
  end.

Definition put_fixed (p : nat) (x : spec_float) : string :=
  let sign (s : bool) := if s then "-" else "" in
  let digits (q : Z) :=
    let scale := 10 ^ Z.of_nat p in
    let frac := put_int (q mod scale) in
    put_int (q / scale)
    ++ match p with
       | O => ""
       | S _ => "." ++ zeros (p - String.length frac) ++ frac
       end in
  match x with
  | S754_zero s => sign s ++ digits 0
  | S754_infinity s => sign s ++ "inf"
  | S754_nan => "nan"
  | S754_finite s m e =>
      let num := Zpos m * 10 ^ Z.of_nat p in
      sign s ++ digits (if 0 <=? e then num * 2 ^ e else round_div num (2 ^ (- e)))
  end.

(** coordinate [c] of an identity grid of the given edge *)
Definition grid_value (edge c : Z) : spec_float :=
  SFdiv prec emax (of_Z c) (of_Z (edge - 1)).

(** red-fastest identity cube, three channels *)
Definition identity3d (edge : Z) (k : nat) : spec_float :=
  let pixel := Z.of_nat k / 3 in
  match Z.of_nat k mod 3 with
  | 0 => grid_value edge (pixel mod edge)
  | 1 => grid_value edge ((pixel / edge) mod edge)
  | _ => grid_value edge ((pixel / (edge * edge)) mod edge)
  end.

Definition identity1d (dimension : N) (k : nat) : spec_float :=
  grid_value (Z.of_N dimension) (Z.of_nat k / 3).

#[export] Instance externals : Externals := {|
  float := spec_float;
  double := spec_float;
  float_zero := S754_zero false;
  float_one := of_Z 1;
  double_of_float := fun x => x;
  StringToFloat := fun s => option_map fst (scan_float (c_str s));
  scanf_f := scan_float;
  put_float_fixed := put_fixed;
  identity_lut3d := identity3d;
  initial_lut1d := identity1d;
  initial_lut3d := fun n => identity3d (Z.of_N n);
  Style := string;
  FixedFunction_validate := fun _ _ => Ok tt;
  FixedFunction_fingerprint :=
    fun style params => style ++ String.concat "" (map (fun p => " " ++ put_fixed 6 p) params)
|}.

End Binary32.


(* ================================================================== *)
(** ** Vocabulary of the statements *)

Module ItxLines.

Section WithExternals.
Context `{Externals}.

(** The fields of a line as the .itx reader sees them. *)
Definition tokens (line : string) : list string :=
  pystring.split (pystring.lower (pystring.strip line)).

(** Comment lines and lines without fields. *)
Definition is_skipped (line : string) : bool :=
  pystring.startswith line "#"
  || match tokens line with [] => true | _ :: _ => false end.

(** [size_tag line = Some n]: the line is a tag [LUT_3D_SIZE n]. *)
Definition size_tag (line : string) : option Z :=
  if pystring.startswith line "#" then None
  else match tokens line with
       | [p0; p1] =>
           if String.eqb (pystring.lower p0) "lut_3d_size"
           then ParseUtils.StringToInt p1
           else None
       | _ => None
       end.

(** [triple line = Some [r; g; b]]: the line holds one RGB triple. *)
Definition triple (line : string) : option (list float) :=
  if pystring.startswith line "#" then None
  else match tokens line with
       | [p0; p1; p2] =>
           if String.eqb (pystring.lower p0) "lut_3d_size" then None
           else match StringToFloat p0, StringToFloat p1, StringToFloat p2 with
                | Some r, Some g, Some b => Some [r; g; b]
                | _, _, _ => None
                end
       | _ => None
       end.

Definition is_triple (line : string) : bool :=
  match triple line with Some _ => true | None => false end.

Definition triple_values (line : string) : list float :=
  match triple line with Some v => v | None => [] end.

(** The lines of a stream that are neither blank nor comments. *)
Definition data_lines (strm : istream) : list string :=
  filter (fun line => negb (is_skipped line)) (ParseUtils.nextlines strm).

End WithExternals.

End ItxLines.

Module Spi1DLines.

(** The lines the header loop of the .spi1d reader reads: up to the first
    line that starts with an opening brace, or to the end of the stream. *)
Fixpoint header_lines (strm : istream) : list string :=
  let '(buffer, strm') := getline Spi1D.MAX_LINE_SIZE strm in
  let lineBuffer := c_str buffer in
  match strm with
  | [] => [lineBuffer]
  | _ :: rest =>
      if good strm' && negb (pystring.startswith lineBuffer "{")
      then lineBuffer :: header_lines rest
      else [lineBuffer]
  end.

End Spi1DLines.

Module Scenario.

Definition nl : string := String newline "".

(** Scenario C of the specification. *)
Definition C_text : string :=
  "Version 1" ++ nl ++ "Components 1" ++ nl ++ "Length 2" ++ nl
  ++ "{" ++ nl ++ "        0.0" ++ nl ++ "        1.0" ++ nl ++ "}" ++ nl.

(** One entry declared, two listed. *)
Definition overlong_text : string :=
  "Version 1" ++ nl ++ "Components 1" ++ nl ++ "Length 1" ++ nl
  ++ "{" ++ nl ++ "        0.0" ++ nl ++ "        1.0" ++ nl ++ "}" ++ nl.



(** Scenario A of the specification: the cube of the format's own
    documentation. *)
Definition A_text : string :=
  "LUT_3D_SIZE 2" ++ nl
  ++ "0.0 0.0 0.0" ++ nl ++ "1.0 0.0 0.0" ++ nl
  ++ "0.0 1.0 0.0" ++ nl ++ "1.0 1.0 0.0" ++ nl
  ++ "0.0 0.0 1.0" ++ nl ++ "1.0 0.0 1.0" ++ nl
  ++ "0.0 1.0 1.0" ++ nl ++ "1.0 1.0 1.0" ++ nl.




End Scenario.

Module ItxOutput.

Section WithExternals.
Context `{Externals}.

(** The edge size of a bake: 64 when the baker's cube size is unset (-1),
    and never below 2. *)
Definition edge_size (requested : Z) : Z :=
  if requested =? -1 then 64 else Z.max 2 requested.

(** Pixel [j] of a packed RGB buffer. *)
Definition pixel (cubeData : list float) (j : nat) : float * float * float :=
  (nth (3 * j) cubeData float_zero,
   nth (3 * j + 1) cubeData float_zero,
   nth (3 * j + 2) cubeData float_zero).

Definition pixels (cubeData : list float) (n : nat) : list (float * float * float) :=
  map (pixel cubeData) (seq 0 n).

(** One line for an RGB triple: three numbers in fixed notation with 6
    decimals, separated by a space. *)
Definition row_text (rgb : float * float * float) : string :=
  let '(r, g, b) := rgb in
  put_float_fixed 6 r ++ " " ++ put_float_fixed 6 g ++ " "
  ++ put_float_fixed 6 b ++ String newline "".

Fixpoint put_rows (rows : list (float * float * float)) : string :=
  match rows with
  | [] => ""
  | rgb :: rest => row_text rgb ++ put_rows rest
  end.

End WithExternals.

End ItxOutput.

(** A bake request for the instance [Binary32.externals]: cube size 2 and a
    config whose processors leave the image as it is. *)
Module BakeScenario.

Definition identity_cpu : @IridasItx.CPUProcessor Binary32.externals :=
  {| IridasItx.apply := fun img => Ok img;
     IridasItx.apply_in_place :=
       fun img img' (E : Ok img = Ok img') =>
         match E in (_ = o)
               return (match o with
                       | Ok i => length i = length img
                       | _ => True
                       end)
         with
         | eq_refl => eq_refl
         end |}.

Definition identity_config : @IridasItx.Config Binary32.externals :=
  {| IridasItx.getProcessor :=
       fun _ _ => Ok {| IridasItx.getDefaultCPUProcessor := Ok identity_cpu |};
     IridasItx.getProcessor_transform :=
       fun _ _ => Ok {| IridasItx.getDefaultCPUProcessor := Ok identity_cpu |} |}.

(** A config that knows no color space. *)
Definition empty_config : @IridasItx.Config Binary32.externals :=
  {| IridasItx.getProcessor :=
       fun src _ => Throw (Exception ("Color space '" ++ src ++ "' could not be found."));
     IridasItx.getProcessor_transform :=
       fun _ _ => Throw (Exception "Look could not be found.") |}.

Definition baker_of (config : @IridasItx.Config Binary32.externals) (cubeSize : Z)
  : @IridasItx.Baker Binary32.externals :=
  {| IridasItx.getConfig := config;
     IridasItx.getCubeSize := cubeSize;
     IridasItx.getLooks := "";
     IridasItx.getInputSpace := "lnf";
     IridasItx.getTargetSpace := "lnf" |}.

Definition baker (cubeSize : Z) : @IridasItx.Baker Binary32.externals :=
  baker_of identity_config cubeSize.

End BakeScenario.

From Stdlib Require Import DecimalPos.

(* ================================================================== *)
(** ** More vocabulary *)

Module ItxMore.

Section WithExternals.
Context `{Externals}.

(** A line whose first field is the size tag, whatever follows it. *)
Definition is_tag (line : string) : bool :=
  negb (pystring.startswith line "#")
  && match ItxLines.tokens line with
     | p0 :: _ => String.eqb (pystring.lower p0) "lut_3d_size"
     | [] => false
     end.

(** An edge size whose [3*size^3] values fit an [int]. *)
Definition size_ok (s : Z) : Prop := 0 <= s /\ 3 * s * s * s <= INT_MAX.



End WithExternals.

End ItxMore.

Module Spi1DMore.

Section WithExternals.
Context `{Externals}.

(** The three values the body loop stores for the numbers of one line. *)
Definition entry (components : Z) (values : list float) : option (list float) :=
  match values with
  | [x] => if components =? 1 then Some [x; x; x] else None
  | [x; y] => if components =? 2 then Some [x; y; float_zero] else None
  | [x; y; z] => if components =? 3 then Some [x; y; z] else None
  | _ => None
  end.

(** What a line of the body stands for, when it fits the line buffer and is
    not the closing brace: nothing for a blank line, three values for a line
    of [components] numbers. *)
Definition body_entry (components : Z) (seg : string) : option (list float) :=
  let line := pystring.strip (c_str seg) in
  if negb (String.length seg <=? 4095)%nat then None
  else if String.eqb (pystring.lower line) "}" then None
  else if (String.length line =? 0)%nat then Some []
  else match ParseUtils.StringVecToFloatVec (pystring.split line) with
       | Some values => entry components values
       | None => None
       end.

(** The number of entries among the lines. *)
Definition entries_count (entries : list (list float)) : nat :=
  length (filter (fun e => match e with [] => false | _ :: _ => true end) entries).

(** The body loop stops at [close]: it is the closing brace, or reading it
    leaves the stream at its end or failed. *)
Definition closes (close : string) (tail : istream) : bool :=
  negb (good tail) || negb (String.length close <=? 4095)%nat
  || String.eqb (pystring.lower (pystring.strip (c_str close))) "}".

(** A line of the body the loop stops at with "Malformed LUT line.": read
    whole, neither the closing brace nor blank, and not [components]
    numbers. *)
Definition is_malformed (components : Z) (seg : string) : bool :=
  let line := pystring.strip (c_str seg) in
  (String.length seg <=? 4095)%nat
  && negb (String.eqb (pystring.lower line) "}")
  && negb (String.length line =? 0)%nat
  && match ParseUtils.StringVecToFloatVec (pystring.split line) with
     | Some values =>
         negb (components =? static_cast_int (Z.of_nat (length values)))
     | None => true
     end.

(** A line the header loop reads whole and passes over: it starts with none
    of the tags and not with the opening brace. *)
Definition is_plain (seg : string) : bool :=
  (String.length seg <=? 4095)%nat
  && negb (pystring.startswith (c_str seg) "Version")
  && negb (pystring.startswith (c_str seg) "From")
  && negb (pystring.startswith (c_str seg) "Components")
  && negb (pystring.startswith (c_str seg) "Length")
  && negb (pystring.startswith (c_str seg) "{").

(** The message of the header loop for a line whose tag it cannot take. *)
Definition header_error (lineBuffer : string) : option string :=
  if pystring.startswith lineBuffer "Version" then
    match Scan.sscanf_d "Version" lineBuffer with
    | Ok None => Some "Invalid 'Version' Tag."
    | Ok (Some v) =>
        if negb (v =? 1) then Some "Only format version 1 supported." else None
    | _ => None
    end
  else if pystring.startswith lineBuffer "From" then
    match Spi1D.sscanf_f_f "From" lineBuffer with
    | None => Some "Invalid 'From' Tag."
    | Some _ => None
    end
  else if pystring.startswith lineBuffer "Components" then
    match Scan.sscanf_d "Components" lineBuffer with
    | Ok None => Some "Invalid 'Components' Tag."
    | _ => None
    end
  else if pystring.startswith lineBuffer "Length" then
    match Scan.sscanf_d "Length" lineBuffer with
    | Ok None => Some "Invalid 'Length' Tag."
    | _ => None
    end
  else None.

End WithExternals.

End Spi1DMore.

(* ================================================================== *)
(** ** The text [bake] writes, as [read] sees it *)

Module BakedText.

Fixpoint all_chars (p : ascii -> bool) (s : string) : bool :=
  match s with
  | EmptyString => true
  | String c s' => p c && all_chars p s'
  end.

Definition not_space (c : ascii) : bool := negb (pystring.isspace c).
Definition not_newline (c : ascii) : bool := negb (Ascii.eqb c newline).

(** A field of a line: not empty and without white space. *)
Definition is_word (w : string) : bool :=
  negb (String.eqb w "") && all_chars not_space w.

Section WithExternals.
Context `{Externals}.

(** A printed number that the reader takes as a field of a triple: a word
    that neither starts a comment nor is the size tag. *)
Definition is_field (t : string) : bool :=
  is_word t && negb (pystring.startswith t "#")
  && negb (String.eqb (pystring.lower t) "lut_3d_size").

(** [reads_back x y]: the text [bake] writes for [x] is a field, and [read]
    gets [y] from it. *)
Definition reads_back (x y : float) : Prop :=
  is_field (put_float_fixed 6 x) = true
  /\ StringToFloat (pystring.lower (put_float_fixed 6 x)) = Some y.

(** The pixels of a packed RGB buffer. *)
Fixpoint chunks (cubeData : list float) : list (float * float * float) :=
  match cubeData with
  | r :: g :: b :: rest => (r, g, b) :: chunks rest
  | _ => []
  end.

(** A row of the output without its newline. *)
Definition row_line (rgb : float * float * float) : string :=
  let '(r, g, b) := rgb in
  String.concat " " [put_float_fixed 6 r; put_float_fixed 6 g;
                     put_float_fixed 6 b].

End WithExternals.

End BakedText.

(* ================================================================== *)
(** ** FixedFunctionOp.cpp: the other members and the free functions *)

Module FixedFunctionMore.

(** What the file calls on the payload besides [finalize]:
    [FixedFunctionOpData::isIdentity], [isInverse] and [inverse] are not
    among the sources; they are an interface here. *)
Class PayloadOps `{Externals} : Type := {
  FixedFunctionOpData_isIdentity : FixedFunctionOpData -> bool;
  FixedFunctionOpData_isInverse : FixedFunctionOpData -> FixedFunctionOpData -> bool;
  FixedFunctionOpData_inverse : FixedFunctionOpData -> outcome FixedFunctionOpData
}.

Section WithExternals.
Context `{Externals} `{!PayloadOps}.

(** Modelled from the spec: [FixedFunctionOpData::validate] is not among
    the sources.  Spec sections 2 and 4.3: each payload "knows how to
    validate itself", and [finalize] "performs final payload validation":
    the validation of [FixedFunctionOpData_finalize]. *)
Definition FixedFunctionOpData_validate (d : FixedFunctionOpData) : outcome unit :=
  FixedFunction_validate (ff_style d) (ff_params d).

(** Modelled from the spec: the constructor [FixedFunctionOpData(params,
    style)] and [clone] are not among the sources.  Spec section 3: the
    payload is "a style tag ... plus an ordered list of numeric parameters";
    its fingerprint is computed by [finalize]. *)
Definition FixedFunctionOpData_new (params : list double) (style : Style)
  : FixedFunctionOpData :=
  {| ff_style := style; ff_params := params; ff_cacheID := "" |}.

Definition FixedFunctionOpData_clone (d : FixedFunctionOpData)
  : FixedFunctionOpData := d.

(** [FixedFunctionOp(func)]: [Op()], then [data() = func]. *)
Definition FixedFunctionOp_new (func : FixedFunctionOpData) : FixedFunctionOp :=
  {| fnData := func; m_cacheID := "" |}.

Definition clone (self : FixedFunctionOp) : Op :=
  let f := FixedFunctionOpData_clone (fnData self) in
  OfFixedFunctionOp (FixedFunctionOp_new f).

Definition isIdentity (self : FixedFunctionOp) : bool :=
  FixedFunctionOpData_isIdentity (fnData self).

Definition isInverse (self : FixedFunctionOp) (op : Op) : bool :=
  match op with
  | OfFixedFunctionOp typedRcPtr =>
      let fnOpData := fnData typedRcPtr in
      FixedFunctionOpData_isInverse (fnData self) fnOpData
  | _ => false
  end.

(** [CreateFixedFunctionOp(ops, funcData, direction)]: the [ops] vector
    afterwards and the outcome. *)
Definition CreateFixedFunctionOp (ops : OpRcPtrVec) (funcData : FixedFunctionOpData)
           (direction : TransformDirection) : OpRcPtrVec * outcome unit :=
  let func :=
    match direction with
    | TRANSFORM_DIR_INVERSE => FixedFunctionOpData_inverse funcData
    | _ => Ok funcData
    end in
  match func with
  | Ok func => ((ops ++ [OfFixedFunctionOp (FixedFunctionOp_new func)])%list, Ok tt)
  | Throw e => (ops, Throw e)
  | Undefined u => (ops, Undefined u)
  end.

(** [CreateFixedFunctionOp(ops, params, style)] *)
Definition CreateFixedFunctionOp_params (ops : OpRcPtrVec) (params : list double)
           (style : Style) : OpRcPtrVec * outcome unit :=
  let funcData := FixedFunctionOpData_new params style in
  CreateFixedFunctionOp ops funcData TRANSFORM_DIR_FORWARD.

(** The part of a [FixedFunctionTransform] the file uses: its payload. *)
Record FixedFunctionTransform : Type := {
  data : FixedFunctionOpData
}.

(** A [GroupTransform] as the transforms appended to it. *)
Definition GroupTransform : Type := list FixedFunctionTransform.

(** [CreateFixedFunctionTransform]: the group afterwards and the outcome. *)
Definition CreateFixedFunctionTransform (group : GroupTransform) (op : Op)
  : GroupTransform * outcome unit :=
  match op with
  | OfFixedFunctionOp ff =>
      let ffData := fnData ff in
      let ffTransform := {| data := ffData |} in
      ((group ++ [ffTransform])%list, Ok tt)
  | _ =>
      (group,
       Throw (Exception "CreateFixedFunctionTransform: op has to be a FixedFunctionOp"))
  end.

(** [BuildFixedFunctionOp]: the [ops] vector afterwards and the outcome. *)
Definition BuildFixedFunctionOp (ops : OpRcPtrVec) (transform : FixedFunctionTransform)
           (dir : TransformDirection) : OpRcPtrVec * outcome unit :=
  match FixedFunctionOpData_validate (data transform) with
  | Ok _ =>
      let funcData := FixedFunctionOpData_clone (data transform) in
      CreateFixedFunctionOp ops funcData dir
  | Throw e => (ops, Throw e)
  | Undefined u => (ops, Undefined u)
  end.

End WithExternals.

End FixedFunctionMore.

(** A payload interface for [Binary32.externals]: two styles that are each
    other's inverse; no other style has one. *)
Module SamplePayload.

Import Binary32.

Definition inverse_style (style : string) : option string :=
  if String.eqb style "ACES_RedMod03_Fwd" then Some "ACES_RedMod03_Inv"
  else if String.eqb style "ACES_RedMod03_Inv" then Some "ACES_RedMod03_Fwd"
  else None.

#[export] Instance payload_ops : FixedFunctionMore.PayloadOps := {|
  FixedFunctionMore.FixedFunctionOpData_isIdentity := fun _ => false;
  FixedFunctionMore.FixedFunctionOpData_isInverse :=
    fun a b =>
      match inverse_style (ff_style a) with
      | Some s => String.eqb s (ff_style b)
      | None => false
      end;
  FixedFunctionMore.FixedFunctionOpData_inverse :=
    fun d =>
      match inverse_style (ff_style d) with
      | Some s => Ok {| ff_style := s;
                        ff_params := ff_params d;
                        ff_cacheID := ff_cacheID d |}
      | None => Throw (Exception "no inverse")
      end
|}.

End SamplePayload.

(* ================================================================== *)
(** ** More streams *)

Module MoreScenario.

Definition nl : string := Scenario.nl.
Definition crnl : string := String "013"%char nl.

(** A cube of edge 1 after a comment and a blank line, with DOS line ends. *)
Definition one_text : string :=
  "# a single entry" ++ crnl ++ crnl
  ++ "LUT_3D_SIZE 1" ++ crnl ++ "1.0 0.0 1.0" ++ crnl.



(** A line with two numbers among the triples. *)
Definition bad_triple_text : string :=
  "LUT_3D_SIZE 2" ++ nl ++ "0.0 0.0 0.0" ++ nl ++ "1.0 0.0" ++ nl
  ++ "0.0 1.0 0.0" ++ nl.

(** A negative size. *)
Definition negative_text : string :=
  "# inside out" ++ nl ++ "LUT_3D_SIZE -1" ++ nl ++ "0.0 0.0 0.0" ++ nl.

(** Two entries of two components, with a domain and a blank line. *)
Definition two_text : string :=
  "Version 1" ++ nl ++ "From 0.0 1.0" ++ nl ++ "Components 2" ++ nl
  ++ "Length 2" ++ nl ++ "{" ++ nl
  ++ "0.0 1.0" ++ nl ++ nl ++ "1.0 0.0" ++ nl ++ "}" ++ nl.

(** One entry declared, two listed, three components. *)
Definition many_text : string :=
  "Version 1" ++ nl ++ "Components 3" ++ nl ++ "Length 1" ++ nl ++ "{" ++ nl
  ++ "0.0 0.0 0.0" ++ nl ++ "1.0 1.0 1.0" ++ nl ++ "}" ++ nl.

(** A line with two numbers in a body of three components. *)
Definition short_line_text : string :=
  "Version 1" ++ nl ++ "Components 3" ++ nl ++ "Length 2" ++ nl ++ "{" ++ nl
  ++ "0.0 0.0 0.0" ++ nl ++ "1.0 1.0" ++ nl ++ "}" ++ nl.

(** A size tag of 1 with one triple, then a size tag of 2 with seven. *)
Definition two_tags_text : string :=
  "LUT_3D_SIZE 1" ++ nl ++ "0.0 0.0 0.0" ++ nl
  ++ "LUT_3D_SIZE 2" ++ nl ++ "1.0 0.0 0.0" ++ nl
  ++ "0.0 1.0 0.0" ++ nl ++ "1.0 1.0 0.0" ++ nl
  ++ "0.0 0.0 1.0" ++ nl ++ "1.0 0.0 1.0" ++ nl
  ++ "0.0 1.0 1.0" ++ nl ++ "1.0 1.0 1.0" ++ nl.

(** A size whose cube, times three, does not fit an [int]. *)
Definition large_text : string :=
  "# too large" ++ nl ++ "LUT_3D_SIZE 895" ++ nl ++ "0.0 0.0 0.0" ++ nl.

(** Scenario C of the specification after two lines that carry no tag. *)
Definition titled_text : string :=
  "# made by hand" ++ nl ++ "Units none" ++ nl ++ Scenario.C_text.

(** A version the reader does not know. *)
Definition version_two_text : string :=
  "# made by hand" ++ nl ++ "Version 2" ++ nl ++ "Length 2" ++ nl.

End MoreScenario.

(* ================================================================== *)
(** * Properties *)

Section Properties.
Context `{Externals}.

(** ** Strings and integers *)

Lemma string_app_assoc :
  forall a b c : string, (a ++ b) ++ c = a ++ (b ++ c).
Proof.
  induction a as [|x a IH]; intros b c; cbn; [reflexivity|]. now rewrite IH.
Qed.


Lemma int_incr_ok :
  forall n, 0 <= n < INT_MAX -> int_incr n = Ok (n + 1).
Proof.
  intros n B. unfold int_incr, int_of, in_int, INT_MIN, INT_MAX in *.
  change (2 ^ 31) with 2147483648 in *.
  rewrite (proj2 (Z.leb_le _ _)) by lia.
  rewrite (proj2 (Z.leb_le _ _)) by lia. reflexivity.
Qed.

(** ** FixedFunctionOp *)

(** C7: for a FixedFunctionOp, [canCombineWith] is false for every other op,
    and [combineWith] with any second op throws the contract-violation
    exception and leaves the ops vector as it was. *)
Theorem fixedfunction_combine_contract :
  forall (self : FixedFunctionOp) (secondOp : Op) (ops : OpRcPtrVec),
    FixedFunction.canCombineWith self secondOp = false /\
    FixedFunction.combineWith self ops secondOp =
      (ops, Throw (Exception
         "FixedFunctionOp: canCombineWith must be checked before calling combineWith.")).
Proof.
  intros self secondOp ops. split; reflexivity.
Qed.

Lemma payload_finalize_again :
  forall d d', FixedFunctionOpData_finalize d = Ok d' ->
               FixedFunctionOpData_finalize d' = Ok d'.
Proof.
  intros d d'. unfold FixedFunctionOpData_finalize, bind.
  destruct (FixedFunction_validate (ff_style d) (ff_params d)) eqn:V;
    intros E; inversion E; subst; clear E.
  cbn [ff_style ff_params]. rewrite V. reflexivity.
Qed.

(** C8: finalizing a FixedFunctionOp a second time gives the cacheID of the
    first time; the cacheID is the kind tag around the payload's own cacheID,
    whatever the optimization flags. *)
Theorem fixedfunction_finalize_idempotent :
  forall (self op1 : FixedFunctionOp) (oFlags oFlags' : FixedFunction.OptimizationFlags),
    FixedFunction.finalize self oFlags = Ok op1 ->
    m_cacheID op1 = "<FixedFunctionOp " ++ getCacheID (fnData op1) ++ " >"
    /\ FixedFunction.finalize self oFlags' = Ok op1
    /\ exists op2, FixedFunction.finalize op1 oFlags' = Ok op2
                   /\ m_cacheID op2 = m_cacheID op1.
Proof.
  intros self op1 oFlags oFlags'. unfold FixedFunction.finalize, bind.
  destruct (FixedFunctionOpData_finalize (fnData self)) as [d| |] eqn:F;
    intros E; inversion E; subst; clear E.
  cbn [m_cacheID fnData].
  split; [unfold getCacheID; cbn [append]; now rewrite !string_app_assoc|].
  split; [reflexivity|].
  rewrite (payload_finalize_again _ _ F). eexists. split; reflexivity.
Qed.

(** ** Chain assembly *)

Lemma itx_buildFileOps_unknown :
  forall ops untypedCachedFile fileTransform dir,
    CombineTransformDirections dir (getDirection fileTransform) = TRANSFORM_DIR_UNKNOWN ->
    exists e, IridasItx.buildFileOps ops untypedCachedFile fileTransform dir
              = (ops, Throw e).
Proof.
  intros ops c ft dir U. unfold IridasItx.buildFileOps.
  destruct c; try (eexists; reflexivity).
  rewrite U. eexists; reflexivity.
Qed.

Lemma spi1d_buildFileOps_not_forward :
  forall ops cachedFile fileTransform dir,
    CombineTransformDirections dir (getDirection fileTransform) <> TRANSFORM_DIR_FORWARD ->
    let min := (double_of_float (from_min cachedFile),
                double_of_float (from_min cachedFile),
                double_of_float (from_min cachedFile)) in
    let max := (double_of_float (from_max cachedFile),
                double_of_float (from_max cachedFile),
                double_of_float (from_max cachedFile)) in
    let lut1d := Lut1D_setInterpolation (lut cachedFile) (getInterpolation fileTransform) in
    Spi1D.buildFileOps ops (CachedSpi1D cachedFile) fileTransform dir
    = ((ops ++ [Lut1DOp lut1d TRANSFORM_DIR_INVERSE;
                MinMaxOp min max TRANSFORM_DIR_INVERSE])%list, Ok tt).
Proof.
  intros ops cf ft dir N. cbv zeta. unfold Spi1D.buildFileOps.
  unfold CreateMinMaxOp, CreateLut1DOp.
  destruct (CombineTransformDirections dir (getDirection ft));
    try contradiction; rewrite <- app_assoc; reflexivity.
Qed.

(** C1: under a requested direction Unknown the combined direction is
    Unknown.  The .itx adapter then throws and leaves [ops] as it was.  The
    .spi1d adapter does not: it returns normally and has appended the two Ops
    of the inverse chain, exactly as for a request of the inverse. *)
Theorem spi1d_buildFileOps_unknown_appends :
  forall ops cachedFile fileTransform,
    let min := (double_of_float (from_min cachedFile),
                double_of_float (from_min cachedFile),
                double_of_float (from_min cachedFile)) in
    let max := (double_of_float (from_max cachedFile),
                double_of_float (from_max cachedFile),
                double_of_float (from_max cachedFile)) in
    let lut1d := Lut1D_setInterpolation (lut cachedFile) (getInterpolation fileTransform) in
    CombineTransformDirections TRANSFORM_DIR_UNKNOWN (getDirection fileTransform)
      = TRANSFORM_DIR_UNKNOWN
    /\ (forall untypedCachedFile, exists e,
          IridasItx.buildFileOps ops untypedCachedFile fileTransform TRANSFORM_DIR_UNKNOWN
          = (ops, Throw e))
    /\ Spi1D.buildFileOps ops (CachedSpi1D cachedFile) fileTransform TRANSFORM_DIR_UNKNOWN
       = ((ops ++ [Lut1DOp lut1d TRANSFORM_DIR_INVERSE;
                   MinMaxOp min max TRANSFORM_DIR_INVERSE])%list, Ok tt)
    /\ Spi1D.buildFileOps ops (CachedSpi1D cachedFile) fileTransform TRANSFORM_DIR_UNKNOWN
       = Spi1D.buildFileOps ops (CachedSpi1D cachedFile)
           {| getDirection := TRANSFORM_DIR_FORWARD;
              getInterpolation := getInterpolation fileTransform |}
           TRANSFORM_DIR_INVERSE.
Proof.
  intros ops cf ft. cbv zeta. split; [reflexivity|]. split; [|split].
  - intros c. apply itx_buildFileOps_unknown. reflexivity.
  - apply spi1d_buildFileOps_not_forward. discriminate.
  - rewrite !spi1d_buildFileOps_not_forward by discriminate. reflexivity.
Qed.

(** C2: for a cached spi1d file, a combined direction Forward appends
    [MinMaxOp(Forward); Lut1DOp(Forward)], and a combined direction Inverse
    appends [Lut1DOp(Inverse); MinMaxOp(Inverse)]. *)
Theorem spi1d_buildFileOps_chain :
  forall ops cachedFile fileTransform dir,
    let min := (double_of_float (from_min cachedFile),
                double_of_float (from_min cachedFile),
                double_of_float (from_min cachedFile)) in
    let max := (double_of_float (from_max cachedFile),
                double_of_float (from_max cachedFile),
                double_of_float (from_max cachedFile)) in
    let lut1d := Lut1D_setInterpolation (lut cachedFile) (getInterpolation fileTransform) in
    (CombineTransformDirections dir (getDirection fileTransform) = TRANSFORM_DIR_FORWARD ->
     Spi1D.buildFileOps ops (CachedSpi1D cachedFile) fileTransform dir
     = ((ops ++ [MinMaxOp min max TRANSFORM_DIR_FORWARD;
                 Lut1DOp lut1d TRANSFORM_DIR_FORWARD])%list, Ok tt))
    /\
    (CombineTransformDirections dir (getDirection fileTransform) = TRANSFORM_DIR_INVERSE ->
     Spi1D.buildFileOps ops (CachedSpi1D cachedFile) fileTransform dir
     = ((ops ++ [Lut1DOp lut1d TRANSFORM_DIR_INVERSE;
                 MinMaxOp min max TRANSFORM_DIR_INVERSE])%list, Ok tt)).
Proof.
  intros ops cf ft dir. cbv zeta. split; intros D.
  - unfold Spi1D.buildFileOps, CreateMinMaxOp, CreateLut1DOp.
    rewrite D, <- app_assoc. reflexivity.
  - apply spi1d_buildFileOps_not_forward. rewrite D. discriminate.
Qed.

(** ** The .itx reader *)

Lemma itx_read_line_skipped :
  forall fileName line n st,
    ItxLines.is_skipped line = true ->
    IridasItx.read_line fileName line n st = Ok st.
Proof.
  intros f line n st. unfold ItxLines.is_skipped, ItxLines.tokens, IridasItx.read_line.
  destruct (pystring.startswith line "#"); [reflexivity|]. cbn [orb].
  destruct (pystring.split _); [reflexivity | discriminate].
Qed.

Lemma itx_read_line_size_2 :
  forall fileName line n st,
    ItxLines.size_tag line = Some 2 ->
    IridasItx.read_line fileName line n st
    = Ok {| IridasItx.raw := IridasItx.raw st;
            IridasItx.size3d := 2;
            IridasItx.in3d := true |}.
Proof.
  intros f line n st. unfold ItxLines.size_tag, ItxLines.tokens, IridasItx.read_line.
  destruct (pystring.startswith line "#"); [discriminate|].
  destruct (pystring.split _) as [|p0 [|p1 [|p2 ps]]]; try discriminate.
  destruct (String.eqb (pystring.lower p0) "lut_3d_size"); [|discriminate].
  intros ->. reflexivity.
Qed.

Lemma itx_read_line_triple :
  forall fileName line n st v,
    IridasItx.in3d st = true ->
    ItxLines.triple line = Some v ->
    IridasItx.read_line fileName line n st
    = Ok {| IridasItx.raw := (IridasItx.raw st ++ v)%list;
            IridasItx.size3d := IridasItx.size3d st;
            IridasItx.in3d := true |}.
Proof.
  intros f line n st v I. unfold ItxLines.triple, ItxLines.tokens, IridasItx.read_line.
  destruct (pystring.startswith line "#"); [discriminate|].
  destruct (pystring.split _) as [|p0 [|p1 [|p2 [|p3 ps]]]]; try discriminate.
  destruct (String.eqb (pystring.lower p0) "lut_3d_size"); [discriminate|].
  rewrite I. cbn [ParseUtils.StringVecToFloatVec].
  destruct (StringToFloat p0); [|discriminate].
  destruct (StringToFloat p1); [|discriminate].
  destruct (StringToFloat p2); [|discriminate].
  intros E. inversion E. reflexivity.
Qed.

Lemma itx_triple_values_length :
  forall body,
    Forall (fun l => ItxLines.is_triple l = true) body ->
    length (flat_map ItxLines.triple_values body) = (3 * length body)%nat.
Proof.
  induction 1 as [|l body T _ IH]; [reflexivity|].
  cbn [flat_map length]. rewrite length_app, IH.
  unfold ItxLines.is_triple, ItxLines.triple_values, ItxLines.triple in *.
  destruct (pystring.startswith l "#"); [discriminate|].
  destruct (ItxLines.tokens l) as [|p0 [|p1 [|p2 [|p3 ps]]]]; try discriminate.
  destruct (String.eqb (pystring.lower p0) "lut_3d_size"); [discriminate|].
  destruct (StringToFloat p0); [|discriminate].
  destruct (StringToFloat p1); [|discriminate].
  destruct (StringToFloat p2); [|discriminate].
  cbn [length]. lia.
Qed.

(** Once the size tag is read, triples and skipped lines only extend [raw]. *)
Lemma itx_read_lines_triples :
  forall fileName lines n st,
    0 <= n -> n + Z.of_nat (length lines) <= INT_MAX ->
    IridasItx.in3d st = true ->
    Forall (fun l => ItxLines.is_triple l = true)
           (filter (fun l => negb (ItxLines.is_skipped l)) lines) ->
    IridasItx.read_lines fileName lines n st
    = Ok {| IridasItx.raw :=
              (IridasItx.raw st
               ++ flat_map ItxLines.triple_values
                    (filter (fun l => negb (ItxLines.is_skipped l)) lines))%list;
            IridasItx.size3d := IridasItx.size3d st;
            IridasItx.in3d := true |}.
Proof.
  intros f lines. induction lines as [|l ls IH]; intros n st N0 B I T.
  - cbn. rewrite app_nil_r. destruct st; cbn in *; now subst.
  - cbn [IridasItx.read_lines]. cbn [length] in B.
    rewrite int_incr_ok by lia. cbn [bind].
    cbn [filter] in *. destruct (ItxLines.is_skipped l) eqn:S; cbn [negb] in *.
    + rewrite itx_read_line_skipped by exact S. cbn [bind].
      apply IH; try assumption; lia.
    + inversion T as [|x xs Tl Tls]; subst.
      unfold ItxLines.is_triple in Tl.
      destruct (ItxLines.triple l) as [v|] eqn:V; [|discriminate].
      rewrite (itx_read_line_triple f l (n + 1) st v I V). cbn [bind].
      rewrite IH; try assumption; try reflexivity; try lia.
      cbn [IridasItx.raw IridasItx.size3d flat_map].
      unfold ItxLines.triple_values at 2. rewrite V, <- app_assoc. reflexivity.
Qed.

(** The line loop on a stream whose data lines are a size tag 2 and
    triples. *)
Lemma itx_read_lines_cube_2 :
  forall fileName lines n st hdr body,
    0 <= n -> n + Z.of_nat (length lines) <= INT_MAX ->
    filter (fun l => negb (ItxLines.is_skipped l)) lines = hdr :: body ->
    ItxLines.size_tag hdr = Some 2 ->
    Forall (fun l => ItxLines.is_triple l = true) body ->
    IridasItx.read_lines fileName lines n st
    = Ok {| IridasItx.raw :=
              (IridasItx.raw st ++ flat_map ItxLines.triple_values body)%list;
            IridasItx.size3d := 2;
            IridasItx.in3d := true |}.
Proof.
  intros f lines. induction lines as [|l ls IH]; intros n st hdr body N0 B F S T.
  - discriminate.
  - cbn [IridasItx.read_lines]. cbn [length] in B.
    rewrite int_incr_ok by lia. cbn [bind].
    cbn [filter] in F. destruct (ItxLines.is_skipped l) eqn:K; cbn [negb] in F.
    + rewrite itx_read_line_skipped by exact K. cbn [bind].
      apply (IH (n + 1) st hdr body); try assumption; lia.
    + inversion F; subst.
      rewrite itx_read_line_size_2 by exact S. cbn [bind].
      rewrite itx_read_lines_triples; try assumption; try reflexivity; lia.
Qed.

Lemma itx_read_state :
  forall strm fileName st,
    good strm = true ->
    IridasItx.read_lines fileName (ParseUtils.nextlines strm) 0
      {| IridasItx.raw := []; IridasItx.size3d := 0; IridasItx.in3d := false |}
    = Ok st ->
    IridasItx.read strm fileName
    = (if IridasItx.in3d st then
         s2 <- int_mul (IridasItx.size3d st) (IridasItx.size3d st) ;;
         s3 <- int_mul s2 (IridasItx.size3d st) ;;
         let found := (N.of_nat (length (IridasItx.raw st)) / 3)%N in
         if negb (s3 =? static_cast_int (Z.of_N found)) then
           IridasItx.ThrowErrorMessage
             ("Incorrect number of 3D LUT entries. "
              ++ "Found " ++ put_size_t found ++ ", expected " ++ put_int s3 ++ ".")
             fileName (-1) ""
         else
           lut3d <- setArrayFromRedFastestOrder
                      (Lut3D_setFileOutputBitDepth
                         (Lut3DOpData_new (to_unsigned_long (IridasItx.size3d st)))
                         BIT_DEPTH_F32)
                      (IridasItx.raw st) ;;
           Ok {| lut3D := Some lut3d |}
       else IridasItx.ThrowErrorMessage "No 3D LUT found." fileName (-1) "").
Proof.
  intros strm f st G R. unfold IridasItx.read. rewrite G, R. reflexivity.
Qed.


(** C4: an .itx stream whose data lines are a tag [LUT_3D_SIZE 2] and eight
    RGB triples is accepted; the LUT3D has edge 2 and its flat array is the
    24 values of the triples, in the order of the stream. *)
Theorem itx_read_eight_triples :
  forall strm fileName hdr body,
    good strm = true ->
    Z.of_nat (length (ParseUtils.nextlines strm)) <= INT_MAX ->
    ItxLines.data_lines strm = hdr :: body ->
    ItxLines.size_tag hdr = Some 2 ->
    Forall (fun l => ItxLines.is_triple l = true) body ->
    length body = 8%nat ->
    IridasItx.read strm fileName
    = Ok {| lut3D :=
              Some {| lut3d_gridSize := 2;
                      lut3d_array := flat_map ItxLines.triple_values body;
                      lut3d_interpolation := INTERP_DEFAULT;
                      lut3d_fileOutputBitDepth := BIT_DEPTH_F32 |} |}
    /\ length (flat_map ItxLines.triple_values body) = 24%nat.
Proof.
  intros strm f hdr body G B D S T L.
  assert (N : length (flat_map ItxLines.triple_values body) = 24%nat).
  { rewrite (itx_triple_values_length body T), L. reflexivity. }
  split; [|exact N].
  rewrite (itx_read_state strm f _ G
             (itx_read_lines_cube_2 f _ 0 _ hdr body (Z.le_refl 0) B D S T)).
  cbn [IridasItx.in3d IridasItx.size3d IridasItx.raw app].
  rewrite N.
  change (int_mul 2 2) with (Ok 4). cbn [bind].
  change (int_mul 4 2) with (Ok 8). cbn [bind].
  change (negb (8 =? static_cast_int (Z.of_N (N.of_nat 24 / 3)))) with false.
  cbv iota zeta.
  unfold setArrayFromRedFastestOrder. rewrite N. reflexivity.
Qed.

(** ** The .spi1d reader: the header *)


(** The header checks, case by case. *)
Lemma spi1d_check_header_cases :
  forall fileName h,
    Spi1D.check_header fileName h
    = if Spi1D.version h =? -1
      then Spi1D.ThrowErrorMessage "Could not find 'Version' Tag." fileName (-1) ""
      else if Spi1D.lut_size h =? -1
      then Spi1D.ThrowErrorMessage "Could not find 'Length' Tag." fileName (-1) ""
      else if Spi1D.components h =? -1
      then Spi1D.ThrowErrorMessage "Could not find 'Components' Tag." fileName (-1) ""
      else if (Spi1D.components h <? 0) || (Spi1D.components h >? 3)
      then Spi1D.ThrowErrorMessage "Components must be [1,2,3]." fileName (-1) ""
      else Ok tt.
Proof.
  intros f h. unfold Spi1D.check_header.
  destruct (Spi1D.version h =? -1); [reflexivity|].
  destruct (Spi1D.lut_size h =? -1); [reflexivity|].
  destruct (Spi1D.components h =? -1); reflexivity.
Qed.

Lemma spi1d_header_line_domain :
  forall fileName line n h h',
    pystring.startswith line "From" = false ->
    Spi1D.header_line fileName line n h = Ok h' ->
    Spi1D.h_from_min h' = Spi1D.h_from_min h
    /\ Spi1D.h_from_max h' = Spi1D.h_from_max h.
Proof.
  intros f line n h h' NF. unfold Spi1D.header_line, bind. rewrite NF.
  destruct (pystring.startswith line "Version").
  { destruct (Scan.sscanf_d "Version" line) as [[v|]| |]; try discriminate.
    destruct (negb (v =? 1)); [discriminate|].
    intros E; inversion E; subst; split; reflexivity. }
  destruct (pystring.startswith line "Components").
  { destruct (Scan.sscanf_d "Components" line) as [[v|]| |]; try discriminate.
    intros E; inversion E; subst; split; reflexivity. }
  destruct (pystring.startswith line "Length").
  { destruct (Scan.sscanf_d "Length" line) as [[v|]| |]; try discriminate.
    intros E; inversion E; subst; split; reflexivity. }
  intros E; inversion E; subst; split; reflexivity.
Qed.

Lemma spi1d_read_header_domain :
  forall fileName strm n h h' n' strm',
    Forall (fun l => pystring.startswith l "From" = false)
           (Spi1DLines.header_lines strm) ->
    Spi1D.read_header fileName strm n h = Ok (h', n', strm') ->
    Spi1D.h_from_min h' = Spi1D.h_from_min h
    /\ Spi1D.h_from_max h' = Spi1D.h_from_max h.
Proof.
  intros f strm. induction strm as [|seg rest IH]; intros n h h' n' strm' NF.
  - cbn [Spi1D.read_header getline]. cbn [Spi1DLines.header_lines getline] in NF.
    unfold bind. destruct (int_incr n); try discriminate.
    destruct (Spi1D.header_line f (c_str "") a h) as [h1| |] eqn:HL; try discriminate.
    intros E; inversion E; subst.
    inversion NF as [|x xs NF1 _]; subst.
    exact (spi1d_header_line_domain f _ _ _ _ NF1 HL).
  - cbn [Spi1D.read_header]. cbn [Spi1DLines.header_lines] in NF.
    destruct (getline Spi1D.MAX_LINE_SIZE (seg :: rest)) as [buffer s1].
    unfold bind. destruct (int_incr n); try discriminate.
    destruct (Spi1D.header_line f (c_str buffer) a h) as [h1| |] eqn:HL; try discriminate.
    destruct (good s1 && negb (pystring.startswith (c_str buffer) "{")).
    + inversion NF as [|x xs NF1 NF2]; subst. intros R.
      destruct (IH _ _ _ _ _ NF2 R) as [A B].
      destruct (spi1d_header_line_domain f _ _ _ _ NF1 HL) as [C D].
      split; congruence.
    + intros E; inversion E; subst.
      inversion NF as [|x xs NF1 _]; subst.
      exact (spi1d_header_line_domain f _ _ _ _ NF1 HL).
Qed.

(** Without a [From] line in the header the domain of an accepted file is
    the default one. *)
Lemma spi1d_default_domain :
  forall strm fileName cachedFile,
    Forall (fun l => pystring.startswith l "From" = false)
           (Spi1DLines.header_lines strm) ->
    Spi1D.read strm fileName = Ok cachedFile ->
    from_min cachedFile = float_zero /\ from_max cachedFile = float_one.
Proof.
  intros strm f cf NF. unfold Spi1D.read.
  destruct (Spi1D.read_header f strm 0 Spi1D.initial_header)
    as [[[h n] s]| |] eqn:RH; cbn [bind]; try discriminate.
  destruct (spi1d_read_header_domain f _ _ _ _ _ _ NF RH) as [A B].
  destruct (Spi1D.check_header f h); cbn [bind]; try discriminate.
  destruct (Spi1D.read_body f (Spi1D.components h) s n _) as [st| |];
    cbn [bind]; try discriminate.
  destruct (negb (Spi1D.lineCount st =? Spi1D.lut_size h)); [discriminate|].
  intros E; inversion E; subst. cbn [from_min from_max]. split; assumption.
Qed.

(** ** The .spi1d reader: the body *)









Lemma static_cast_int_small :
  forall k, 0 <= k < 2 ^ 31 -> static_cast_int k = k.
Proof.
  intros k B. unfold static_cast_int.
  change (2 ^ 31) with 2147483648 in *. change (2 ^ 32) with 4294967296.
  rewrite Z.mod_small; lia.
Qed.

(** One round of the body loop on a line that was read whole. *)
Lemma spi1d_read_body_round :
  forall fileName components seg rest n st,
    good rest = true ->
    (String.length seg <= 4095)%nat ->
    0 <= n < INT_MAX ->
    Spi1D.read_body fileName components (seg :: rest) n st
    = if String.eqb (pystring.lower (pystring.strip (c_str seg))) "}" then Ok st
      else
        st' <- Spi1D.body_line fileName (pystring.strip (c_str seg)) (c_str seg)
                               components (n + 1) st ;;
        Spi1D.read_body fileName components rest (n + 1) st'.
Proof.
  intros f comps seg rest n st G L B.
  cbn [Spi1D.read_body]. unfold getline. rewrite G.
  change (Spi1D.MAX_LINE_SIZE - 1)%nat with 4095%nat.
  rewrite (proj2 (Nat.leb_le _ _) L). cbn [andb].
  rewrite int_incr_ok by exact B. cbn [bind]. rewrite G. reflexivity.
Qed.


Lemma spi1d_body_line_1 :
  forall fileName line lineBuffer n st tok x,
    (String.length line =? 0)%nat = false ->
    pystring.split (pystring.strip lineBuffer) = [tok] ->
    StringToFloat tok = Some x ->
    Spi1D.body_line fileName line lineBuffer 1 n st
    = Spi1D.store_entry st (Ok x) (Ok x) (Ok x).
Proof.
  intros f line lineBuffer n st tok x L S V. unfold Spi1D.body_line.
  rewrite L, S. cbn [ParseUtils.StringVecToFloatVec]. rewrite V. reflexivity.
Qed.

(** ** Scenario C *)

Lemma spi1d_scenario_C_header :
  forall fileName,
    Spi1D.read_header fileName (istringstream Scenario.C_text) 0 Spi1D.initial_header
    = Ok ({| Spi1D.lut_size := 2;
             Spi1D.h_from_min := float_zero;
             Spi1D.h_from_max := float_one;
             Spi1D.version := 1;
             Spi1D.components := 1 |},
          4, ["        0.0"; "        1.0"; "}"; ""]).
Proof.
  intros f. vm_compute. reflexivity.
Qed.

Lemma spi1d_scenario_C_values :
  forall fileName x y,
    StringToFloat "0.0" = Some x ->
    StringToFloat "1.0" = Some y ->
    Spi1D.read (istringstream Scenario.C_text) fileName
    = Ok {| lut := {| lut1d_dimension := 2;
                      lut1d_array := [x; x; x; y; y; y];
                      lut1d_interpolation := INTERP_DEFAULT;
                      lut1d_fileOutputBitDepth := BIT_DEPTH_F32 |};
            from_min := float_zero;
            from_max := float_one |}.
Proof.
  intros f x y X Y. unfold Spi1D.read.
  rewrite spi1d_scenario_C_header. cbn [bind].
  change (Spi1D.check_header f _) with (@Ok unit tt). cbn [bind Spi1D.components].
  rewrite spi1d_read_body_round; [|reflexivity|cbn; lia|cbv; split; congruence].
  change (String.eqb (pystring.lower (pystring.strip (c_str "        0.0"))) "}")
    with false. cbv iota.
  rewrite (spi1d_body_line_1 f (pystring.strip (c_str "        0.0"))
             (c_str "        0.0") _ _ "0.0" x eq_refl eq_refl X).
  change (Spi1D.store_entry _ (Ok x) (Ok x) (Ok x))
    with (Ok {| Spi1D.lutArray := [x; x; x; initial_lut1d 2 3; initial_lut1d 2 4;
                                   initial_lut1d 2 5];
                Spi1D.i := 3; Spi1D.lineCount := 1 |}).
  cbn [bind].
  rewrite spi1d_read_body_round; [|reflexivity|cbn; lia|cbv; split; congruence].
  change (String.eqb (pystring.lower (pystring.strip (c_str "        1.0"))) "}")
    with false. cbv iota.
  rewrite (spi1d_body_line_1 f (pystring.strip (c_str "        1.0"))
             (c_str "        1.0") _ _ "1.0" y eq_refl eq_refl Y).
  change (Spi1D.store_entry _ (Ok y) (Ok y) (Ok y))
    with (Ok {| Spi1D.lutArray := [x; x; x; y; y; y];
                Spi1D.i := 6; Spi1D.lineCount := 2 |}).
  cbn [bind].
  rewrite spi1d_read_body_round; [|reflexivity|cbn; lia|cbv; split; congruence].
  reflexivity.
Qed.

(** C5: the stream of scenario C (Version 1, Components 1, Length 2, values
    0.0 and 1.0) gives a LUT1D of length 2 with samples [0,0,0, 1,1,1]; and
    every accepted stream without a [From] line in its header has the domain
    from_min = 0, from_max = 1. *)
Theorem spi1d_scenario_C :
  (StringToFloat "0.0" = Some float_zero ->
   StringToFloat "1.0" = Some float_one ->
   forall fileName,
     Spi1D.read (istringstream Scenario.C_text) fileName
     = Ok {| lut := {| lut1d_dimension := 2;
                       lut1d_array := [float_zero; float_zero; float_zero;
                                       float_one; float_one; float_one];
                       lut1d_interpolation := INTERP_DEFAULT;
                       lut1d_fileOutputBitDepth := BIT_DEPTH_F32 |};
             from_min := float_zero;
             from_max := float_one |})
  /\
  (forall strm fileName cachedFile,
     Forall (fun l => pystring.startswith l "From" = false)
            (Spi1DLines.header_lines strm) ->
     Spi1D.read strm fileName = Ok cachedFile ->
     from_min cachedFile = float_zero /\ from_max cachedFile = float_one).
Proof.
  split.
  - intros X Y f. exact (spi1d_scenario_C_values f _ _ X Y).
  - exact spi1d_default_domain.
Qed.

(** ** One entry declared, two listed *)

Lemma spi1d_overlong_header :
  forall fileName,
    Spi1D.read_header fileName (istringstream Scenario.overlong_text) 0
                      Spi1D.initial_header
    = Ok ({| Spi1D.lut_size := 1;
             Spi1D.h_from_min := float_zero;
             Spi1D.h_from_max := float_one;
             Spi1D.version := 1;
             Spi1D.components := 1 |},
          4, ["        0.0"; "        1.0"; "}"; ""]).
Proof.
  intros f. vm_compute. reflexivity.
Qed.

(** Whatever the two values are, the second one is written past the end of
    the array, and [read] never gets to count the entries. *)
Lemma spi1d_overlong_values :
  forall fileName x y,
    StringToFloat "0.0" = Some x ->
    StringToFloat "1.0" = Some y ->
    Spi1D.read (istringstream Scenario.overlong_text) fileName
    = Undefined (OutOfBoundsWrite 3 3).
Proof.
  intros f x y X Y. unfold Spi1D.read.
  rewrite spi1d_overlong_header. cbn [bind].
  change (Spi1D.check_header f _) with (@Ok unit tt). cbn [bind Spi1D.components].
  rewrite spi1d_read_body_round; [|reflexivity|cbn; lia|cbv; split; congruence].
  change (String.eqb (pystring.lower (pystring.strip (c_str "        0.0"))) "}")
    with false. cbv iota.
  rewrite (spi1d_body_line_1 f (pystring.strip (c_str "        0.0"))
             (c_str "        0.0") _ _ "0.0" x eq_refl eq_refl X).
  change (Spi1D.store_entry _ (Ok x) (Ok x) (Ok x))
    with (Ok {| Spi1D.lutArray := [x; x; x]; Spi1D.i := 3; Spi1D.lineCount := 1 |}).
  cbn [bind].
  rewrite spi1d_read_body_round; [|reflexivity|cbn; lia|cbv; split; congruence].
  change (String.eqb (pystring.lower (pystring.strip (c_str "        1.0"))) "}")
    with false. cbv iota.
  rewrite (spi1d_body_line_1 f (pystring.strip (c_str "        1.0"))
             (c_str "        1.0") _ _ "1.0" y eq_refl eq_refl Y).
  reflexivity.
Qed.

(** ** Components *)


(** ** The header checks on streams *)













(** ** Baking *)

Lemma int_mul_inv :
  forall a b v, int_mul a b = Ok v -> v = a * b /\ INT_MIN <= a * b <= INT_MAX.
Proof.
  intros a b v. unfold int_mul, int_of, in_int.
  destruct (Z.leb_spec INT_MIN (a * b)); destruct (Z.leb_spec (a * b) INT_MAX);
    cbn [andb]; try discriminate.
  intros E; inversion E. lia.
Qed.

Lemma vec_get_nth :
  forall (A : Type) (v : list A) (k : N) (d : A),
    (N.to_nat k < length v)%nat -> vec_get v k = Ok (nth (N.to_nat k) v d).
Proof.
  intros A v k d L. unfold vec_get.
  rewrite (nth_error_nth' v d L). reflexivity.
Qed.

Lemma itx_bake_rows :
  forall cubeData todo i ostream,
    0 <= i ->
    3 * (i + Z.of_nat todo) <= Z.of_nat (length cubeData) ->
    IridasItx.bake_rows cubeData i todo ostream
    = (ostream
       ++ ItxOutput.put_rows (map (ItxOutput.pixel cubeData) (seq (Z.to_nat i) todo)),
       Ok tt).
Proof.
  intros cubeData todo. induction todo as [|todo IH]; intros i os I B.
  - cbn. f_equal. induction os as [|c os IHo]; cbn; [reflexivity|]. now rewrite <- IHo.
  - cbn [IridasItx.bake_rows].
    rewrite (vec_get_nth _ cubeData (Z.to_N (3 * i + 0)) float_zero) by lia.
    rewrite (vec_get_nth _ cubeData (Z.to_N (3 * i + 1)) float_zero) by lia.
    rewrite (vec_get_nth _ cubeData (Z.to_N (3 * i + 2)) float_zero) by lia.
    cbn [bind]. rewrite IH by lia.
    f_equal. rewrite string_app_assoc. f_equal.
    cbn [seq map ItxOutput.put_rows].
    replace (Z.to_nat (i + 1)) with (S (Z.to_nat i)) by lia.
    f_equal. unfold ItxOutput.pixel, ItxOutput.row_text, IridasItx.put_row.
    replace (N.to_nat (Z.to_N (3 * i + 0))) with (3 * Z.to_nat i)%nat by lia.
    replace (N.to_nat (Z.to_N (3 * i + 1))) with (3 * Z.to_nat i + 1)%nat by lia.
    replace (N.to_nat (Z.to_N (3 * i + 2))) with (3 * Z.to_nat i + 2)%nat by lia.
    reflexivity.
Qed.

Lemma itx_bake_cubeData_length :
  forall baker cubeSize cubeData,
    IridasItx.bake_cubeData baker cubeSize = Ok cubeData ->
    Z.of_nat (length cubeData) = Z.max 0 (cubeSize * cubeSize * cubeSize * 3).
Proof.
  intros baker c d. unfold IridasItx.bake_cubeData.
  destruct (int_mul c c) as [c2| |] eqn:M2; cbn [bind]; try discriminate.
  destruct (int_mul c2 c) as [c3| |] eqn:M3; cbn [bind]; try discriminate.
  destruct (int_mul c3 3) as [n| |] eqn:M; cbn [bind]; try discriminate.
  apply int_mul_inv in M2, M3, M. destruct M2 as [-> _], M3 as [-> _], M as [-> _].
  match goal with |- bind ?p _ = _ -> _ => destruct p as [proc| |] end;
    cbn [bind]; try discriminate.
  destruct (IridasItx.getDefaultCPUProcessor proc) as [cpu| |]; cbn [bind];
    try discriminate.
  intros A. apply IridasItx.apply_in_place in A.
  rewrite A, length_map, length_seq. lia.
Qed.

Lemma edge_size_bake :
  forall baker,
    IridasItx.bake_cubeSize baker = ItxOutput.edge_size (IridasItx.getCubeSize baker)
    /\ 2 <= ItxOutput.edge_size (IridasItx.getCubeSize baker).
Proof.
  intros baker. unfold IridasItx.bake_cubeSize, ItxOutput.edge_size,
    IridasItx.DEFAULT_CUBE_SIZE.
  destruct (IridasItx.getCubeSize baker =? -1); lia.
Qed.

(** C6: a bake on the .itx format uses the edge size 64 when the baker's cube
    size is unset (-1) and never less than 2; when the cube has been sent
    through the processor, the output is the line [LUT_3D_SIZE size], then
    size^3 lines with one RGB triple each in fixed notation with 6 decimals
    (and an empty line); when that fails nothing is written. *)
Theorem itx_bake_output :
  forall baker ostream,
    let size := ItxOutput.edge_size (IridasItx.getCubeSize baker) in
    (IridasItx.getCubeSize baker = -1 -> size = 64)
    /\ 2 <= size
    /\ (forall cubeData,
          IridasItx.bake_cubeData baker size = Ok cubeData ->
          IridasItx.bake baker "iridas_itx" ostream
          = (ostream ++ "LUT_3D_SIZE " ++ put_int size ++ String newline ""
                     ++ ItxOutput.put_rows
                          (ItxOutput.pixels cubeData (Z.to_nat (size ^ 3)))
                     ++ String newline "",
             Ok tt)
          /\ Z.of_nat (length (ItxOutput.pixels cubeData (Z.to_nat (size ^ 3))))
             = size ^ 3
          /\ Z.of_nat (length cubeData) = 3 * size ^ 3)
    /\ (forall e,
          IridasItx.bake_cubeData baker size = Throw e ->
          IridasItx.bake baker "iridas_itx" ostream = (ostream, Throw e))
    /\ (forall u,
          IridasItx.bake_cubeData baker size = Undefined u ->
          IridasItx.bake baker "iridas_itx" ostream = (ostream, Undefined u)).
Proof.
  intros baker os. cbv zeta.
  destruct (edge_size_bake baker) as [S2 G2].
  set (size := ItxOutput.edge_size (IridasItx.getCubeSize baker)) in *.
  assert (P3 : size ^ 3 = size * size * size) by ring.
  split; [|split; [exact G2|split; [|split]]].
  - intros U. unfold size, ItxOutput.edge_size. now rewrite U.
  - intros d D. pose proof (itx_bake_cubeData_length _ _ _ D) as L.
    assert (0 <= size * size * size) by nia.
    split; [|split].
    + unfold IridasItx.bake. change (negb ("iridas_itx" =? "iridas_itx")%string) with false.
      cbv iota. rewrite S2, D.
      rewrite (proj2 (Z.ltb_ge size 2) G2).
      rewrite itx_bake_rows by lia.
      unfold ItxOutput.pixels. rewrite P3. change (Z.to_nat 0) with 0%nat.
      f_equal. now rewrite !string_app_assoc.
    + unfold ItxOutput.pixels. rewrite length_map, length_seq. lia.
    + lia.
  - intros e D. unfold IridasItx.bake.
    change (negb ("iridas_itx" =? "iridas_itx")%string) with false.
    cbv iota. now rewrite S2, D.
  - intros u D. unfold IridasItx.bake.
    change (negb ("iridas_itx" =? "iridas_itx")%string) with false.
    cbv iota. now rewrite S2, D.
Qed.

End Properties.

(* ================================================================== *)
(** * Further properties *)

Section MoreProperties.
Context `{Externals}.

(** ** The .itx reader, any edge size *)

Lemma int_mul_ok :
  forall a b, INT_MIN <= a * b <= INT_MAX -> int_mul a b = Ok (a * b).
Proof.
  intros a b B. unfold int_mul, int_of, in_int.
  rewrite (proj2 (Z.leb_le _ _)) by lia.
  rewrite (proj2 (Z.leb_le _ _)) by lia. reflexivity.
Qed.

Lemma size_ok_bounds :
  forall s, ItxMore.size_ok s ->
    0 <= 3 * s <= INT_MAX /\ 0 <= 3 * s * s <= INT_MAX
    /\ 0 <= 3 * s * s * s <= INT_MAX /\ 0 <= s * s <= INT_MAX
    /\ 0 <= s * s * s <= INT_MAX /\ s <= INT_MAX.
Proof.
  intros s [P B]. unfold INT_MAX in *. change (2 ^ 31 - 1) with 2147483647 in *.
  assert (C : s = 0 \/ 1 <= s) by lia. destruct C as [->|C]; [lia|].
  assert (s <= s * s) by nia. assert (s * s <= s * s * s) by nia.
  nia.
Qed.

Lemma itx_read_line_size :
  forall fileName line n st s,
    ItxLines.size_tag line = Some s ->
    ItxMore.size_ok s ->
    IridasItx.read_line fileName line n st
    = Ok {| IridasItx.raw := IridasItx.raw st;
            IridasItx.size3d := s;
            IridasItx.in3d := true |}.
Proof.
  intros f line n st s T S.
  destruct (size_ok_bounds s S) as (B1 & B2 & B3 & _).
  revert T. unfold ItxLines.size_tag, ItxLines.tokens, IridasItx.read_line.
  destruct (pystring.startswith line "#"); [discriminate|].
  destruct (pystring.split _) as [|p0 [|p1 [|p2 ps]]]; try discriminate.
  destruct (String.eqb (pystring.lower p0) "lut_3d_size"); [|discriminate].
  intros ->. cbn [bind].
  assert (L : INT_MIN <= 0) by (cbv; discriminate).
  rewrite (int_mul_ok 3 s) by lia. cbn [bind].
  rewrite (int_mul_ok (3 * s) s) by lia. cbn [bind].
  rewrite (int_mul_ok (3 * s * s) s) by lia. cbn [bind].
  unfold reserve. rewrite (proj2 (Z.ltb_ge _ _)) by lia. reflexivity.
Qed.

Lemma itx_read_lines_cube :
  forall fileName lines n st hdr body s,
    0 <= n -> n + Z.of_nat (length lines) <= INT_MAX ->
    filter (fun l => negb (ItxLines.is_skipped l)) lines = hdr :: body ->
    ItxLines.size_tag hdr = Some s ->
    ItxMore.size_ok s ->
    Forall (fun l => ItxLines.is_triple l = true) body ->
    IridasItx.read_lines fileName lines n st
    = Ok {| IridasItx.raw :=
              (IridasItx.raw st ++ flat_map ItxLines.triple_values body)%list;
            IridasItx.size3d := s;
            IridasItx.in3d := true |}.
Proof.
  intros f lines. induction lines as [|l ls IH]; intros n st hdr body s N0 B F S K T.
  - discriminate.
  - cbn [IridasItx.read_lines]. cbn [length] in B.
    rewrite int_incr_ok by lia. cbn [bind].
    cbn [filter] in F. destruct (ItxLines.is_skipped l) eqn:Q; cbn [negb] in F.
    + rewrite itx_read_line_skipped by exact Q. cbn [bind].
      apply (IH (n + 1) st hdr body s); try assumption; lia.
    + inversion F; subst.
      rewrite (itx_read_line_size f hdr (n + 1) st s S K). cbn [bind].
      rewrite itx_read_lines_triples; try assumption; try reflexivity; lia.
Qed.

Lemma itx_read_counted :
  forall strm fileName raw s k,
    good strm = true ->
    IridasItx.read_lines fileName (ParseUtils.nextlines strm) 0
      {| IridasItx.raw := []; IridasItx.size3d := 0; IridasItx.in3d := false |}
    = Ok {| IridasItx.raw := raw; IridasItx.size3d := s; IridasItx.in3d := true |} ->
    ItxMore.size_ok s ->
    length raw = (3 * k)%nat ->
    Z.of_nat k <= INT_MAX ->
    IridasItx.read strm fileName
    = if s * s * s =? Z.of_nat k
      then Ok {| lut3D :=
                   Some {| lut3d_gridSize := Z.to_N s;
                           lut3d_array := raw;
                           lut3d_interpolation := INTERP_DEFAULT;
                           lut3d_fileOutputBitDepth := BIT_DEPTH_F32 |} |}
      else IridasItx.ThrowErrorMessage
             ("Incorrect number of 3D LUT entries. Found "
              ++ put_size_t (N.of_nat k) ++ ", expected "
              ++ put_int (s * s * s) ++ ".")
             fileName (-1) "".
Proof.
  intros strm f raw s k G R K RL LB.
  destruct (size_ok_bounds s K) as (_ & _ & _ & B4 & B5 & B6).
  assert (L : INT_MIN <= 0) by (cbv; discriminate).
  rewrite (itx_read_state strm f _ G R).
  cbn [IridasItx.in3d IridasItx.size3d IridasItx.raw].
  rewrite RL.
  rewrite (int_mul_ok s s) by lia. cbn [bind].
  rewrite (int_mul_ok (s * s) s) by lia. cbn [bind].
  replace (N.of_nat (3 * k) / 3)%N with (N.of_nat k).
  2:{ rewrite Nat2N.inj_mul, N.mul_comm, N.div_mul; [reflexivity|discriminate]. }
  cbv zeta. rewrite nat_N_Z.
  rewrite static_cast_int_small.
  2:{ unfold INT_MAX in LB. lia. }
  destruct (s * s * s =? Z.of_nat k) eqn:E; cbn [negb].
  - apply Z.eqb_eq in E.
    unfold setArrayFromRedFastestOrder.
    cbn [lut3d_gridSize Lut3D_setFileOutputBitDepth Lut3DOpData_new
         lut3d_interpolation lut3d_fileOutputBitDepth].
    rewrite RL.
    assert (U : to_unsigned_long s = Z.to_N s).
    { unfold to_unsigned_long. rewrite Z.mod_small; [reflexivity|].
      unfold INT_MAX in B6. change (2 ^ 31 - 1) with 2147483647 in B6.
      change (2 ^ 64) with 18446744073709551616. lia. }
    rewrite U.
    rewrite (proj2 (N.eqb_eq _ _)); [reflexivity|].
    apply N2Z.inj. rewrite !N2Z.inj_mul, Z2N.id, nat_N_Z, Nat2Z.inj_mul by lia.
    change (Z.of_N 3) with 3. change (Z.of_nat 3) with 3. lia.
  - reflexivity.
Qed.

(** X1: an .itx stream whose data lines are a tag [LUT_3D_SIZE s] and k RGB
    triples is accepted exactly when k = s^3, with the values of the triples
    as array in stream order; otherwise the error states k and s^3. *)
Theorem itx_read_cube :
  forall strm fileName hdr body s,
    good strm = true ->
    Z.of_nat (length (ParseUtils.nextlines strm)) <= INT_MAX ->
    ItxLines.data_lines strm = hdr :: body ->
    ItxLines.size_tag hdr = Some s ->
    ItxMore.size_ok s ->
    Forall (fun l => ItxLines.is_triple l = true) body ->
    IridasItx.read strm fileName
    = if s * s * s =? Z.of_nat (length body)
      then Ok {| lut3D :=
                   Some {| lut3d_gridSize := Z.to_N s;
                           lut3d_array := flat_map ItxLines.triple_values body;
                           lut3d_interpolation := INTERP_DEFAULT;
                           lut3d_fileOutputBitDepth := BIT_DEPTH_F32 |} |}
      else IridasItx.ThrowErrorMessage
             ("Incorrect number of 3D LUT entries. Found "
              ++ put_size_t (N.of_nat (length body)) ++ ", expected "
              ++ put_int (s * s * s) ++ ".")
             fileName (-1) "".
Proof.
  intros strm f hdr body s G B D S K T.
  assert (LB : Z.of_nat (length body) <= INT_MAX).
  { unfold ItxLines.data_lines in D.
    pose proof (filter_length_le (fun l => negb (ItxLines.is_skipped l))
                  (ParseUtils.nextlines strm)) as FL.
    rewrite D in FL. cbn [length] in FL. lia. }
  pose proof (itx_read_lines_cube f _ 0
                {| IridasItx.raw := []; IridasItx.size3d := 0;
                   IridasItx.in3d := false |}
                hdr body s (Z.le_refl 0) B D S K T) as R.
  cbn [IridasItx.raw app] in R.
  exact (itx_read_counted strm f _ s (length body) G R K
           (itx_triple_values_length body T) LB).
Qed.

(** ** The .itx reader: errors *)

Lemma int_incr_inv :
  forall n m, int_incr n = Ok m -> m = n + 1 /\ n + 1 <= INT_MAX.
Proof.
  intros n m. unfold int_incr, int_of, in_int.
  destruct (Z.leb_spec INT_MIN (n + 1)); destruct (Z.leb_spec (n + 1) INT_MAX);
    cbn [andb]; try discriminate.
  intros E; inversion E. lia.
Qed.

Lemma itx_read_lines_app :
  forall fileName pre rest n st st',
    IridasItx.read_lines fileName pre n st = Ok st' ->
    IridasItx.read_lines fileName (pre ++ rest) n st
    = IridasItx.read_lines fileName rest (n + Z.of_nat (length pre)) st'.
Proof.
  intros f pre rest. induction pre as [|l ls IH]; intros n st st'.
  - cbn. intros E; inversion E. now rewrite Z.add_0_r.
  - cbn [IridasItx.read_lines app length].
    destruct (int_incr n) as [m| |] eqn:I; cbn [bind]; try discriminate.
    apply int_incr_inv in I. destruct I as [-> _].
    destruct (IridasItx.read_line f l (n + 1) st) as [st1| |]; cbn [bind];
      try discriminate.
    intros R. rewrite (IH _ _ _ R). f_equal. lia.
Qed.

Lemma itx_read_line_untagged :
  forall fileName line n st,
    IridasItx.in3d st = false ->
    ItxMore.is_tag line = false ->
    IridasItx.read_line fileName line n st = Ok st.
Proof.
  intros f line n st I. unfold ItxMore.is_tag, ItxLines.tokens, IridasItx.read_line.
  destruct (pystring.startswith line "#"); [reflexivity|]. cbn [negb andb].
  destruct (pystring.split _) as [|p0 ps]; [reflexivity|].
  intros E. rewrite E, I. reflexivity.
Qed.

Lemma itx_read_lines_untagged :
  forall fileName lines n st,
    0 <= n -> n + Z.of_nat (length lines) <= INT_MAX ->
    IridasItx.in3d st = false ->
    Forall (fun l => ItxMore.is_tag l = false) lines ->
    IridasItx.read_lines fileName lines n st = Ok st.
Proof.
  intros f lines. induction lines as [|l ls IH]; intros n st N0 B I U.
  - reflexivity.
  - cbn [IridasItx.read_lines]. cbn [length] in B.
    rewrite int_incr_ok by lia. cbn [bind].
    inversion U as [|x xs U1 U2]; subst.
    rewrite (itx_read_line_untagged f l (n + 1) st I U1). cbn [bind].
    apply IH; try assumption; lia.
Qed.






Lemma itx_read_line_negative_size :
  forall fileName line n st s,
    ItxLines.size_tag line = Some s ->
    -894 <= s < 0 ->
    IridasItx.read_line fileName line n st = Throw std_length_error.
Proof.
  intros f line n st s T B.
  assert (B2 : 1 <= s * s <= 799236) by nia.
  assert (B3 : -714516984 <= s * s * s <= -1) by nia.
  revert T. unfold ItxLines.size_tag, ItxLines.tokens, IridasItx.read_line.
  destruct (pystring.startswith line "#"); [discriminate|].
  destruct (pystring.split _) as [|p0 [|p1 [|p2 ps]]]; try discriminate.
  destruct (String.eqb (pystring.lower p0) "lut_3d_size"); [|discriminate].
  intros ->. cbn [bind].
  unfold INT_MIN, INT_MAX in *.
  rewrite (int_mul_ok 3 s)
    by (unfold INT_MIN, INT_MAX; change (2 ^ 31) with 2147483648; lia).
  cbn [bind].
  rewrite (int_mul_ok (3 * s) s)
    by (unfold INT_MIN, INT_MAX; change (2 ^ 31) with 2147483648; lia).
  cbn [bind].
  rewrite (int_mul_ok (3 * s * s) s)
    by (unfold INT_MIN, INT_MAX; change (2 ^ 31) with 2147483648; lia).
  cbn [bind].
  unfold reserve. rewrite (proj2 (Z.ltb_lt _ _)) by lia. reflexivity.
Qed.

(** X5: a first size tag with a negative size (down to -894, where the
    products still fit an [int]) makes [reserve] throw: the reader ends with
    a [std::length_error], not with a message of its own. *)
Theorem itx_read_negative_size :
  forall strm fileName pre tag post s,
    good strm = true ->
    ParseUtils.nextlines strm = (pre ++ tag :: post)%list ->
    Z.of_nat (length pre) < INT_MAX ->
    Forall (fun l => ItxMore.is_tag l = false) pre ->
    ItxLines.size_tag tag = Some s ->
    -894 <= s < 0 ->
    IridasItx.read strm fileName = Throw std_length_error.
Proof.
  intros strm f pre tag post s G N B U T R.
  unfold IridasItx.read. rewrite G, N. cbn [negb].
  rewrite (itx_read_lines_app f pre (tag :: post) 0 _ _
             (itx_read_lines_untagged f pre 0
                {| IridasItx.raw := []; IridasItx.size3d := 0; IridasItx.in3d := false |}
                (Z.le_refl 0) ltac:(lia) eq_refl U)).
  cbn [IridasItx.read_lines]. rewrite Z.add_0_l.
  rewrite int_incr_ok by lia. cbn [bind].
  rewrite (itx_read_line_negative_size f tag _ _ s T R). reflexivity.
Qed.

(** ** The .itx reader: what every run keeps *)

Lemma int_mul_throw :
  forall a b e (P : Prop), int_mul a b = Throw e -> P.
Proof.
  intros a b e P. unfold int_mul, int_of. destruct (in_int (a * b)); discriminate.
Qed.

Lemma int_incr_throw :
  forall n e (P : Prop), int_incr n = Throw e -> P.
Proof.
  intros n e P. unfold int_incr, int_of. destruct (in_int (n + 1)); discriminate.
Qed.

(** One line: [raw] grows by nothing or by three values, a size that is set
    can be reserved, and no shape error is thrown. *)
Lemma itx_read_line_post :
  forall fileName line n st,
    match IridasItx.read_line fileName line n st with
    | Ok st' =>
        (length (IridasItx.raw st') = length (IridasItx.raw st)
         \/ length (IridasItx.raw st') = (length (IridasItx.raw st) + 3)%nat)
        /\ (IridasItx.in3d st' = true ->
            ItxMore.size_ok (IridasItx.size3d st')
            \/ (IridasItx.in3d st = true
                /\ IridasItx.size3d st' = IridasItx.size3d st))
    | Throw (ShapeMismatch _ _) => False
    | _ => True
    end.
Proof.
  intros f line n st. unfold IridasItx.read_line, IridasItx.ThrowErrorMessage.
  destruct (pystring.startswith line "#").
  { split; [now left|]. intros I. right. now split. }
  destruct (pystring.split _) as [|p0 ps].
  { split; [now left|]. intros I. right. now split. }
  destruct (String.eqb (pystring.lower p0) "lut_3d_size").
  - destruct ps as [|p1 [|p2 ps]]; cbn [bind]; try exact I.
    destruct (ParseUtils.StringToInt p1) as [s|]; cbn [bind]; try exact I.
    destruct (int_mul 3 s) as [n1| |] eqn:M1; cbn [bind];
      [|exact (int_mul_throw _ _ _ _ M1)|exact I].
    destruct (int_mul n1 s) as [n2| |] eqn:M2; cbn [bind];
      [|exact (int_mul_throw _ _ _ _ M2)|exact I].
    destruct (int_mul n2 s) as [n3| |] eqn:M3; cbn [bind];
      [|exact (int_mul_throw _ _ _ _ M3)|exact I].
    apply int_mul_inv in M1, M2, M3.
    destruct M1 as [-> _], M2 as [-> _], M3 as [-> [_ M3]].
    unfold reserve. destruct (Z.ltb_spec (3 * s * s * s) 0) as [R|R];
      cbn [bind]; [exact I|].
    split; [now left|]. intros _. left. split; [|exact M3].
    destruct (Z.lt_ge_cases s 0) as [Neg|]; [|assumption].
    assert (0 < s * s) by nia. nia.
  - destruct (IridasItx.in3d st) eqn:I3.
    + destruct (ParseUtils.StringVecToFloatVec (p0 :: ps)) as [tmp|]; try exact I.
      destruct tmp as [|a [|b [|c [|d tmp]]]]; try exact I.
      change (length [a; b; c] =? 3)%nat with true. cbv iota.
      change (vec_get [a; b; c] 0) with (Ok a).
      change (vec_get [a; b; c] 1) with (Ok b).
      change (vec_get [a; b; c] 2) with (Ok c).
      cbn [bind IridasItx.raw IridasItx.in3d IridasItx.size3d].
      split; [right; rewrite length_app; reflexivity|].
      intros _. right. now split.
    + split; [now left|]. intros I. rewrite I3 in I. discriminate.
Qed.

Lemma itx_read_lines_post :
  forall fileName lines n st,
    0 <= n <= INT_MAX ->
    (IridasItx.in3d st = true -> ItxMore.size_ok (IridasItx.size3d st)) ->
    match IridasItx.read_lines fileName lines n st with
    | Ok st' =>
        (exists m : nat,
           length (IridasItx.raw st') = (length (IridasItx.raw st) + 3 * m)%nat
           /\ (m <= length lines)%nat)
        /\ (IridasItx.in3d st' = true -> ItxMore.size_ok (IridasItx.size3d st'))
        /\ n + Z.of_nat (length lines) <= INT_MAX
    | Throw (ShapeMismatch _ _) => False
    | _ => True
    end.
Proof.
  intros f lines. induction lines as [|l ls IH]; intros n st N0 J.
  - cbn [IridasItx.read_lines length].
    split; [exists 0%nat; split; lia|]. split; [exact J|]. lia.
  - cbn [IridasItx.read_lines].
    destruct (int_incr n) as [m| |] eqn:Inc; cbn [bind];
      [|exact (int_incr_throw _ _ _ Inc)|exact I].
    apply int_incr_inv in Inc. destruct Inc as [-> Inc].
    pose proof (itx_read_line_post f l (n + 1) st) as P.
    destruct (IridasItx.read_line f l (n + 1) st) as [st1|e|] eqn:R; cbn [bind];
      [|destruct e; [exact I|exact I|contradiction]|exact I].
    destruct P as [P1 P2].
    assert (J1 : IridasItx.in3d st1 = true -> ItxMore.size_ok (IridasItx.size3d st1)).
    { intros I1. destruct (P2 I1) as [S|[I0 E]]; [exact S|]. rewrite E. auto. }
    specialize (IH (n + 1) st1 ltac:(lia) J1).
    destruct (IridasItx.read_lines f ls (n + 1) st1) as [st2|e|]; try exact IH.
    destruct IH as ((m & L & M) & J2 & B).
    split; [|split; [exact J2|cbn [length]; lia]].
    destruct P1 as [P1|P1].
    + exists m. cbn [length]. split; lia.
    + exists (S m). cbn [length]. split; lia.
Qed.

Lemma itx_read_has_lut :
  forall strm fileName cachedFile,
    IridasItx.read strm fileName = Ok cachedFile ->
    exists l, lut3D cachedFile = Some l.
Proof.
  intros strm f cf. unfold IridasItx.read.
  destruct (negb (good strm)); [discriminate|].
  destruct (IridasItx.read_lines f _ 0 _) as [st| |]; cbn [bind];
    try discriminate.
  destruct (IridasItx.in3d st); [|discriminate].
  destruct (int_mul (IridasItx.size3d st) (IridasItx.size3d st)) as [s2| |];
    cbn [bind]; try discriminate.
  destruct (int_mul s2 (IridasItx.size3d st)) as [s3| |]; cbn [bind];
    try discriminate.
  cbv zeta. destruct (negb _); [discriminate|].
  destruct (setArrayFromRedFastestOrder _ _) as [l| |]; cbn [bind];
    try discriminate.
  intros E; inversion E; subst. exists l. reflexivity.
Qed.

(** X6: whatever the stream, [read] never ends in the shape error of the
    LUT data model: its own count test comes first and is at least as strong.
    An accepted stream gives a LUT3D whose array has 3 * edge^3 values, in
    32-bit float depth. *)
Theorem itx_read_shape :
  forall strm fileName,
    match IridasItx.read strm fileName with
    | Ok cachedFile =>
        exists l,
          lut3D cachedFile = Some l
          /\ N.of_nat (length (lut3d_array l))
             = (3 * lut3d_gridSize l * lut3d_gridSize l * lut3d_gridSize l)%N
          /\ lut3d_fileOutputBitDepth l = BIT_DEPTH_F32
    | Throw (ShapeMismatch _ _) => False
    | _ => True
    end.
Proof.
  intros strm f. unfold IridasItx.read.
  destruct (good strm); cbn [negb]; [|exact I].
  pose proof (itx_read_lines_post f (ParseUtils.nextlines strm) 0
                {| IridasItx.raw := []; IridasItx.size3d := 0; IridasItx.in3d := false |}
                ltac:(cbv; split; discriminate) ltac:(discriminate)) as P.
  destruct (IridasItx.read_lines f (ParseUtils.nextlines strm) 0 _)
    as [st|e|]; cbn [bind]; [|destruct e; [exact I|exact I|contradiction]|exact I].
  destruct P as ((m & L & M) & J & B).
  destruct (IridasItx.in3d st) eqn:I3; [|exact I].
  specialize (J eq_refl).
  destruct (size_ok_bounds _ J) as (_ & _ & _ & B4 & B5 & B6).
  assert (Z0 : INT_MIN <= 0) by (cbv; discriminate).
  rewrite (int_mul_ok (IridasItx.size3d st) (IridasItx.size3d st)) by lia.
  cbn [bind].
  rewrite (int_mul_ok (IridasItx.size3d st * IridasItx.size3d st)
             (IridasItx.size3d st)) by lia.
  cbn [bind]. cbv zeta. cbn [length IridasItx.raw] in L. rewrite Nat.add_0_l in L.
  rewrite L.
  replace (N.of_nat (3 * m) / 3)%N with (N.of_nat m).
  2:{ rewrite Nat2N.inj_mul, N.mul_comm, N.div_mul; [reflexivity|discriminate]. }
  rewrite nat_N_Z, static_cast_int_small.
  2:{ unfold INT_MAX in B. lia. }
  set (s := IridasItx.size3d st) in *.
  destruct (Z.eqb_spec (s * s * s) (Z.of_nat m)) as [E|E]; cbn [negb]; [|exact I].
  unfold setArrayFromRedFastestOrder.
  cbn [lut3d_gridSize Lut3D_setFileOutputBitDepth Lut3DOpData_new
       lut3d_interpolation lut3d_fileOutputBitDepth].
  assert (U : to_unsigned_long s = Z.to_N s).
  { unfold to_unsigned_long. rewrite Z.mod_small; [reflexivity|].
    unfold INT_MAX in B6. change (2 ^ 31 - 1) with 2147483647 in B6.
    change (2 ^ 64) with 18446744073709551616. destruct J. lia. }
  rewrite U, L.
  assert (Q : (3 * Z.to_N s * Z.to_N s * Z.to_N s)%N = N.of_nat (3 * m)).
  { apply N2Z.inj. destruct J as [J0 _].
    rewrite !N2Z.inj_mul, Z2N.id, nat_N_Z, Nat2Z.inj_mul by lia.
    change (Z.of_N 3) with 3. change (Z.of_nat 3) with 3. lia. }
  rewrite (proj2 (N.eqb_eq _ _) Q). cbn [bind].
  eexists. split; [reflexivity|]. cbn [lut3d_array lut3d_gridSize
    lut3d_fileOutputBitDepth]. split; [|reflexivity]. now rewrite L, Q.
Qed.

(** X7: chain assembly from a cache entry that [read] produced: under a known
    combined direction exactly one Op is appended, the LUT3D of the file with
    the interpolation of the file transform, in the combined direction; the
    test for a missing LUT never fires.  Under an unknown combined direction
    [ops] is left as it was. *)
Theorem itx_read_then_build :
  forall strm fileName cachedFile ops fileTransform dir,
    IridasItx.read strm fileName = Ok cachedFile ->
    exists l,
      lut3D cachedFile = Some l
      /\ IridasItx.buildFileOps ops (CachedItx cachedFile) fileTransform dir
         = match CombineTransformDirections dir (getDirection fileTransform) with
           | TRANSFORM_DIR_UNKNOWN =>
               (ops, Throw (Exception
                  "Cannot build file format transform, unspecified transform direction."))
           | newDir =>
               ((ops ++ [Lut3DOp (Lut3D_setInterpolation
                                    l (getInterpolation fileTransform))
                                 newDir])%list,
                Ok tt)
           end.
Proof.
  intros strm f cf ops ft dir R.
  destruct (itx_read_has_lut _ _ _ R) as [l L]. exists l. split; [exact L|].
  unfold IridasItx.buildFileOps, CreateLut3DOp. rewrite L.
  destruct (CombineTransformDirections dir (getDirection ft)); reflexivity.
Qed.

(** ** The .itx reader: undefined behaviour *)

Lemma StringToInt_in_int :
  forall p v, ParseUtils.StringToInt p = Some v -> in_int v = true.
Proof.
  intros p v. unfold ParseUtils.StringToInt.
  destruct (Scan.scan_integer _) as [[w r]|]; [|discriminate].
  destruct (in_int w) eqn:I; [|discriminate].
  intros E; inversion E; subst. exact I.
Qed.

Lemma in_int_bounds :
  forall z, in_int z = true -> -2147483648 <= z <= 2147483647.
Proof.
  intros z I. unfold in_int, INT_MIN, INT_MAX in I.
  change (2 ^ 31) with 2147483648 in I.
  apply andb_prop in I. destruct I as [A B].
  apply Z.leb_le in A, B. lia.
Qed.

Lemma itx_read_line_overflow :
  forall fileName line n st s,
    ItxLines.size_tag line = Some s ->
    s < -894 \/ 894 < s ->
    IridasItx.read_line fileName line n st = Undefined SignedOverflow.
Proof.
  intros f line n st s T B.
  revert T. unfold ItxLines.size_tag, ItxLines.tokens, IridasItx.read_line.
  destruct (pystring.startswith line "#"); [discriminate|].
  destruct (pystring.split _) as [|p0 [|p1 [|p2 ps]]]; try discriminate.
  destruct (String.eqb (pystring.lower p0) "lut_3d_size"); [|discriminate].
  intros ->. cbn [bind]. unfold int_mul, int_of.
  destruct (in_int (3 * s)) eqn:I1; cbn [bind]; [|reflexivity].
  destruct (in_int (3 * s * s)) eqn:I2; cbn [bind]; [|reflexivity].
  destruct (in_int (3 * s * s * s)) eqn:I3; cbn [bind]; [|reflexivity].
  exfalso. apply in_int_bounds in I1, I2, I3.
  assert (Q : 801025 <= s * s) by nia.
  destruct B as [B|B].
  - assert (Q3 : s * s * s <= -895 * (s * s)) by nia. lia.
  - assert (Q3 : 895 * (s * s) <= s * s * s) by nia. lia.
Qed.

Lemma itx_read_line_defined :
  forall fileName line n st u,
    (forall s, ItxLines.size_tag line = Some s -> -894 <= s <= 894) ->
    IridasItx.read_line fileName line n st <> Undefined u.
Proof.
  intros f line n st u B.
  unfold ItxLines.size_tag, ItxLines.tokens in B.
  unfold IridasItx.read_line, IridasItx.ThrowErrorMessage.
  destruct (pystring.startswith line "#"); [discriminate|].
  destruct (pystring.split _) as [|p0 ps]; [discriminate|].
  destruct (String.eqb (pystring.lower p0) "lut_3d_size").
  - destruct ps as [|p1 [|p2 ps]]; cbn [bind]; try discriminate.
    destruct (ParseUtils.StringToInt p1) as [s|]; cbn [bind]; [|discriminate].
    specialize (B s eq_refl).
    assert (B2 : 0 <= s * s <= 799236) by nia.
    assert (B3 : -714516984 <= s * s * s <= 714516984) by nia.
    rewrite (int_mul_ok 3 s)
      by (unfold INT_MIN, INT_MAX; change (2 ^ 31) with 2147483648; lia).
    cbn [bind].
    rewrite (int_mul_ok (3 * s) s)
      by (unfold INT_MIN, INT_MAX; change (2 ^ 31) with 2147483648; lia).
    cbn [bind].
    rewrite (int_mul_ok (3 * s * s) s)
      by (unfold INT_MIN, INT_MAX; change (2 ^ 31) with 2147483648; lia).
    cbn [bind]. unfold reserve.
    destruct (3 * s * s * s <? 0); discriminate.
  - destruct (IridasItx.in3d st); [|discriminate].
    destruct (ParseUtils.StringVecToFloatVec (p0 :: ps)) as [tmp|];
      [|discriminate].
    destruct tmp as [|a [|b [|c [|d tmp]]]]; discriminate.
Qed.

Lemma itx_read_lines_defined :
  forall fileName lines n st u,
    0 <= n -> n + Z.of_nat (length lines) <= INT_MAX ->
    Forall (fun l => forall s, ItxLines.size_tag l = Some s -> -894 <= s <= 894)
           lines ->
    IridasItx.read_lines fileName lines n st <> Undefined u.
Proof.
  intros f lines. induction lines as [|l ls IH]; intros n st u N0 B F.
  - discriminate.
  - cbn [IridasItx.read_lines]. cbn [length] in B.
    rewrite int_incr_ok by lia. cbn [bind].
    inversion F as [|x xs F1 F2]; subst.
    destruct (IridasItx.read_line f l (n + 1) st) as [st1|e|u1] eqn:R;
      cbn [bind]; [|discriminate|].
    + apply IH; [lia|lia|exact F2].
    + exfalso. exact (itx_read_line_defined f l (n + 1) st u1 F1 R).
Qed.

(** X17: no undefined behaviour on reasonable input.  On a stream of fewer
    than 2^31 lines whose size tags, where they parse, give sizes from -894
    to 894, the reader returns or throws: no [int] overflows and no element
    is read or written out of bounds. *)
Theorem itx_read_defined :
  forall strm fileName u,
    Z.of_nat (length (ParseUtils.nextlines strm)) <= INT_MAX ->
    Forall (fun l => forall s, ItxLines.size_tag l = Some s -> -894 <= s <= 894)
           (ParseUtils.nextlines strm) ->
    IridasItx.read strm fileName <> Undefined u.
Proof.
  intros strm f u B F. unfold IridasItx.read.
  destruct (negb (good strm)); [discriminate|].
  pose proof (itx_read_lines_post f (ParseUtils.nextlines strm) 0
                {| IridasItx.raw := []; IridasItx.size3d := 0; IridasItx.in3d := false |}
                ltac:(cbv; split; discriminate) ltac:(discriminate)) as P.
  destruct (IridasItx.read_lines f (ParseUtils.nextlines strm) 0 _)
    as [st|e|u1] eqn:R; cbn [bind]; [|discriminate|].
  - destruct P as (_ & J & _).
    destruct (IridasItx.in3d st); [|discriminate].
    destruct (size_ok_bounds _ (J eq_refl)) as (_ & _ & _ & B4 & B5 & _).
    assert (Z0 : INT_MIN <= 0) by (cbv; discriminate).
    rewrite (int_mul_ok (IridasItx.size3d st) (IridasItx.size3d st)) by lia.
    cbn [bind].
    rewrite (int_mul_ok (IridasItx.size3d st * IridasItx.size3d st)
               (IridasItx.size3d st)) by lia.
    cbn [bind]. cbv zeta.
    destruct (negb _); [discriminate|].
    unfold setArrayFromRedFastestOrder.
    destruct (N.eqb _ _); discriminate.
  - exfalso.
    refine (itx_read_lines_defined f (ParseUtils.nextlines strm) 0 _ u1
              (Z.le_refl 0) _ F R). lia.
Qed.

(** X18: the size that is too large.  A first size tag whose size is below
    -894 or above 894 makes the product for [reserve] overflow the [int]:
    the behaviour is undefined, and no error is reported. *)
Theorem itx_read_size_overflow :
  forall strm fileName pre tag post s,
    good strm = true ->
    ParseUtils.nextlines strm = (pre ++ tag :: post)%list ->
    Z.of_nat (length pre) < INT_MAX ->
    Forall (fun l => ItxMore.is_tag l = false) pre ->
    ItxLines.size_tag tag = Some s ->
    s < -894 \/ 894 < s ->
    IridasItx.read strm fileName = Undefined SignedOverflow.
Proof.
  intros strm f pre tag post s G N B U T R.
  unfold IridasItx.read. rewrite G, N. cbn [negb].
  rewrite (itx_read_lines_app f pre (tag :: post) 0 _ _
             (itx_read_lines_untagged f pre 0
                {| IridasItx.raw := []; IridasItx.size3d := 0; IridasItx.in3d := false |}
                (Z.le_refl 0) ltac:(lia) eq_refl U)).
  cbn [IridasItx.read_lines]. rewrite Z.add_0_l.
  rewrite int_incr_ok by lia. cbn [bind].
  rewrite (itx_read_line_overflow f tag _ _ s T R). reflexivity.
Qed.

(** X16: a second size tag.  The reader keeps the triples it has when a
    further [LUT_3D_SIZE] tag comes: the last tag gives the edge size, and the
    triples before it count with those after it. *)
Theorem itx_read_second_tag :
  forall strm fileName lines1 lines2 hdr1 body1 s1 hdr2 body2 s2,
    good strm = true ->
    ParseUtils.nextlines strm = (lines1 ++ lines2)%list ->
    Z.of_nat (length lines1 + length lines2) <= INT_MAX ->
    filter (fun l => negb (ItxLines.is_skipped l)) lines1 = hdr1 :: body1 ->
    ItxLines.size_tag hdr1 = Some s1 ->
    ItxMore.size_ok s1 ->
    Forall (fun l => ItxLines.is_triple l = true) body1 ->
    filter (fun l => negb (ItxLines.is_skipped l)) lines2 = hdr2 :: body2 ->
    ItxLines.size_tag hdr2 = Some s2 ->
    ItxMore.size_ok s2 ->
    Forall (fun l => ItxLines.is_triple l = true) body2 ->
    IridasItx.read strm fileName
    = if s2 * s2 * s2 =? Z.of_nat (length body1 + length body2)
      then Ok {| lut3D :=
                   Some {| lut3d_gridSize := Z.to_N s2;
                           lut3d_array :=
                             flat_map ItxLines.triple_values (body1 ++ body2);
                           lut3d_interpolation := INTERP_DEFAULT;
                           lut3d_fileOutputBitDepth := BIT_DEPTH_F32 |} |}
      else IridasItx.ThrowErrorMessage
             ("Incorrect number of 3D LUT entries. Found "
              ++ put_size_t (N.of_nat (length body1 + length body2))
              ++ ", expected " ++ put_int (s2 * s2 * s2) ++ ".")
             fileName (-1) "".
Proof.
  intros strm f lines1 lines2 hdr1 body1 s1 hdr2 body2 s2
         G NX B F1 T1 K1 A1 F2 T2 K2 A2.
  pose proof (filter_length_le (fun l => negb (ItxLines.is_skipped l)) lines1)
    as FL1. rewrite F1 in FL1. cbn [length] in FL1.
  pose proof (filter_length_le (fun l => negb (ItxLines.is_skipped l)) lines2)
    as FL2. rewrite F2 in FL2. cbn [length] in FL2.
  pose proof (itx_read_lines_cube f lines1 0
                {| IridasItx.raw := []; IridasItx.size3d := 0;
                   IridasItx.in3d := false |}
                hdr1 body1 s1 (Z.le_refl 0) ltac:(lia) F1 T1 K1 A1) as R1.
  cbn [IridasItx.raw app] in R1.
  pose proof (itx_read_lines_app f lines1 lines2 0 _ _ R1) as R.
  rewrite (itx_read_lines_cube f lines2 (0 + Z.of_nat (length lines1)) _
             hdr2 body2 s2 ltac:(lia) ltac:(lia) F2 T2 K2 A2) in R.
  cbn [IridasItx.raw] in R. rewrite <- flat_map_app, <- NX in R.
  rewrite (itx_read_counted strm f _ s2 (length body1 + length body2) G R K2).
  - reflexivity.
  - rewrite flat_map_app, length_app,
      (itx_triple_values_length body1 A1), (itx_triple_values_length body2 A2).
    lia.
  - lia.
Qed.

(** ** The .spi1d reader: what every run keeps *)

Lemma list_set_length :
  forall (A : Type) (v : list A) i a, length (list_set v i a) = length v.
Proof.
  intros A v. induction v as [|x v IH]; intros [|i] a; cbn; congruence.
Qed.

Lemma vec_set_inv :
  forall (A : Type) (v v' : list A) i a,
    vec_set v i a = Ok v' ->
    length v' = length v /\ (i < N.of_nat (length v))%N.
Proof.
  intros A v v' i a. unfold vec_set.
  destruct (N.ltb_spec i (N.of_nat (length v))); [|discriminate].
  intros E; inversion E. now rewrite list_set_length.
Qed.

Lemma spi1d_store_entry_post :
  forall st a b c st',
    Spi1D.store_entry st a b c = Ok st' ->
    length (Spi1D.lutArray st') = length (Spi1D.lutArray st)
    /\ Spi1D.lineCount st' = Spi1D.lineCount st + 1
    /\ Spi1D.lineCount st + 1 <= INT_MAX.
Proof.
  intros st a b c st'. unfold Spi1D.store_entry.
  destruct a as [x| |]; cbn [bind]; try discriminate.
  destruct (vec_set (Spi1D.lutArray st) (Spi1D.i st) x) as [v1| |] eqn:V1;
    cbn [bind]; try discriminate.
  destruct b as [y| |]; cbn [bind]; try discriminate.
  destruct (vec_set v1 _ y) as [v2| |] eqn:V2; cbn [bind]; try discriminate.
  destruct c as [z| |]; cbn [bind]; try discriminate.
  destruct (vec_set v2 _ z) as [v3| |] eqn:V3; cbn [bind]; try discriminate.
  destruct (int_incr (Spi1D.lineCount st)) as [m| |] eqn:Inc; cbn [bind];
    try discriminate.
  apply int_incr_inv in Inc. destruct Inc as [-> Inc].
  apply vec_set_inv in V1, V2, V3.
  intros E; inversion E; subst. cbn [Spi1D.lutArray Spi1D.lineCount].
  split; [|split; [reflexivity|exact Inc]].
  destruct V1 as [V1 _], V2 as [V2 _], V3 as [V3 _]. congruence.
Qed.

Lemma spi1d_body_line_post :
  forall fileName line lineBuffer components n st st',
    Spi1D.body_line fileName line lineBuffer components n st = Ok st' ->
    length (Spi1D.lutArray st') = length (Spi1D.lutArray st)
    /\ Spi1D.lineCount st <= Spi1D.lineCount st' <= INT_MAX
       \/ st' = st.
Proof.
  intros f line lb c n st st'. unfold Spi1D.body_line.
  destruct (String.length line =? 0)%nat; [intros E; inversion E; now right|].
  destruct (ParseUtils.StringVecToFloatVec _) as [values|]; cbn [bind];
    [|discriminate].
  destruct (negb (c =? static_cast_int (Z.of_nat (length values)))); cbn [bind];
    [discriminate|].
  destruct (c =? 1).
  { intros E. apply spi1d_store_entry_post in E. left. lia. }
  destruct (c =? 2).
  { intros E. apply spi1d_store_entry_post in E. left. lia. }
  destruct (c =? 3).
  { intros E. apply spi1d_store_entry_post in E. left. lia. }
  intros E; inversion E; now right.
Qed.

Lemma spi1d_read_body_post :
  forall fileName components strm n st st',
    Spi1D.lineCount st <= INT_MAX ->
    Spi1D.read_body fileName components strm n st = Ok st' ->
    length (Spi1D.lutArray st') = length (Spi1D.lutArray st)
    /\ Spi1D.lineCount st <= Spi1D.lineCount st' <= INT_MAX.
Proof.
  intros f c strm. induction strm as [|seg rest IH]; intros n st st' B.
  - cbn [Spi1D.read_body getline].
    destruct (int_incr n); cbn [bind]; try discriminate.
    intros E; inversion E; subst. split; [reflexivity|lia].
  - cbn [Spi1D.read_body].
    destruct (getline Spi1D.MAX_LINE_SIZE (seg :: rest)) as [buffer s1].
    destruct (int_incr n) as [m| |]; cbn [bind]; try discriminate.
    destruct (good s1); [|intros E; inversion E; subst; split; [reflexivity|lia]].
    destruct (String.eqb _ "}");
      [intros E; inversion E; subst; split; [reflexivity|lia]|].
    destruct (Spi1D.body_line f _ _ c m st) as [st1| |] eqn:BL; cbn [bind];
      try discriminate.
    intros R. apply spi1d_body_line_post in BL.
    assert (B1 : Spi1D.lineCount st1 <= INT_MAX)
      by (destruct BL as [BL| ->]; lia).
    destruct (IH _ _ _ B1 R) as [L C].
    destruct BL as [[L1 C1]| ->]; split; lia.
Qed.

(** X8: an accepted .spi1d stream gives a LUT1D whose array has exactly three
    values per declared entry, in 32-bit float depth; the declared length is
    not negative. *)
Theorem spi1d_read_shape :
  forall strm fileName cachedFile,
    Spi1D.read strm fileName = Ok cachedFile ->
    N.of_nat (length (lut1d_array (lut cachedFile)))
    = (3 * lut1d_dimension (lut cachedFile))%N
    /\ Z.of_N (lut1d_dimension (lut cachedFile)) <= INT_MAX
    /\ lut1d_fileOutputBitDepth (lut cachedFile) = BIT_DEPTH_F32.
Proof.
  intros strm f cf. unfold Spi1D.read.
  destruct (Spi1D.read_header f strm 0 Spi1D.initial_header)
    as [[[h n] s]| |]; cbn [bind]; try discriminate.
  destruct (Spi1D.check_header f h); cbn [bind]; try discriminate.
  destruct (Spi1D.read_body f (Spi1D.components h) s n _) as [st| |] eqn:RB;
    cbn [bind]; try discriminate.
  apply spi1d_read_body_post in RB; [|cbv; discriminate].
  cbn [Spi1D.lutArray Spi1D.lineCount] in RB. destruct RB as [L C].
  destruct (Z.eqb_spec (Spi1D.lineCount st) (Spi1D.lut_size h)) as [E|E];
    cbn [negb]; [|discriminate].
  intros R; inversion R; subst. clear R.
  cbn [lut lut1d_array lut1d_dimension lut1d_fileOutputBitDepth Lut1D_setArray
       Lut1D_setFileOutputBitDepth Lut1DOpData_new] in *.
  rewrite length_map, length_seq in L.
  assert (U : to_unsigned_long (Spi1D.lut_size h) = Z.to_N (Spi1D.lut_size h)).
  { unfold to_unsigned_long. rewrite Z.mod_small; [reflexivity|].
    unfold INT_MAX in C. change (2 ^ 31 - 1) with 2147483647 in C.
    change (2 ^ 64) with 18446744073709551616. lia. }
  rewrite U in *. split; [|split; [|reflexivity]].
  - rewrite L. apply N2Nat.id.
  - rewrite Z2N.id by lia. lia.
Qed.

(** ** The .spi1d reader: any number of entries *)

Lemma list_set_app :
  forall (A : Type) (done : list A) x rest a,
    list_set (done ++ x :: rest)%list (length done) a = (done ++ a :: rest)%list.
Proof.
  intros A done x rest a. induction done as [|d done IH]; cbn; [reflexivity|].
  now rewrite IH.
Qed.

Lemma vec_set_app :
  forall (A : Type) (done : list A) x rest a,
    vec_set (done ++ x :: rest)%list (N.of_nat (length done)) a
    = Ok (done ++ a :: rest)%list.
Proof.
  intros A done x rest a. unfold vec_set. rewrite Nat2N.id, list_set_app.
  rewrite (proj2 (N.ltb_lt _ _)); [reflexivity|].
  rewrite length_app. cbn [length]. lia.
Qed.

Lemma vec_set_full :
  forall (A : Type) (done : list A) a,
    vec_set done (N.of_nat (length done)) a
    = Undefined (OutOfBoundsWrite (N.of_nat (length done)) (N.of_nat (length done))).
Proof.
  intros A done a. unfold vec_set. now rewrite N.ltb_irrefl.
Qed.

Lemma good_app :
  forall segs rest : istream, good rest = true -> good (segs ++ rest)%list = true.
Proof.
  intros [|seg segs] rest G; [exact G|reflexivity].
Qed.

Lemma spi1d_store_entry_ok :
  forall done t0 t1 t2 todo a b c lc,
    Z.of_nat (length done) + 3 < 2 ^ 64 ->
    0 <= lc < INT_MAX ->
    Spi1D.store_entry
      {| Spi1D.lutArray := (done ++ t0 :: t1 :: t2 :: todo)%list;
         Spi1D.i := N.of_nat (length done);
         Spi1D.lineCount := lc |}
      (Ok a) (Ok b) (Ok c)
    = Ok {| Spi1D.lutArray := ((done ++ [a; b; c]) ++ todo)%list;
            Spi1D.i := N.of_nat (length (done ++ [a; b; c])%list);
            Spi1D.lineCount := lc + 1 |}.
Proof.
  intros done t0 t1 t2 todo a b c lc B C. unfold Spi1D.store_entry.
  cbn [bind Spi1D.lutArray Spi1D.i Spi1D.lineCount].
  change (2 ^ 64) with 18446744073709551616 in B.
  assert (E : forall k l, (k <= 3)%nat -> length l = k ->
              ulong_add (N.of_nat (length done)) (N.of_nat k)
              = N.of_nat (length (done ++ l)%list)).
  { intros k l K L. unfold ulong_add.
    change (2 ^ 64)%N with 18446744073709551616%N.
    rewrite N.mod_small by lia. rewrite length_app, L. lia. }
  rewrite vec_set_app. cbn [bind].
  pose proof (E 1%nat [a] ltac:(lia) eq_refl) as E1.
  change (N.of_nat 1) with 1%N in E1. rewrite E1.
  replace (done ++ a :: t1 :: t2 :: todo)%list
    with ((done ++ [a]) ++ t1 :: t2 :: todo)%list
    by (rewrite <- app_assoc; reflexivity).
  rewrite vec_set_app. cbn [bind].
  pose proof (E 2%nat [a; b] ltac:(lia) eq_refl) as E2.
  change (N.of_nat 2) with 2%N in E2. rewrite E2.
  replace ((done ++ [a]) ++ b :: t2 :: todo)%list
    with ((done ++ [a; b]) ++ t2 :: todo)%list
    by (rewrite <- !app_assoc; reflexivity).
  rewrite vec_set_app. cbn [bind].
  pose proof (E 3%nat [a; b; c] ltac:(lia) eq_refl) as E3.
  change (N.of_nat 3) with 3%N in E3. rewrite E3.
  rewrite int_incr_ok by exact C. cbn [bind].
  f_equal. f_equal. rewrite <- !app_assoc. reflexivity.
Qed.

Lemma spi1d_store_entry_full :
  forall done a b c lc,
    Spi1D.store_entry
      {| Spi1D.lutArray := done;
         Spi1D.i := N.of_nat (length done);
         Spi1D.lineCount := lc |}
      (Ok a) b c
    = Undefined (OutOfBoundsWrite (N.of_nat (length done))
                                  (N.of_nat (length done))).
Proof.
  intros done a b c lc. unfold Spi1D.store_entry.
  cbn [bind Spi1D.lutArray Spi1D.i]. rewrite vec_set_full. reflexivity.
Qed.

Lemma spi1d_body_entry_inv :
  forall components seg e,
    Spi1DMore.body_entry components seg = Some e ->
    (String.length seg <= 4095)%nat
    /\ String.eqb (pystring.lower (pystring.strip (c_str seg))) "}" = false.
Proof.
  intros c seg e. unfold Spi1DMore.body_entry.
  destruct (Nat.leb_spec (String.length seg) 4095); cbn [negb]; [|discriminate].
  destruct (String.eqb _ "}"); [discriminate|]. intros _. now split.
Qed.

Lemma spi1d_body_line_entry :
  forall fileName components seg e n st,
    Spi1DMore.body_entry components seg = Some e ->
    Spi1D.body_line fileName (pystring.strip (c_str seg)) (c_str seg)
                    components n st
    = match e with
      | [a; b; c] => Spi1D.store_entry st (Ok a) (Ok b) (Ok c)
      | _ => Ok st
      end
    /\ (e = [] \/ exists a b c, e = [a; b; c]).
Proof.
  intros f comps seg e n st. unfold Spi1DMore.body_entry, Spi1D.body_line.
  destruct (negb (String.length seg <=? 4095)%nat); [discriminate|].
  destruct (String.eqb _ "}"); [discriminate|].
  destruct (String.length (pystring.strip (c_str seg)) =? 0)%nat.
  { intros E; inversion E; subst. split; [reflexivity|now left]. }
  destruct (ParseUtils.StringVecToFloatVec _) as [values|]; [|discriminate].
  unfold Spi1DMore.entry.
  destruct values as [|x [|y [|z [|w vs]]]]; try discriminate.
  - destruct (Z.eqb_spec comps 1) as [->|]; [|discriminate].
    intros E; inversion E; subst. split; [reflexivity|right; eauto].
  - destruct (Z.eqb_spec comps 2) as [->|]; [|discriminate].
    intros E; inversion E; subst. split; [reflexivity|right; eauto].
  - destruct (Z.eqb_spec comps 3) as [->|]; [|discriminate].
    intros E; inversion E; subst. split; [reflexivity|right; eauto].
Qed.

Lemma spi1d_entries_length :
  forall components segs entries,
    Forall2 (fun seg e => Spi1DMore.body_entry components seg = Some e)
            segs entries ->
    length (concat entries) = (3 * Spi1DMore.entries_count entries)%nat
    /\ (Spi1DMore.entries_count entries <= length segs)%nat.
Proof.
  intros c segs entries F. induction F as [|seg e segs entries E F IH].
  - split; reflexivity.
  - destruct (spi1d_body_line_entry "" c seg e 0
                {| Spi1D.lutArray := []; Spi1D.i := 0; Spi1D.lineCount := 0 |} E)
      as [_ [->|(a & b & d & ->)]];
      unfold Spi1DMore.entries_count in *; cbn [concat filter length app] in *;
      lia.
Qed.

Lemma spi1d_read_body_stop :
  forall fileName components close tail n st,
    Spi1DMore.closes close tail = true ->
    0 <= n < INT_MAX ->
    Spi1D.read_body fileName components (close :: tail) n st = Ok st.
Proof.
  intros f c close tail n st C B. cbn [Spi1D.read_body]. unfold getline.
  change (Spi1D.MAX_LINE_SIZE - 1)%nat with 4095%nat.
  rewrite int_incr_ok by exact B. unfold Spi1DMore.closes in C.
  destruct (good tail) eqn:G; cbn [andb negb orb] in *; [|reflexivity].
  destruct (String.length close <=? 4095)%nat; cbn [negb orb] in C;
    [|reflexivity].
  cbn [bind]. rewrite G, C. reflexivity.
Qed.

Lemma spi1d_read_body_entries :
  forall fileName components segs entries,
    Forall2 (fun seg e => Spi1DMore.body_entry components seg = Some e)
            segs entries ->
    forall rest n done todo lc,
      good rest = true ->
      (length (concat entries) <= length todo)%nat ->
      Z.of_nat (length done + length todo) < 2 ^ 64 ->
      0 <= n -> n + Z.of_nat (length segs) < INT_MAX ->
      0 <= lc -> lc + Z.of_nat (length segs) < INT_MAX ->
      Spi1D.read_body fileName components (segs ++ rest)%list n
        {| Spi1D.lutArray := (done ++ todo)%list;
           Spi1D.i := N.of_nat (length done);
           Spi1D.lineCount := lc |}
      = Spi1D.read_body fileName components rest (n + Z.of_nat (length segs))
          {| Spi1D.lutArray :=
               ((done ++ concat entries)
                ++ skipn (length (concat entries)) todo)%list;
             Spi1D.i := N.of_nat (length (done ++ concat entries)%list);
             Spi1D.lineCount :=
               lc + Z.of_nat (Spi1DMore.entries_count entries) |}.
Proof.
  intros f c segs entries F.
  induction F as [|seg e segs entries E F IH];
    intros rest n done todo lc G L B N0 N1 C0 C1.
  - cbn [app concat length skipn Spi1DMore.entries_count filter].
    rewrite app_nil_r. change (Z.of_nat 0) with 0. now rewrite !Z.add_0_r.
  - destruct (spi1d_body_entry_inv _ _ _ E) as [SL NB].
    cbn [length] in N1, C1. rewrite Nat2Z.inj_succ in N1, C1.
    change ((seg :: segs) ++ rest)%list with (seg :: (segs ++ rest))%list.
    rewrite spi1d_read_body_round;
      [|apply good_app; exact G|exact SL|lia].
    rewrite NB.
    destruct (spi1d_body_line_entry f c seg e (n + 1)
                {| Spi1D.lutArray := (done ++ todo)%list;
                   Spi1D.i := N.of_nat (length done);
                   Spi1D.lineCount := lc |} E)
      as [BL [->|(a & b & d & ->)]]; rewrite BL; clear BL.
    + cbn [bind]. rewrite (IH rest (n + 1) done todo lc G L B); try lia.
      cbn [concat app length]. unfold Spi1DMore.entries_count. cbn [filter].
      rewrite Nat2Z.inj_succ. f_equal. lia.
    + change (concat ([a; b; d] :: entries))
        with (a :: b :: d :: concat entries) in *.
      cbn [length] in L.
      destruct todo as [|t0 [|t1 [|t2 todo]]]; cbn [length] in L; try lia.
      cbn [length] in B.
      change (2 ^ 64) with 18446744073709551616 in B.
      rewrite spi1d_store_entry_ok;
        [|change (2 ^ 64) with 18446744073709551616; lia|lia].
      cbn [bind].
      rewrite (IH rest (n + 1) (done ++ [a; b; d])%list todo (lc + 1) G);
        try lia.
      2:{ rewrite !length_app. cbn [length].
          change (2 ^ 64) with 18446744073709551616. lia. }
      unfold Spi1DMore.entries_count. cbn [filter length skipn].
      rewrite Nat2Z.inj_succ. rewrite <- !app_assoc.
      change ([a; b; d] ++ concat entries)%list
        with (a :: b :: d :: concat entries).
      f_equal; [lia|]. f_equal. lia.
Qed.

Lemma spi1d_sscanf_d_int :
  forall tag buffer v,
    Scan.sscanf_d tag buffer = Ok (Some v) -> in_int v = true.
Proof.
  intros tag buffer v. unfold Scan.sscanf_d.
  destruct (Scan.after_literal tag buffer); [|discriminate].
  destruct (Scan.scan_integer _) as [[w r]|]; [|discriminate].
  destruct (in_int w) eqn:I; [|discriminate].
  intros E; inversion E; subst. exact I.
Qed.

Lemma spi1d_header_line_int :
  forall fileName lineBuffer n h h',
    Spi1D.header_line fileName lineBuffer n h = Ok h' ->
    in_int (Spi1D.lut_size h) = true ->
    in_int (Spi1D.lut_size h') = true.
Proof.
  intros f lb n h h'. unfold Spi1D.header_line.
  destruct (pystring.startswith lb "Version").
  { destruct (Scan.sscanf_d "Version" lb) as [[v|]| |]; cbn [bind];
      try discriminate.
    destruct (negb (v =? 1)); [discriminate|].
    intros E; inversion E; subst. exact (fun I => I). }
  destruct (pystring.startswith lb "From").
  { destruct (Spi1D.sscanf_f_f "From" lb) as [[a b]|]; [|discriminate].
    intros E; inversion E; subst. exact (fun I => I). }
  destruct (pystring.startswith lb "Components").
  { destruct (Scan.sscanf_d "Components" lb) as [[v|]| |]; cbn [bind];
      try discriminate.
    intros E; inversion E; subst. exact (fun I => I). }
  destruct (pystring.startswith lb "Length").
  { destruct (Scan.sscanf_d "Length" lb) as [[v|]| |] eqn:S; cbn [bind];
      try discriminate.
    intros E; inversion E; subst. intros _.
    exact (spi1d_sscanf_d_int _ _ _ S). }
  intros E; inversion E; subst. exact (fun I => I).
Qed.

Lemma spi1d_read_header_post :
  forall fileName strm n h h' n' strm',
    Spi1D.read_header fileName strm n h = Ok (h', n', strm') ->
    n < n' <= INT_MAX
    /\ (in_int (Spi1D.lut_size h) = true -> in_int (Spi1D.lut_size h') = true).
Proof.
  intros f strm. induction strm as [|seg rest IH]; intros n h h' n' s'.
  - cbn [Spi1D.read_header getline].
    destruct (int_incr n) as [m| |] eqn:Inc; cbn [bind]; try discriminate.
    apply int_incr_inv in Inc.
    destruct (Spi1D.header_line f _ m h) as [h1| |] eqn:HL; cbn [bind];
      try discriminate.
    intros E; inversion E; subst. split; [lia|].
    exact (spi1d_header_line_int _ _ _ _ _ HL).
  - cbn [Spi1D.read_header].
    destruct (getline Spi1D.MAX_LINE_SIZE (seg :: rest)) as [buffer s1].
    destruct (int_incr n) as [m| |] eqn:Inc; cbn [bind]; try discriminate.
    apply int_incr_inv in Inc.
    destruct (Spi1D.header_line f _ m h) as [h1| |] eqn:HL; cbn [bind];
      try discriminate.
    pose proof (spi1d_header_line_int _ _ _ _ _ HL) as P.
    destruct (good s1 && negb (pystring.startswith (c_str buffer) "{")).
    + intros R. destruct (IH _ _ _ _ _ R) as [A B]. split; [lia|tauto].
    + intros E; inversion E; subst. split; [lia|exact P].
Qed.

Lemma spi1d_check_header_ok :
  forall fileName h,
    Spi1D.version h = 1 -> 0 <= Spi1D.lut_size h ->
    0 <= Spi1D.components h <= 3 ->
    Spi1D.check_header fileName h = Ok tt.
Proof.
  intros f h V L C. unfold Spi1D.check_header. rewrite V.
  change (1 =? -1) with false.
  rewrite (proj2 (Z.eqb_neq (Spi1D.lut_size h) (-1))) by lia.
  rewrite (proj2 (Z.eqb_neq (Spi1D.components h) (-1))) by lia.
  rewrite (proj2 (Z.ltb_ge _ _)) by lia.
  rewrite Z.gtb_ltb, (proj2 (Z.ltb_ge _ _)) by lia. reflexivity.
Qed.

Lemma to_unsigned_long_int :
  forall z, 0 <= z -> in_int z = true -> to_unsigned_long z = Z.to_N z.
Proof.
  intros z P I. unfold in_int, INT_MIN, INT_MAX in I.
  change (2 ^ 31) with 2147483648 in I.
  apply andb_prop in I. destruct I as [_ I]. apply Z.leb_le in I.
  unfold to_unsigned_long. change (2 ^ 64) with 18446744073709551616.
  rewrite Z.mod_small; [reflexivity|lia].
Qed.

(** The state of the body loop when it starts, after the lines of [segs]. *)
Lemma spi1d_read_body_from_start :
  forall fileName h segs entries rest n,
    Forall2 (fun seg e => Spi1DMore.body_entry (Spi1D.components h) seg = Some e)
            segs entries ->
    good rest = true ->
    0 <= Spi1D.lut_size h -> in_int (Spi1D.lut_size h) = true ->
    Z.of_nat (Spi1DMore.entries_count entries) <= Spi1D.lut_size h ->
    0 <= n -> n + Z.of_nat (length segs) < INT_MAX ->
    Spi1D.read_body fileName (Spi1D.components h) (segs ++ rest)%list n
      {| Spi1D.lutArray :=
           lut1d_array (Lut1D_setFileOutputBitDepth
                          (Lut1DOpData_new (to_unsigned_long (Spi1D.lut_size h)))
                          BIT_DEPTH_F32);
         Spi1D.i := 0;
         Spi1D.lineCount := 0 |}
    = Spi1D.read_body fileName (Spi1D.components h) rest
        (n + Z.of_nat (length segs))
        {| Spi1D.lutArray :=
             (concat entries
              ++ skipn (length (concat entries))
                   (lut1d_array (Lut1DOpData_new (Z.to_N (Spi1D.lut_size h)))))%list;
           Spi1D.i := N.of_nat (length (concat entries));
           Spi1D.lineCount := Z.of_nat (Spi1DMore.entries_count entries) |}.
Proof.
  intros f h segs entries rest n F G L I K N0 N1.
  rewrite (to_unsigned_long_int _ L I).
  destruct (spi1d_entries_length _ _ _ F) as [CL CS].
  pose proof I as I'. unfold in_int, INT_MIN, INT_MAX in I'.
  change (2 ^ 31) with 2147483648 in I'.
  apply andb_prop in I'. destruct I' as [_ I']. apply Z.leb_le in I'.
  assert (AL : length (lut1d_array (Lut1DOpData_new (Z.to_N (Spi1D.lut_size h))))
               = N.to_nat (3 * Z.to_N (Spi1D.lut_size h))).
  { cbn [lut1d_array Lut1DOpData_new]. now rewrite length_map, length_seq. }
  exact (spi1d_read_body_entries f (Spi1D.components h) segs entries F rest n []
           (lut1d_array (Lut1DOpData_new (Z.to_N (Spi1D.lut_size h)))) 0 G
           ltac:(rewrite AL; lia)
           ltac:(rewrite AL; change (2 ^ 64) with 18446744073709551616;
                 cbn [length]; lia)
           N0 N1 ltac:(lia) ltac:(unfold INT_MAX in *; lia)).
Qed.

(** X9: a .spi1d stream whose header loop ends well (version 1, 0 to 3
    components, a length that is not negative), followed by value lines and
    blank lines up to the closing brace or the end of the stream, is accepted
    when the value lines are as many as the declared length: the LUT holds
    their entries in order, three values each.  With fewer value lines it is
    rejected with "Not enough entries found.". *)
Theorem spi1d_read_entries :
  forall strm fileName h n segs entries close tail,
    Spi1D.read_header fileName strm 0 Spi1D.initial_header
    = Ok (h, n, (segs ++ close :: tail)%list) ->
    Spi1D.version h = 1 ->
    0 <= Spi1D.components h <= 3 ->
    0 <= Spi1D.lut_size h ->
    n + Z.of_nat (length segs) < INT_MAX ->
    Forall2 (fun seg e => Spi1DMore.body_entry (Spi1D.components h) seg = Some e)
            segs entries ->
    Spi1DMore.closes close tail = true ->
    Z.of_nat (Spi1DMore.entries_count entries) <= Spi1D.lut_size h ->
    Spi1D.read strm fileName
    = if Z.of_nat (Spi1DMore.entries_count entries) =? Spi1D.lut_size h
      then Ok {| lut := {| lut1d_dimension := Z.to_N (Spi1D.lut_size h);
                           lut1d_array := concat entries;
                           lut1d_interpolation := INTERP_DEFAULT;
                           lut1d_fileOutputBitDepth := BIT_DEPTH_F32 |};
                 from_min := Spi1D.h_from_min h;
                 from_max := Spi1D.h_from_max h |}
      else Spi1D.ThrowErrorMessage "Not enough entries found." fileName (-1) "".
Proof.
  intros strm f h n segs entries close tail RH V C L N1 F CL K.
  destruct (spi1d_read_header_post _ _ _ _ _ _ _ RH) as [N0 I].
  specialize (I eq_refl).
  unfold Spi1D.read. rewrite RH. cbn [bind].
  rewrite (spi1d_check_header_ok f h V L C). cbn [bind].
  rewrite (spi1d_read_body_from_start f h segs entries (close :: tail) n F
             eq_refl L I K ltac:(lia) N1).
  rewrite (spi1d_read_body_stop _ _ _ _ _ _ CL) by lia.
  cbn [bind Spi1D.lineCount Spi1D.lutArray].
  destruct (Z.eqb_spec (Z.of_nat (Spi1DMore.entries_count entries))
                       (Spi1D.lut_size h)) as [E|E]; cbn [negb];
    [|reflexivity].
  rewrite (to_unsigned_long_int _ L I).
  destruct (spi1d_entries_length _ _ _ F) as [EL _].
  rewrite skipn_all2.
  2:{ cbn [lut1d_array Lut1DOpData_new]. rewrite length_map, length_seq. lia. }
  rewrite app_nil_r. reflexivity.
Qed.

(** X10: with one value line more than the declared length before the closing
    brace, the reader stores the extra entry past the end of the LUT array:
    no error is raised, the behaviour is undefined. *)
Theorem spi1d_read_too_many_entries :
  forall strm fileName h n segs entries extra a b c rest,
    Spi1D.read_header fileName strm 0 Spi1D.initial_header
    = Ok (h, n, (segs ++ extra :: rest)%list) ->
    Spi1D.version h = 1 ->
    0 <= Spi1D.components h <= 3 ->
    n + Z.of_nat (length segs) < INT_MAX ->
    Forall2 (fun seg e => Spi1DMore.body_entry (Spi1D.components h) seg = Some e)
            segs entries ->
    Z.of_nat (Spi1DMore.entries_count entries) = Spi1D.lut_size h ->
    Spi1DMore.body_entry (Spi1D.components h) extra = Some [a; b; c] ->
    good rest = true ->
    Spi1D.read strm fileName
    = Undefined (OutOfBoundsWrite (3 * Z.to_N (Spi1D.lut_size h))
                                  (3 * Z.to_N (Spi1D.lut_size h))).
Proof.
  intros strm f h n segs entries extra a b c rest RH V C N1 F K E G.
  destruct (spi1d_read_header_post _ _ _ _ _ _ _ RH) as [N0 I].
  specialize (I eq_refl).
  assert (L : 0 <= Spi1D.lut_size h) by lia.
  unfold Spi1D.read. rewrite RH. cbn [bind].
  rewrite (spi1d_check_header_ok f h V L C). cbn [bind].
  rewrite (spi1d_read_body_from_start f h segs entries (extra :: rest) n F
             eq_refl L I ltac:(lia) ltac:(lia) N1).
  destruct (spi1d_entries_length _ _ _ F) as [EL _].
  destruct (spi1d_body_entry_inv _ _ _ E) as [SL NB].
  rewrite skipn_all2.
  2:{ cbn [lut1d_array Lut1DOpData_new]. rewrite length_map, length_seq. lia. }
  rewrite app_nil_r.
  rewrite spi1d_read_body_round; [|exact G|exact SL|lia].
  rewrite NB.
  destruct (spi1d_body_line_entry f (Spi1D.components h) extra [a; b; c]
              (n + Z.of_nat (length segs) + 1)
              {| Spi1D.lutArray := concat entries;
                 Spi1D.i := N.of_nat (length (concat entries));
                 Spi1D.lineCount := Z.of_nat (Spi1DMore.entries_count entries) |}
              E) as [BL _].
  rewrite BL, spi1d_store_entry_full. cbn [bind].
  replace (N.of_nat (length (concat entries)))
    with (3 * Z.to_N (Spi1D.lut_size h))%N by lia.
  reflexivity.
Qed.

(** X11: a line of the body that is neither blank nor the closing brace and
    does not hold [components] numbers is rejected with its line number,
    whatever came before it. *)
Theorem spi1d_read_malformed_line :
  forall strm fileName h n segs entries bad rest,
    Spi1D.read_header fileName strm 0 Spi1D.initial_header
    = Ok (h, n, (segs ++ bad :: rest)%list) ->
    Spi1D.version h = 1 ->
    0 <= Spi1D.components h <= 3 ->
    n + Z.of_nat (length segs) < INT_MAX ->
    Forall2 (fun seg e => Spi1DMore.body_entry (Spi1D.components h) seg = Some e)
            segs entries ->
    Z.of_nat (Spi1DMore.entries_count entries) <= Spi1D.lut_size h ->
    Spi1DMore.is_malformed (Spi1D.components h) bad = true ->
    good rest = true ->
    Spi1D.read strm fileName
    = Spi1D.ThrowErrorMessage "Malformed LUT line." fileName
        (n + Z.of_nat (length segs) + 1) (pystring.strip (c_str bad)).
Proof.
  intros strm f h n segs entries bad rest RH V C N1 F K M G.
  destruct (spi1d_read_header_post _ _ _ _ _ _ _ RH) as [N0 I].
  specialize (I eq_refl).
  assert (L : 0 <= Spi1D.lut_size h) by lia.
  unfold Spi1D.read. rewrite RH. cbn [bind].
  rewrite (spi1d_check_header_ok f h V L C). cbn [bind].
  rewrite (spi1d_read_body_from_start f h segs entries (bad :: rest) n F
             eq_refl L I K ltac:(lia) N1).
  unfold Spi1DMore.is_malformed in M.
  apply andb_prop in M. destruct M as [M M4].
  apply andb_prop in M. destruct M as [M M3].
  apply andb_prop in M. destruct M as [M1 M2].
  apply Nat.leb_le in M1. apply negb_true_iff in M2, M3.
  rewrite spi1d_read_body_round; [|exact G|exact M1|lia].
  rewrite M2. unfold Spi1D.body_line. rewrite M3.
  destruct (ParseUtils.StringVecToFloatVec _) as [values|];
    [rewrite M4|]; reflexivity.
Qed.

Lemma spi1d_header_line_tags :
  forall fileName line n h h',
    Spi1D.header_line fileName line n h = Ok h' ->
    (pystring.startswith line "Version" = false ->
     Spi1D.version h' = Spi1D.version h)
    /\ (pystring.startswith line "Length" = false ->
        Spi1D.lut_size h' = Spi1D.lut_size h)
    /\ (pystring.startswith line "Components" = false ->
        Spi1D.components h' = Spi1D.components h)
    /\ (pystring.startswith line "Version" = true ->
        Scan.sscanf_d "Version" line = Ok (Some 1)).
Proof.
  intros f line n h h'. unfold Spi1D.header_line.
  destruct (pystring.startswith line "Version").
  { destruct (Scan.sscanf_d "Version" line) as [[v|]| |]; cbn [bind];
      try discriminate.
    destruct (Z.eqb_spec v 1) as [->|]; cbn [negb]; [|discriminate].
    intros E; inversion E; subst. cbn [Spi1D.version Spi1D.lut_size Spi1D.components].
    repeat split; intros; (reflexivity || discriminate). }
  destruct (pystring.startswith line "From").
  { destruct (Spi1D.sscanf_f_f "From" line) as [[a b]|]; [|discriminate].
    intros E; inversion E; subst.
    repeat split; intros; (reflexivity || discriminate). }
  destruct (pystring.startswith line "Components").
  { destruct (Scan.sscanf_d "Components" line) as [[v|]| |]; cbn [bind];
      try discriminate.
    intros E; inversion E; subst.
    repeat split; intros; (reflexivity || discriminate). }
  destruct (pystring.startswith line "Length").
  { destruct (Scan.sscanf_d "Length" line) as [[v|]| |]; cbn [bind];
      try discriminate.
    intros E; inversion E; subst.
    repeat split; intros; (reflexivity || discriminate). }
  intros E; inversion E; subst.
  repeat split; intros; (reflexivity || discriminate).
Qed.

Lemma spi1d_read_header_tags :
  forall fileName strm n h h' n' strm',
    Spi1D.read_header fileName strm n h = Ok (h', n', strm') ->
    (Forall (fun l => pystring.startswith l "Version" = false)
            (Spi1DLines.header_lines strm) ->
     Spi1D.version h' = Spi1D.version h)
    /\ (Forall (fun l => pystring.startswith l "Length" = false)
               (Spi1DLines.header_lines strm) ->
        Spi1D.lut_size h' = Spi1D.lut_size h)
    /\ (Forall (fun l => pystring.startswith l "Components" = false)
               (Spi1DLines.header_lines strm) ->
        Spi1D.components h' = Spi1D.components h)
    /\ Forall (fun l => pystring.startswith l "Version" = true ->
                        Scan.sscanf_d "Version" l = Ok (Some 1))
              (Spi1DLines.header_lines strm).
Proof.
  intros f strm. induction strm as [|seg rest IH]; intros n h h' n' s'.
  - cbn [Spi1D.read_header Spi1DLines.header_lines getline].
    destruct (int_incr n) as [m| |]; cbn [bind]; try discriminate.
    destruct (Spi1D.header_line f _ m h) as [h1| |] eqn:HL; cbn [bind];
      try discriminate.
    intros E; inversion E; subst.
    destruct (spi1d_header_line_tags _ _ _ _ _ HL) as (A & B & C & D).
    split; [|split; [|split]];
      [intros F; inversion F; subst; auto ..|constructor; [exact D|constructor]].
  - cbn [Spi1D.read_header Spi1DLines.header_lines].
    destruct (getline Spi1D.MAX_LINE_SIZE (seg :: rest)) as [buffer s1].
    destruct (int_incr n) as [m| |]; cbn [bind]; try discriminate.
    destruct (Spi1D.header_line f _ m h) as [h1| |] eqn:HL; cbn [bind];
      try discriminate.
    destruct (spi1d_header_line_tags _ _ _ _ _ HL) as (A & B & C & D).
    destruct (good s1 && negb (pystring.startswith (c_str buffer) "{")).
    + intros R. destruct (IH _ _ _ _ _ R) as (A' & B' & C' & D').
      split; [|split; [|split]];
        [intros F; inversion F as [|x xs F1 F2]; subst;
         first [rewrite (A' F2); exact (A F1) | rewrite (B' F2); exact (B F1)
               |rewrite (C' F2); exact (C F1)] ..
        |constructor; [exact D|exact D']].
    + intros E; inversion E; subst.
      split; [|split; [|split]];
        [intros F; inversion F; subst; auto ..|constructor; [exact D|constructor]].
Qed.

Lemma not_Forall_false_Exists :
  forall (p : string -> bool) (l : list string),
    ~ Forall (fun x => p x = false) l -> Exists (fun x => p x = true) l.
Proof.
  intros p l. induction l as [|x l IH]; intros N.
  - exfalso. apply N. constructor.
  - destruct (p x) eqn:P; [now constructor|].
    apply Exists_cons_tl, IH. intros F. apply N. now constructor.
Qed.

(** X12: an accepted .spi1d stream has, among the lines its header loop
    reads, one that starts with [Version], one that starts with [Length] and
    one that starts with [Components]; and every line of the header that
    starts with [Version] gives version 1. *)
Theorem spi1d_read_needs_tags :
  forall strm fileName cachedFile,
    Spi1D.read strm fileName = Ok cachedFile ->
    Exists (fun l => pystring.startswith l "Version" = true)
           (Spi1DLines.header_lines strm)
    /\ Exists (fun l => pystring.startswith l "Length" = true)
              (Spi1DLines.header_lines strm)
    /\ Exists (fun l => pystring.startswith l "Components" = true)
              (Spi1DLines.header_lines strm)
    /\ Forall (fun l => pystring.startswith l "Version" = true ->
                        Scan.sscanf_d "Version" l = Ok (Some 1))
              (Spi1DLines.header_lines strm).
Proof.
  intros strm f cf. unfold Spi1D.read.
  destruct (Spi1D.read_header f strm 0 Spi1D.initial_header)
    as [[[h n] s]| |] eqn:RH; cbn [bind]; try discriminate.
  destruct (spi1d_read_header_tags _ _ _ _ _ _ _ RH) as (A & B & C & D).
  rewrite spi1d_check_header_cases.
  destruct (Z.eqb_spec (Spi1D.version h) (-1)) as [|V]; [discriminate|].
  destruct (Z.eqb_spec (Spi1D.lut_size h) (-1)) as [|L]; [discriminate|].
  destruct (Z.eqb_spec (Spi1D.components h) (-1)) as [|C']; [discriminate|].
  intros _. repeat split; try exact D;
    apply not_Forall_false_Exists; intros F.
  - apply V. now rewrite (A F).
  - apply L. now rewrite (B F).
  - apply C'. now rewrite (C F).
Qed.

(** ** Words and lines *)

Lemma isspace_tolower :
  forall c, pystring.isspace (pystring.tolower c) = pystring.isspace c.
Proof.
  intros c. destruct c as [[] [] [] [] [] [] [] []]; reflexivity.
Qed.

Lemma tolower_idem :
  forall c, pystring.tolower (pystring.tolower c) = pystring.tolower c.
Proof.
  intros c. destruct c as [[] [] [] [] [] [] [] []]; reflexivity.
Qed.

Lemma is_digit_facts :
  forall c, Scan.is_digit c = true ->
    pystring.isspace c = false /\ pystring.tolower c = c
    /\ Ascii.eqb c zero = false.
Proof.
  intros c D.
  destruct c as [[] [] [] [] [] [] [] []];
    try (vm_compute in D; discriminate D); repeat split.
Qed.

Lemma string_app_nil_r : forall s : string, s ++ "" = s.
Proof.
  induction s as [|c s IH]; cbn; [reflexivity|]. now rewrite IH.
Qed.

Lemma lower_app :
  forall a b, pystring.lower (a ++ b) = pystring.lower a ++ pystring.lower b.
Proof.
  induction a as [|c a IH]; intros b; cbn; [reflexivity|]. now rewrite IH.
Qed.

Lemma lower_idem :
  forall s, pystring.lower (pystring.lower s) = pystring.lower s.
Proof.
  induction s as [|c s IH]; cbn; [reflexivity|].
  now rewrite tolower_idem, IH.
Qed.

Lemma all_chars_app :
  forall p a b,
    BakedText.all_chars p (a ++ b)
    = BakedText.all_chars p a && BakedText.all_chars p b.
Proof.
  intros p a b. induction a as [|c a IH]; cbn; [reflexivity|].
  now rewrite IH, andb_assoc.
Qed.

Lemma all_chars_impl :
  forall (p q : ascii -> bool) s,
    (forall c, p c = true -> q c = true) ->
    BakedText.all_chars p s = true -> BakedText.all_chars q s = true.
Proof.
  intros p q s I. induction s as [|c s IH]; cbn; [reflexivity|].
  intros A. apply andb_prop in A. destruct A as [A1 A2].
  now rewrite (I _ A1), (IH A2).
Qed.

Lemma all_chars_lower :
  forall s,
    BakedText.all_chars BakedText.not_space s = true ->
    BakedText.all_chars BakedText.not_space (pystring.lower s) = true.
Proof.
  induction s as [|c s IH]; cbn; [reflexivity|].
  intros A. apply andb_prop in A. destruct A as [A1 A2].
  unfold BakedText.not_space in *. now rewrite isspace_tolower, A1, (IH A2).
Qed.

Lemma is_word_inv :
  forall w, BakedText.is_word w = true ->
    exists c w', w = String c w' /\ pystring.isspace c = false
                 /\ BakedText.all_chars BakedText.not_space w' = true.
Proof.
  intros [|c w'] W; [discriminate|].
  unfold BakedText.is_word in W. cbn [String.eqb negb andb BakedText.all_chars] in W.
  apply andb_prop in W. destruct W as [W1 W2].
  exists c, w'. repeat split; [|exact W2].
  unfold BakedText.not_space in W1. now apply negb_true_iff in W1.
Qed.

Lemma is_word_intro :
  forall c w', pystring.isspace c = false ->
    BakedText.all_chars BakedText.not_space w' = true ->
    BakedText.is_word (String c w') = true.
Proof.
  intros c w' C A. unfold BakedText.is_word.
  cbn [String.eqb negb andb BakedText.all_chars].
  unfold BakedText.not_space at 1. now rewrite C, A.
Qed.

Lemma is_word_lower :
  forall w, BakedText.is_word w = true ->
    BakedText.is_word (pystring.lower w) = true.
Proof.
  intros w W. destruct (is_word_inv w W) as (c & w' & -> & C & A).
  cbn [pystring.lower]. apply is_word_intro.
  - now rewrite isspace_tolower.
  - now apply all_chars_lower.
Qed.

Lemma split_cons :
  forall c s',
    pystring.split (String c s')
    = if pystring.isspace c then pystring.split s'
      else match s' with
           | EmptyString => [String c EmptyString]
           | String c' _ =>
               if pystring.isspace c' then String c EmptyString :: pystring.split s'
               else match pystring.split s' with
                    | w :: ws => String c w :: ws
                    | [] => [String c EmptyString]
                    end
           end.
Proof.
  intros c s'. destruct s'; reflexivity.
Qed.

Lemma split_word_sep :
  forall w s, w <> "" ->
    BakedText.all_chars BakedText.not_space w = true ->
    pystring.split (w ++ String " " s) = w :: pystring.split s.
Proof.
  induction w as [|c w IH]; intros s NE A; [contradiction|].
  cbn [BakedText.all_chars] in A. apply andb_prop in A. destruct A as [C A].
  unfold BakedText.not_space in C. apply negb_true_iff in C.
  change (String c w ++ String " " s) with (String c (w ++ String " " s)).
  rewrite split_cons, C. destruct w as [|c' w'].
  - change ("" ++ String " " s) with (String " " s).
    change (pystring.isspace " ") with true. cbv iota.
    rewrite (split_cons " " s). change (pystring.isspace " ") with true.
    reflexivity.
  - change (String c' w' ++ String " " s) with (String c' (w' ++ String " " s)).
    pose proof A as A'. cbn [BakedText.all_chars] in A'.
    apply andb_prop in A'. destruct A' as [C' _].
    unfold BakedText.not_space in C'. apply negb_true_iff in C'.
    rewrite C'.
    change (String c' (w' ++ String " " s)) with (String c' w' ++ String " " s).
    rewrite (IH s) by (discriminate || exact A). reflexivity.
Qed.

Lemma split_word :
  forall w, w <> "" ->
    BakedText.all_chars BakedText.not_space w = true ->
    pystring.split w = [w].
Proof.
  induction w as [|c w IH]; intros NE A; [contradiction|].
  cbn [BakedText.all_chars] in A. apply andb_prop in A. destruct A as [C A].
  unfold BakedText.not_space in C. apply negb_true_iff in C.
  rewrite split_cons, C. destruct w as [|c' w']; [reflexivity|].
  pose proof A as A'. cbn [BakedText.all_chars] in A'.
  apply andb_prop in A'. destruct A' as [C' _].
  unfold BakedText.not_space in C'. apply negb_true_iff in C'.
  rewrite C', IH by (discriminate || exact A). reflexivity.
Qed.

Lemma is_word_chars :
  forall w, BakedText.is_word w = true ->
    w <> "" /\ BakedText.all_chars BakedText.not_space w = true.
Proof.
  intros w W. destruct (is_word_inv w W) as (c & w' & -> & C & A).
  split; [discriminate|]. cbn [BakedText.all_chars].
  unfold BakedText.not_space at 1. now rewrite C, A.
Qed.

Lemma split_join :
  forall ws, Forall (fun w => BakedText.is_word w = true) ws ->
    pystring.split (String.concat " " ws) = ws.
Proof.
  induction 1 as [|w ws W F IH]; [reflexivity|].
  destruct (is_word_chars w W) as [NE A].
  destruct ws as [|w2 ws].
  - cbn [String.concat]. now apply split_word.
  - change (String.concat " " (w :: w2 :: ws))
      with (w ++ String " " (String.concat " " (w2 :: ws))).
    rewrite split_word_sep by assumption. now rewrite IH.
Qed.

Lemma lower_join :
  forall ws,
    pystring.lower (String.concat " " ws)
    = String.concat " " (map pystring.lower ws).
Proof.
  induction ws as [|w ws IH]; [reflexivity|].
  destruct ws as [|w2 ws]; [reflexivity|].
  change (String.concat " " (w :: w2 :: ws))
    with (w ++ String " " (String.concat " " (w2 :: ws))).
  change (String.concat " " (map pystring.lower (w :: w2 :: ws)))
    with (pystring.lower w
          ++ String " " (String.concat " " (map pystring.lower (w2 :: ws)))).
  rewrite lower_app. cbn [pystring.lower]. now rewrite IH.
Qed.

(** A line of words ends in a character that is not white space. *)
Lemma join_snoc :
  forall ws, ws <> [] -> Forall (fun w => BakedText.is_word w = true) ws ->
    exists s c, String.concat " " ws = s ++ String c ""
                /\ pystring.isspace c = false.
Proof.
  intros ws NE F. induction F as [|w ws W F IH]; [contradiction|].
  destruct ws as [|w2 ws].
  - cbn [String.concat]. clear IH NE F.
    destruct (is_word_chars w W) as [NE A]. clear W.
    induction w as [|c w IHw]; [contradiction|].
    cbn [BakedText.all_chars] in A. apply andb_prop in A. destruct A as [C A].
    destruct w as [|c' w'].
    + exists "", c. split; [reflexivity|].
      unfold BakedText.not_space in C. now apply negb_true_iff in C.
    + destruct (IHw ltac:(discriminate) A) as (s & d & E & D).
      exists (String c s), d. split; [|exact D]. cbn [append]. now rewrite <- E.
  - destruct (IH ltac:(discriminate)) as (s & d & E & D).
    exists (w ++ String " " s), d. split; [|exact D].
    change (String.concat " " (w :: w2 :: ws))
      with (w ++ String " " (String.concat " " (w2 :: ws))).
    rewrite E, string_app_assoc. reflexivity.
Qed.

Lemma rstrip_snoc :
  forall s c, pystring.isspace c = false ->
    pystring.rstrip (s ++ String c "") = s ++ String c "".
Proof.
  induction s as [|a s IH]; intros c C.
  - cbn [append pystring.rstrip]. now rewrite C.
  - change (String a s ++ String c "") with (String a (s ++ String c "")).
    cbn [pystring.rstrip]. rewrite (IH c C).
    destruct (s ++ String c "") eqn:E; [|reflexivity].
    destruct s; discriminate.
Qed.

Lemma length_snoc :
  forall s c, String.length (s ++ String c "") = S (String.length s).
Proof.
  induction s as [|a s IH]; intros c; cbn; [reflexivity|]. now rewrite IH.
Qed.

Lemma get_snoc :
  forall s c, get (String.length s) (s ++ String c "") = Some c.
Proof.
  induction s as [|a s IH]; intros c; cbn; [reflexivity|]. apply IH.
Qed.

Lemma chomp_cr_snoc :
  forall s c, pystring.isspace c = false ->
    ParseUtils.chomp_cr (s ++ String c "") = s ++ String c "".
Proof.
  intros s c C. unfold ParseUtils.chomp_cr.
  rewrite length_snoc, get_snoc.
  destruct (Ascii.eqb_spec c "013"); [|reflexivity].
  subst. discriminate C.
Qed.

Lemma prefix_hash :
  forall c r,
    String.prefix "#" (String c r) = if ascii_dec "#" c then true else false.
Proof.
  intros c r. cbn [String.prefix].
  destruct (ascii_dec "#" c); [destruct r|]; reflexivity.
Qed.

(** What the readers make of a line of words. *)
Lemma join_line :
  forall w ws,
    Forall (fun w => BakedText.is_word w = true) (w :: ws) ->
    let l := String.concat " " (w :: ws) in
    BakedText.all_chars BakedText.not_newline l = true
    /\ ParseUtils.chomp_cr l = l
    /\ pystring.strip l = l
    /\ l <> ""
    /\ pystring.split (pystring.lower (pystring.strip l))
       = map pystring.lower (w :: ws)
    /\ pystring.startswith l "#" = pystring.startswith w "#".
Proof.
  intros w ws F l.
  destruct (join_snoc (w :: ws) ltac:(discriminate) F) as (s & c & E & C).
  assert (W : BakedText.is_word w = true) by (inversion F; assumption).
  destruct (is_word_inv w W) as (c0 & w' & -> & C0 & A0).
  assert (HD : exists r, l = String c0 r).
  { unfold l. destruct ws as [|w2 ws]; [now exists w'|].
    now exists (w' ++ String " " (String.concat " " (w2 :: ws))). }
  destruct HD as [r HD].
  assert (ST : pystring.strip l = l).
  { unfold pystring.strip. unfold l at 1. rewrite E, rstrip_snoc by exact C.
    rewrite <- E. fold l. rewrite HD. cbn [pystring.lstrip]. now rewrite C0. }
  split; [|split; [|split; [|split; [|split]]]].
  - unfold l. clear E HD ST. induction F as [|x xs X F IH]; [reflexivity|].
    destruct (is_word_chars x X) as [_ AX].
    assert (NX : BakedText.all_chars BakedText.not_newline x = true).
    { revert AX. apply all_chars_impl. intros a.
      unfold BakedText.not_space, BakedText.not_newline.
      destruct (Ascii.eqb_spec a newline) as [->|]; [discriminate|reflexivity]. }
    destruct xs as [|x2 xs]; [exact NX|].
    change (String.concat " " (x :: x2 :: xs))
      with (x ++ String " " (String.concat " " (x2 :: xs))).
    rewrite all_chars_app, NX. cbn [BakedText.all_chars andb].
    change (BakedText.not_newline " ") with true. cbn [andb].
    exact IH.
  - unfold l. rewrite E. now apply chomp_cr_snoc.
  - exact ST.
  - rewrite HD. discriminate.
  - rewrite ST. unfold l. rewrite lower_join. apply split_join.
    clear - F. induction F as [|x xs X F IH]; [constructor|].
    constructor; [now apply is_word_lower|exact IH].
  - rewrite HD. unfold pystring.startswith. now rewrite !prefix_hash.
Qed.

(** ** The decimal text of an int *)

Lemma scan_digits_of_uint_acc :
  forall d acc,
    Scan.scan_digits (NilEmpty.string_of_uint d) (Z.pos acc)
    = (Z.pos (Pos.of_uint_acc d acc), "").
Proof.
  induction d; intros acc;
    cbn [NilEmpty.string_of_uint Scan.scan_digits Pos.of_uint_acc];
    [reflexivity|..];
    match goal with
    | |- context [Scan.is_digit ?c] =>
        change (Scan.is_digit c) with true; cbv iota;
        let v := eval vm_compute in (Scan.digit_value c) in
        change (Scan.digit_value c) with v
    end;
    rewrite <- IHd; f_equal; lia.
Qed.

Lemma scan_digits_of_uint :
  forall d,
    Scan.scan_digits (NilEmpty.string_of_uint d) 0 = (Z.of_N (Pos.of_uint d), "").
Proof.
  induction d; cbn [NilEmpty.string_of_uint Scan.scan_digits Pos.of_uint];
    [reflexivity|..];
    match goal with
    | |- context [Scan.is_digit ?c] =>
        change (Scan.is_digit c) with true; cbv iota
    end;
    first [exact IHd | apply scan_digits_of_uint_acc].
Qed.

Lemma string_of_uint_digits :
  forall d, BakedText.all_chars Scan.is_digit (NilEmpty.string_of_uint d) = true.
Proof.
  induction d; cbn [NilEmpty.string_of_uint BakedText.all_chars];
    [reflexivity|..]; rewrite IHd; reflexivity.
Qed.

Lemma put_int_pos :
  forall p,
    put_int (Z.pos p) = NilEmpty.string_of_uint (Pos.to_uint p)
    /\ exists c r, put_int (Z.pos p) = String c r.
Proof.
  intros p. unfold put_int. cbn [Z.to_int NilZero.string_of_int].
  unfold NilZero.string_of_uint.
  pose proof (Unsigned.to_uint_nonnil p) as N.
  destruct (Pos.to_uint p); [contradiction|..];
    (split; [reflexivity|cbn [NilEmpty.string_of_uint]; eauto]).
Qed.

Lemma c_str_digits :
  forall s, BakedText.all_chars Scan.is_digit s = true -> c_str s = s.
Proof.
  induction s as [|c s IH]; [reflexivity|]. cbn [BakedText.all_chars c_str].
  intros A. apply andb_prop in A. destruct A as [D A].
  destruct (is_digit_facts c D) as (_ & _ & Z). now rewrite Z, (IH A).
Qed.

Lemma lower_digits :
  forall s, BakedText.all_chars Scan.is_digit s = true -> pystring.lower s = s.
Proof.
  induction s as [|c s IH]; [reflexivity|]. cbn [BakedText.all_chars pystring.lower].
  intros A. apply andb_prop in A. destruct A as [D A].
  destruct (is_digit_facts c D) as (_ & L & _). now rewrite L, (IH A).
Qed.

Lemma scan_integer_digit :
  forall c r, Scan.is_digit c = true ->
    Scan.scan_integer (String c r)
    = let '(v, rest) := Scan.scan_digits (String c r) 0 in Some (v, rest).
Proof.
  intros c r D.
  destruct c as [[] [] [] [] [] [] [] []];
    try (vm_compute in D; discriminate D); reflexivity.
Qed.

Lemma StringToInt_put_int :
  forall c, 0 < c <= INT_MAX -> ParseUtils.StringToInt (put_int c) = Some c.
Proof.
  intros c B. destruct c as [|p|p]; try lia.
  destruct (put_int_pos p) as [E (a & r & E')].
  pose proof (string_of_uint_digits (Pos.to_uint p)) as D. rewrite <- E in D.
  unfold ParseUtils.StringToInt. rewrite (c_str_digits _ D).
  assert (DA : Scan.is_digit a = true).
  { rewrite E' in D. cbn [BakedText.all_chars] in D.
    now apply andb_prop in D. }
  rewrite E', (scan_integer_digit a r DA), <- E', E, scan_digits_of_uint.
  rewrite DecimalPos.Unsigned.of_to. cbn [Z.of_N].
  unfold in_int.
  rewrite (proj2 (Z.leb_le INT_MIN (Z.pos p))) by (unfold INT_MIN; lia).
  rewrite (proj2 (Z.leb_le (Z.pos p) INT_MAX)) by lia. reflexivity.
Qed.

Lemma put_int_word :
  forall c, 0 < c ->
    BakedText.is_word (put_int c) = true /\ pystring.lower (put_int c) = put_int c.
Proof.
  intros c B. destruct c as [|p|p]; try lia.
  destruct (put_int_pos p) as [E (a & r & E')].
  pose proof (string_of_uint_digits (Pos.to_uint p)) as D. rewrite <- E in D.
  split; [|now apply lower_digits].
  assert (A : BakedText.all_chars BakedText.not_space (put_int (Z.pos p)) = true).
  { revert D. apply all_chars_impl. intros x X.
    destruct (is_digit_facts x X) as (S & _ & _).
    unfold BakedText.not_space. now rewrite S. }
  unfold BakedText.is_word. rewrite A, E'. reflexivity.
Qed.

(** ** The lines of a baked text *)

Lemma istringstream_line :
  forall a rest, BakedText.all_chars BakedText.not_newline a = true ->
    istringstream (a ++ String newline rest) = a :: istringstream rest.
Proof.
  induction a as [|c a IH]; intros rest A.
  - cbn [append istringstream]. now rewrite Ascii.eqb_refl.
  - cbn [BakedText.all_chars] in A. apply andb_prop in A. destruct A as [C A].
    unfold BakedText.not_newline in C. apply negb_true_iff in C.
    change (String c a ++ String newline rest)
      with (String c (a ++ String newline rest)).
    cbn [istringstream]. now rewrite C, (IH rest A).
Qed.

Lemma row_text_line :
  forall rgb,
    ItxOutput.row_text rgb = BakedText.row_line rgb ++ String newline "".
Proof.
  intros [[r g] b]. unfold ItxOutput.row_text, BakedText.row_line.
  cbn [String.concat]. now rewrite !string_app_assoc.
Qed.

Lemma istringstream_rows :
  forall rows,
    Forall (fun l => BakedText.all_chars BakedText.not_newline l = true)
           (map BakedText.row_line rows) ->
    istringstream (ItxOutput.put_rows rows ++ String newline "")
    = (map BakedText.row_line rows ++ [""; ""])%list.
Proof.
  induction rows as [|rgb rows IH]; intros F; [reflexivity|].
  cbn [map] in F. inversion F as [|x xs N F']; subst.
  cbn [ItxOutput.put_rows map app].
  rewrite row_text_line, !string_app_assoc.
  change (String newline "" ++ ItxOutput.put_rows rows ++ String newline "")
    with (String newline (ItxOutput.put_rows rows ++ String newline "")).
  rewrite (istringstream_line _ _ N), (IH F'). reflexivity.
Qed.

Lemma nextlines_lines :
  forall ls,
    Forall (fun l => ParseUtils.chomp_cr l = l /\ pystring.strip l = l /\ l <> "") ls ->
    ParseUtils.nextlines (ls ++ [""; ""])%list = ls.
Proof.
  induction 1 as [|l ls (C & S & N) F IH]; [reflexivity|].
  cbn [app ParseUtils.nextlines]. cbv zeta. rewrite C, S.
  destruct l; [contradiction|]. now rewrite IH.
Qed.

Lemma pixels_chunks :
  forall n cubeData,
    length cubeData = (3 * n)%nat ->
    map (ItxOutput.pixel cubeData) (seq 0 n) = BakedText.chunks cubeData.
Proof.
  induction n as [|n IH]; intros d L.
  - destruct d; [reflexivity|discriminate].
  - destruct d as [|r [|g [|b d]]]; try (cbn [length] in L; lia).
    cbn [seq map BakedText.chunks]. f_equal.
    rewrite <- seq_shift, map_map, <- (IH d) by (cbn [length] in L; lia).
    apply map_ext. intros j. unfold ItxOutput.pixel.
    replace (3 * S j)%nat with (S (S (S (3 * j)))) by lia. reflexivity.
Qed.

Lemma row_reads :
  forall x1 x2 x3 y1 y2 y3,
    BakedText.reads_back x1 y1 -> BakedText.reads_back x2 y2 ->
    BakedText.reads_back x3 y3 ->
    let l := BakedText.row_line (x1, x2, x3) in
    ItxLines.is_triple l = true
    /\ ItxLines.triple_values l = [y1; y2; y3]
    /\ BakedText.all_chars BakedText.not_newline l = true
    /\ (ParseUtils.chomp_cr l = l /\ pystring.strip l = l /\ l <> "").
Proof.
  intros x1 x2 x3 y1 y2 y3 [F1 S1] [F2 S2] [F3 S3] l.
  unfold BakedText.is_field in F1, F2, F3.
  apply andb_prop in F1, F2, F3.
  destruct F1 as [F1 L1], F2 as [F2 _], F3 as [F3 _].
  apply andb_prop in F1, F2, F3.
  destruct F1 as [W1 N1], F2 as [W2 _], F3 as [W3 _].
  apply negb_true_iff in L1, N1.
  destruct (join_line (put_float_fixed 6 x1)
              [put_float_fixed 6 x2; put_float_fixed 6 x3]
              ltac:(repeat constructor; assumption))
    as (NL & CH & ST & NE & SP & SW).
  change (String.concat " " [put_float_fixed 6 x1; put_float_fixed 6 x2;
                             put_float_fixed 6 x3]) with l in *.
  assert (T : ItxLines.triple l = Some [y1; y2; y3]).
  { unfold ItxLines.triple, ItxLines.tokens. rewrite SW, N1, SP. cbn [map].
    now rewrite lower_idem, L1, S1, S2, S3. }
  unfold ItxLines.is_triple, ItxLines.triple_values. rewrite T.
  repeat split; assumption.
Qed.

Lemma rows_read_back :
  forall n cubeData values,
    length cubeData = (3 * n)%nat ->
    Forall2 BakedText.reads_back cubeData values ->
    let rows := map BakedText.row_line (BakedText.chunks cubeData) in
    Forall (fun l => ItxLines.is_triple l = true) rows
    /\ flat_map ItxLines.triple_values rows = values
    /\ Forall (fun l => BakedText.all_chars BakedText.not_newline l = true) rows
    /\ Forall (fun l => ParseUtils.chomp_cr l = l /\ pystring.strip l = l
                        /\ l <> "") rows
    /\ length rows = n.
Proof.
  induction n as [|n IH]; intros d values L F.
  - destruct d; [|discriminate]. inversion F; subst.
    cbn. repeat split; constructor.
  - destruct d as [|x1 [|x2 [|x3 d]]]; try (cbn [length] in L; lia).
    inversion F as [|? y1 ? v1 R1 F1]; subst.
    inversion F1 as [|? y2 ? v2 R2 F2]; subst.
    inversion F2 as [|? y3 ? v3 R3 F3]; subst.
    destruct (IH d v3 ltac:(cbn [length] in L; lia) F3) as (T & V & NL & LS & LN).
    destruct (row_reads x1 x2 x3 y1 y2 y3 R1 R2 R3) as (T0 & V0 & NL0 & LS0).
    cbn [BakedText.chunks map flat_map length].
    repeat split; try (constructor; assumption).
    + rewrite V0, V. reflexivity.
    + now rewrite LN.
Qed.

Lemma header_reads :
  forall c, 0 < c <= INT_MAX ->
    let l := "LUT_3D_SIZE " ++ put_int c in
    ItxLines.size_tag l = Some c
    /\ BakedText.all_chars BakedText.not_newline l = true
    /\ (ParseUtils.chomp_cr l = l /\ pystring.strip l = l /\ l <> "").
Proof.
  intros c B l. destruct (put_int_word c ltac:(lia)) as [W LW].
  destruct (join_line "LUT_3D_SIZE" [put_int c]
              ltac:(repeat constructor; assumption))
    as (NL & CH & ST & NE & SP & SW).
  change (String.concat " " ["LUT_3D_SIZE"; put_int c]) with l in *.
  repeat split; try assumption.
  unfold ItxLines.size_tag, ItxLines.tokens. rewrite SW, SP. cbn [map].
  rewrite LW. change (pystring.startswith "LUT_3D_SIZE" "#") with false.
  change (pystring.lower "LUT_3D_SIZE") with "lut_3d_size".
  change (pystring.lower "lut_3d_size") with "lut_3d_size".
  change ("lut_3d_size" =? "lut_3d_size")%string with true.
  cbv iota. now apply StringToInt_put_int.
Qed.

(** ** Round trip: [read] on what [bake] wrote *)

Lemma itx_bake_cubeData_bound :
  forall baker cubeSize cubeData,
    IridasItx.bake_cubeData baker cubeSize = Ok cubeData ->
    INT_MIN <= cubeSize * cubeSize * cubeSize * 3 <= INT_MAX.
Proof.
  intros baker c d. unfold IridasItx.bake_cubeData.
  destruct (int_mul c c) as [c2| |] eqn:M2; cbn [bind]; try discriminate.
  destruct (int_mul c2 c) as [c3| |] eqn:M3; cbn [bind]; try discriminate.
  destruct (int_mul c3 3) as [n| |] eqn:M; cbn [bind]; try discriminate.
  apply int_mul_inv in M2, M3, M.
  destruct M2 as [-> _], M3 as [-> _], M as [-> M]. intros _. exact M.
Qed.

Lemma itx_bake_text :
  forall baker cubeData,
    IridasItx.bake_cubeData baker (IridasItx.bake_cubeSize baker) = Ok cubeData ->
    let c := IridasItx.bake_cubeSize baker in
    IridasItx.bake baker "iridas_itx" ""
    = (("LUT_3D_SIZE " ++ put_int c)
       ++ String newline (ItxOutput.put_rows (BakedText.chunks cubeData)
                          ++ String newline ""),
       Ok tt)
    /\ 2 <= c
    /\ 3 * (c * c * c) <= INT_MAX
    /\ length cubeData = (3 * Z.to_nat (c * c * c))%nat.
Proof.
  intros baker d D c.
  destruct (edge_size_bake baker) as [S2 G2]. rewrite <- S2 in G2. fold c in G2.
  pose proof (itx_bake_cubeData_length _ _ _ D) as L.
  pose proof (itx_bake_cubeData_bound _ _ _ D) as B. fold c in L, B.
  assert (P : 0 <= c * c * c) by nia.
  assert (LN : length d = (3 * Z.to_nat (c * c * c))%nat) by lia.
  split; [|repeat split; lia].
  unfold IridasItx.bake.
  change (negb ("iridas_itx" =? "iridas_itx")%string) with false.
  cbv iota zeta. rewrite D. fold c.
  rewrite (proj2 (Z.ltb_ge c 2) G2).
  rewrite itx_bake_rows by lia.
  change (Z.to_nat 0) with 0%nat. rewrite (pixels_chunks _ _ LN).
  f_equal. now rewrite !string_app_assoc.
Qed.

Lemma filter_all :
  forall (A : Type) (p : A -> bool) (l : list A),
    Forall (fun x => p x = true) l -> filter p l = l.
Proof.
  induction 1 as [|x l P F IH]; [reflexivity|]. cbn [filter]. now rewrite P, IH.
Qed.

Lemma is_triple_not_skipped :
  forall l, ItxLines.is_triple l = true -> ItxLines.is_skipped l = false.
Proof.
  intros l. unfold ItxLines.is_triple, ItxLines.triple, ItxLines.is_skipped.
  destruct (pystring.startswith l "#"); [discriminate|].
  destruct (ItxLines.tokens l); [discriminate|reflexivity].
Qed.

Lemma size_tag_not_skipped :
  forall l s, ItxLines.size_tag l = Some s -> ItxLines.is_skipped l = false.
Proof.
  intros l s. unfold ItxLines.size_tag, ItxLines.is_skipped.
  destruct (pystring.startswith l "#"); [discriminate|].
  destruct (ItxLines.tokens l); [discriminate|reflexivity].
Qed.

(** X13: round trip.  When [bake] has sent the cube through the processor
    and every value of the result is written as a field from which the reader
    gets a number, [bake] returns normally and [read] on the text that it
    wrote succeeds: it gives the LUT3D of the baked edge size whose array
    holds the numbers read back, in the order of the cube. *)
Theorem itx_bake_then_read :
  forall baker cubeData values fileName,
    IridasItx.bake_cubeData baker (IridasItx.bake_cubeSize baker) = Ok cubeData ->
    Forall2 BakedText.reads_back cubeData values ->
    snd (IridasItx.bake baker "iridas_itx" "") = Ok tt
    /\ IridasItx.read (istringstream (fst (IridasItx.bake baker "iridas_itx" "")))
                      fileName
       = Ok {| lut3D :=
                 Some {| lut3d_gridSize := Z.to_N (IridasItx.bake_cubeSize baker);
                         lut3d_array := values;
                         lut3d_interpolation := INTERP_DEFAULT;
                         lut3d_fileOutputBitDepth := BIT_DEPTH_F32 |} |}.
Proof.
  intros baker d values f D F.
  destruct (itx_bake_text baker d D) as (T & G2 & B & LN).
  set (c := IridasItx.bake_cubeSize baker) in *.
  rewrite T. cbn [fst snd]. split; [reflexivity|].
  destruct (rows_read_back _ d values LN F) as (TR & V & NL & LS & LR).
  set (rows := map BakedText.row_line (BakedText.chunks d)) in *.
  assert (P : 8 <= c * c * c) by nia.
  assert (CB : 0 < c <= INT_MAX) by nia.
  destruct (header_reads c CB) as (ST & NL0 & LS0).
  set (hdr := "LUT_3D_SIZE " ++ put_int c) in *.
  set (strm := istringstream _).
  assert (IS : strm = (hdr :: rows ++ [""; ""])%list).
  { unfold strm. rewrite (istringstream_line _ _ NL0).
    now rewrite istringstream_rows by exact NL. }
  assert (NX : ParseUtils.nextlines strm = hdr :: rows).
  { rewrite IS. change (hdr :: rows ++ [""; ""])%list
      with ((hdr :: rows) ++ [""; ""])%list.
    apply nextlines_lines. now constructor. }
  assert (K : ItxMore.size_ok c) by (split; nia).
  assert (FL : filter (fun l => negb (ItxLines.is_skipped l)) (hdr :: rows)
               = hdr :: rows).
  { apply filter_all. constructor.
    - now rewrite (size_tag_not_skipped _ _ ST).
    - revert TR. apply Forall_impl. intros l TL.
      now rewrite (is_triple_not_skipped _ TL). }
  assert (LB : 0 + Z.of_nat (length (hdr :: rows)) <= INT_MAX)
    by (cbn [length]; lia).
  pose proof (itx_read_lines_cube f (hdr :: rows) 0
                {| IridasItx.raw := []; IridasItx.size3d := 0;
                   IridasItx.in3d := false |}
                hdr rows c (Z.le_refl 0) LB FL ST K TR) as R.
  cbn [IridasItx.raw app] in R. rewrite <- NX in R.
  rewrite (itx_read_counted strm f _ c (length rows) ltac:(now rewrite IS) R K
             (itx_triple_values_length rows TR) ltac:(lia)).
  rewrite (proj2 (Z.eqb_eq _ _)) by lia. now rewrite V.
Qed.

(** ** The .spi1d reader: lines the header passes over, and its errors *)

Lemma spi1d_read_header_round :
  forall fileName seg rest n h,
    good rest = true ->
    (String.length seg <= 4095)%nat ->
    0 <= n < INT_MAX ->
    Spi1D.read_header fileName (seg :: rest) n h
    = (h' <- Spi1D.header_line fileName (c_str seg) (n + 1) h ;;
       if negb (pystring.startswith (c_str seg) "{")
       then Spi1D.read_header fileName rest (n + 1) h'
       else Ok (h', n + 1, rest)).
Proof.
  intros f seg rest n h G L B.
  cbn [Spi1D.read_header]. unfold getline. rewrite G.
  change (Spi1D.MAX_LINE_SIZE - 1)%nat with 4095%nat.
  rewrite (proj2 (Nat.leb_le _ _) L). cbn [andb].
  rewrite int_incr_ok by exact B. cbn [bind]. rewrite G. reflexivity.
Qed.

Lemma spi1d_is_plain_inv :
  forall seg, Spi1DMore.is_plain seg = true ->
    (String.length seg <= 4095)%nat
    /\ pystring.startswith (c_str seg) "{" = false
    /\ forall fileName n h,
         Spi1D.header_line fileName (c_str seg) n h = Ok h.
Proof.
  intros seg P. unfold Spi1DMore.is_plain in P.
  apply andb_prop in P. destruct P as [P P6].
  apply andb_prop in P. destruct P as [P P5].
  apply andb_prop in P. destruct P as [P P4].
  apply andb_prop in P. destruct P as [P P3].
  apply andb_prop in P. destruct P as [P1 P2].
  apply Nat.leb_le in P1. apply negb_true_iff in P2, P3, P4, P5, P6.
  split; [exact P1|]. split; [exact P6|].
  intros f n h. unfold Spi1D.header_line. now rewrite P2, P3, P4, P5.
Qed.

Lemma spi1d_read_header_skip :
  forall fileName pre rest n h,
    Forall (fun seg => Spi1DMore.is_plain seg = true) pre ->
    good rest = true ->
    0 <= n -> n + Z.of_nat (length pre) < INT_MAX ->
    Spi1D.read_header fileName (pre ++ rest)%list n h
    = Spi1D.read_header fileName rest (n + Z.of_nat (length pre)) h.
Proof.
  intros f pre rest. induction pre as [|seg pre IH]; intros n h P G N0 B.
  - cbn [app length]. change (Z.of_nat 0) with 0. now rewrite Z.add_0_r.
  - inversion P as [|x xs P1 P2]; subst.
    destruct (spi1d_is_plain_inv seg P1) as (L & NB & HL).
    cbn [length] in B. rewrite Nat2Z.inj_succ in B.
    change ((seg :: pre) ++ rest)%list with (seg :: (pre ++ rest))%list.
    rewrite spi1d_read_header_round; [|apply good_app; exact G|exact L|lia].
    rewrite HL, NB. cbn [bind negb].
    rewrite (IH (n + 1) h P2 G) by lia.
    cbn [length]. rewrite Nat2Z.inj_succ. f_equal. lia.
Qed.

Lemma spi1d_header_line_shift :
  forall fileName line n m h h',
    Spi1D.header_line fileName line n h = Ok h' ->
    Spi1D.header_line fileName line m h = Ok h'.
Proof.
  intros f line n m h h'. unfold Spi1D.header_line.
  destruct (pystring.startswith line "Version").
  { destruct (Scan.sscanf_d "Version" line) as [[v|]| |]; cbn [bind];
      try discriminate.
    destruct (negb (v =? 1)); [discriminate|]. exact (fun E => E). }
  destruct (pystring.startswith line "From").
  { destruct (Spi1D.sscanf_f_f "From" line) as [[a b]|]; [|discriminate].
    exact (fun E => E). }
  destruct (pystring.startswith line "Components").
  { destruct (Scan.sscanf_d "Components" line) as [[v|]| |]; cbn [bind];
      try discriminate.
    exact (fun E => E). }
  destruct (pystring.startswith line "Length").
  { destruct (Scan.sscanf_d "Length" line) as [[v|]| |]; cbn [bind];
      try discriminate.
    exact (fun E => E). }
  exact (fun E => E).
Qed.

(** The header loop counts the lines it takes. *)
Lemma spi1d_read_header_count :
  forall fileName strm n h h' n' strm',
    Spi1D.read_header fileName strm n h = Ok (h', n', strm') ->
    n' + Z.of_nat (length strm') <= n + Z.of_nat (length strm) + 1.
Proof.
  intros f strm. induction strm as [|seg rest IH]; intros n h h' n' s'.
  - cbn [Spi1D.read_header getline].
    destruct (int_incr n) as [m| |] eqn:Inc; cbn [bind]; try discriminate.
    apply int_incr_inv in Inc. destruct Inc as [-> Inc].
    destruct (Spi1D.header_line f _ (n + 1) h) as [h1| |]; cbn [bind];
      try discriminate.
    intros E; inversion E; subst. cbn [length]. lia.
  - cbn [Spi1D.read_header].
    destruct (getline Spi1D.MAX_LINE_SIZE (seg :: rest)) as [buffer s1] eqn:GL.
    destruct (int_incr n) as [m| |] eqn:Inc; cbn [bind]; try discriminate.
    apply int_incr_inv in Inc. destruct Inc as [-> Inc].
    destruct (Spi1D.header_line f _ (n + 1) h) as [h1| |]; cbn [bind];
      try discriminate.
    destruct (good s1 && negb (pystring.startswith (c_str buffer) "{")).
    + intros R. specialize (IH _ _ _ _ _ R). cbn [length]. lia.
    + intros E; inversion E; subst.
      unfold getline in GL.
      destruct (good rest && (String.length seg <=? Spi1D.MAX_LINE_SIZE - 1)%nat);
        inversion GL; subst; cbn [length]; lia.
Qed.

(** The header loop started at a later line number. *)
Lemma spi1d_read_header_shift :
  forall fileName strm n h h' n' strm' k,
    Spi1D.read_header fileName strm n h = Ok (h', n', strm') ->
    0 <= n -> 0 <= k -> n' + k <= INT_MAX ->
    Spi1D.read_header fileName strm (n + k) h = Ok (h', n' + k, strm').
Proof.
  intros f strm. induction strm as [|seg rest IH]; intros n h h' n' s' k.
  - cbn [Spi1D.read_header getline].
    destruct (int_incr n) as [m| |] eqn:Inc; cbn [bind]; try discriminate.
    apply int_incr_inv in Inc. destruct Inc as [-> Inc].
    destruct (Spi1D.header_line f _ (n + 1) h) as [h1| |] eqn:HL; cbn [bind];
      try discriminate.
    intros E N0 K B; inversion E; subst.
    rewrite int_incr_ok by lia. cbn [bind].
    rewrite (spi1d_header_line_shift f _ _ (n + k + 1) _ _ HL). cbn [bind].
    do 3 f_equal. lia.
  - cbn [Spi1D.read_header].
    destruct (getline Spi1D.MAX_LINE_SIZE (seg :: rest)) as [buffer s1].
    destruct (int_incr n) as [m| |] eqn:Inc; cbn [bind]; try discriminate.
    apply int_incr_inv in Inc. destruct Inc as [-> Inc].
    destruct (Spi1D.header_line f _ (n + 1) h) as [h1| |] eqn:HL; cbn [bind];
      try discriminate.
    destruct (good s1 && negb (pystring.startswith (c_str buffer) "{")).
    + intros R N0 K B.
      destruct (spi1d_read_header_post _ _ _ _ _ _ _ R) as [Lt _].
      rewrite int_incr_ok by lia. cbn [bind].
      rewrite (spi1d_header_line_shift f _ _ (n + k + 1) _ _ HL). cbn [bind].
      replace (n + k + 1) with (n + 1 + k) by lia.
      apply IH; [exact R|lia|exact K|exact B].
    + intros E N0 K B; inversion E; subst.
      rewrite int_incr_ok by lia. cbn [bind].
      rewrite (spi1d_header_line_shift f _ _ (n + k + 1) _ _ HL). cbn [bind].
      do 3 f_equal. lia.
Qed.

Lemma spi1d_body_line_shift :
  forall fileName line lineBuffer components n m st st',
    Spi1D.body_line fileName line lineBuffer components n st = Ok st' ->
    Spi1D.body_line fileName line lineBuffer components m st = Ok st'.
Proof.
  intros f line lb c n m st st'. unfold Spi1D.body_line.
  destruct (String.length line =? 0)%nat; [exact (fun E => E)|].
  destruct (ParseUtils.StringVecToFloatVec _) as [values|]; cbn [bind];
    [|discriminate].
  destruct (negb (c =? static_cast_int (Z.of_nat (length values)))); cbn [bind];
    [discriminate|exact (fun E => E)].
Qed.

(** The body loop started at a later line number. *)
Lemma spi1d_read_body_shift :
  forall fileName components strm n st st' k,
    Spi1D.read_body fileName components strm n st = Ok st' ->
    0 <= n -> 0 <= k -> n + k + Z.of_nat (length strm) < INT_MAX ->
    Spi1D.read_body fileName components strm (n + k) st = Ok st'.
Proof.
  intros f c strm. induction strm as [|seg rest IH]; intros n st st' k.
  - cbn [Spi1D.read_body getline length].
    destruct (int_incr n) as [m| |] eqn:Inc; cbn [bind]; try discriminate.
    intros E N0 K B. rewrite int_incr_ok by lia. exact E.
  - cbn [Spi1D.read_body length].
    destruct (getline Spi1D.MAX_LINE_SIZE (seg :: rest)) as [buffer s1].
    destruct (int_incr n) as [m| |] eqn:Inc; cbn [bind]; try discriminate.
    apply int_incr_inv in Inc. destruct Inc as [-> Inc].
    intros E N0 K B. rewrite int_incr_ok by lia. cbn [bind].
    destruct (good s1); [|exact E].
    destruct (String.eqb _ "}"); [exact E|].
    destruct (Spi1D.body_line f _ _ c (n + 1) st) as [st1| |] eqn:BL;
      cbn [bind] in E; try discriminate.
    rewrite (spi1d_body_line_shift f _ _ c _ (n + k + 1) _ _ BL). cbn [bind].
    replace (n + k + 1) with (n + 1 + k) by lia.
    apply IH; [exact E|lia|exact K|lia].
Qed.

Lemma spi1d_header_error_line :
  forall fileName lineBuffer n h msg,
    Spi1DMore.header_error lineBuffer = Some msg ->
    Spi1D.header_line fileName lineBuffer n h
    = Spi1D.ThrowErrorMessage msg fileName n lineBuffer.
Proof.
  intros f lb n h msg. unfold Spi1DMore.header_error, Spi1D.header_line.
  destruct (pystring.startswith lb "Version").
  { destruct (Scan.sscanf_d "Version" lb) as [[v|]| |]; cbn [bind];
      try discriminate.
    - destruct (negb (v =? 1)); [|discriminate].
      intros E; inversion E; reflexivity.
    - intros E; inversion E; reflexivity. }
  destruct (pystring.startswith lb "From").
  { destruct (Spi1D.sscanf_f_f "From" lb) as [[a b]|]; [discriminate|].
    intros E; inversion E; reflexivity. }
  destruct (pystring.startswith lb "Components").
  { destruct (Scan.sscanf_d "Components" lb) as [[v|]| |]; cbn [bind];
      try discriminate.
    intros E; inversion E; reflexivity. }
  destruct (pystring.startswith lb "Length").
  { destruct (Scan.sscanf_d "Length" lb) as [[v|]| |]; cbn [bind];
      try discriminate.
    intros E; inversion E; reflexivity. }
  discriminate.
Qed.

(** X19: lines the header passes over.  Putting lines that start with none
    of the tags and not with the opening brace in front of an accepted
    .spi1d stream changes nothing: the stream is still accepted, with the
    same LUT and the same domain. *)
Theorem spi1d_read_ignores_plain_lines :
  forall pre strm fileName cachedFile,
    Forall (fun seg => Spi1DMore.is_plain seg = true) pre ->
    Z.of_nat (length pre + length strm) + 2 < INT_MAX ->
    Spi1D.read strm fileName = Ok cachedFile ->
    Spi1D.read (pre ++ strm)%list fileName = Ok cachedFile.
Proof.
  intros pre strm f cf P B R.
  destruct strm as [|seg rest].
  { exfalso. revert R. unfold Spi1D.read.
    change (Spi1D.read_header f [] 0 Spi1D.initial_header)
      with (Ok (Spi1D.initial_header, 1, @nil string)).
    cbn [bind]. rewrite spi1d_check_header_cases.
    change (Spi1D.version Spi1D.initial_header =? -1) with true.
    cbv iota. unfold Spi1D.ThrowErrorMessage. cbn [bind]. discriminate. }
  revert R. unfold Spi1D.read.
  rewrite (spi1d_read_header_skip f pre (seg :: rest) 0 Spi1D.initial_header
             P eq_refl (Z.le_refl 0)) by lia.
  destruct (Spi1D.read_header f (seg :: rest) 0 Spi1D.initial_header)
    as [[[h n] s]| |] eqn:RH; cbn [bind]; try discriminate.
  destruct (spi1d_read_header_post _ _ _ _ _ _ _ RH) as [N0 _].
  pose proof (spi1d_read_header_count _ _ _ _ _ _ _ RH) as Len.
  cbn [length] in B, Len.
  rewrite (spi1d_read_header_shift f _ 0 _ _ _ _ (Z.of_nat (length pre)) RH
             (Z.le_refl 0)) by lia.
  cbn [bind].
  destruct (Spi1D.check_header f h); cbn [bind]; try discriminate.
  destruct (Spi1D.read_body f (Spi1D.components h) s n _) as [st| |] eqn:RB;
    cbn [bind]; try discriminate.
  rewrite (spi1d_read_body_shift f _ s n _ _ (Z.of_nat (length pre)) RB) by lia.
  cbn [bind]. exact (fun E => E).
Qed.

(** X20: errors of the header.  After lines that the header passes over,
    a line that starts with a tag the loop cannot take - no number after
    [Version], [Components] or [Length], a version other than 1, no two
    numbers after [From] - is rejected with the message for that tag, the
    line and its number. *)
Theorem spi1d_read_header_error :
  forall pre bad rest fileName msg,
    Forall (fun seg => Spi1DMore.is_plain seg = true) pre ->
    (String.length bad <= 4095)%nat ->
    good rest = true ->
    Z.of_nat (length pre) + 1 < INT_MAX ->
    Spi1DMore.header_error (c_str bad) = Some msg ->
    Spi1D.read (pre ++ bad :: rest)%list fileName
    = Spi1D.ThrowErrorMessage msg fileName (Z.of_nat (length pre) + 1) (c_str bad).
Proof.
  intros pre bad rest f msg P L G B HE. unfold Spi1D.read.
  rewrite (spi1d_read_header_skip f pre (bad :: rest) 0 Spi1D.initial_header
             P eq_refl (Z.le_refl 0)) by lia.
  rewrite spi1d_read_header_round; [|exact G|exact L|lia].
  rewrite (spi1d_header_error_line f (c_str bad) _ _ msg HE).
  reflexivity.
Qed.

End MoreProperties.

(* ================================================================== *)
(** * More properties of FixedFunctionOp.cpp *)

Section FixedFunctionProperties.
Context `{Externals} `{!FixedFunctionMore.PayloadOps}.

(** X14: [BuildFixedFunctionOp] leaves [ops] as it was whenever it does not
    return normally (invalid data, or no inverse).  When it returns normally
    in a direction other than the inverse, the unknown direction included,
    it has appended one FixedFunctionOp with the payload of the transform,
    and that Op finalizes without error, to the cacheID of its style and
    parameters. *)
Theorem fixedfunction_build_op :
  forall ops transform dir ops' r,
    FixedFunctionMore.BuildFixedFunctionOp ops transform dir = (ops', r) ->
    let d := FixedFunctionMore.data transform in
    let built := {| fnData := d; m_cacheID := "" |} in
    (r <> Ok tt -> ops' = ops)
    /\ (r = Ok tt -> dir <> TRANSFORM_DIR_INVERSE ->
        ops' = (ops ++ [OfFixedFunctionOp built])%list
        /\ forall oFlags,
             FixedFunction.finalize built oFlags
             = Ok {| fnData :=
                       {| ff_style := ff_style d;
                          ff_params := ff_params d;
                          ff_cacheID :=
                            FixedFunction_fingerprint (ff_style d) (ff_params d) |};
                     m_cacheID :=
                       "<FixedFunctionOp "
                       ++ FixedFunction_fingerprint (ff_style d) (ff_params d)
                       ++ " >" |}).
Proof.
  intros ops t dir ops' r. cbv zeta.
  unfold FixedFunctionMore.BuildFixedFunctionOp,
    FixedFunctionMore.FixedFunctionOpData_validate,
    FixedFunctionMore.CreateFixedFunctionOp,
    FixedFunctionMore.FixedFunctionOpData_clone,
    FixedFunctionMore.FixedFunctionOp_new.
  destruct (FixedFunction_validate _ _) as [[]| |] eqn:V.
  - destruct dir.
    + intros E; inversion E; subst. split; [congruence|]. intros _ _.
      split; [reflexivity|]. intros oFlags.
      unfold FixedFunction.finalize, FixedFunctionOpData_finalize.
      cbn [fnData]. rewrite V. cbn [bind getCacheID ff_cacheID].
      now rewrite !string_app_assoc.
    + intros E; inversion E; subst. split; [congruence|]. intros _ _.
      split; [reflexivity|]. intros oFlags.
      unfold FixedFunction.finalize, FixedFunctionOpData_finalize.
      cbn [fnData]. rewrite V. cbn [bind getCacheID ff_cacheID].
      now rewrite !string_app_assoc.
    + destruct (FixedFunctionMore.FixedFunctionOpData_inverse _) as [d'| |];
        intros E; inversion E; subst;
        (split; [congruence || reflexivity|intros _ N; now contradiction N]).
  - intros E; inversion E; subst. split; [reflexivity|discriminate].
  - intros E; inversion E; subst. split; [reflexivity|discriminate].
Qed.

(** X15: round trip between Ops and transforms.  The transform that
    [CreateFixedFunctionTransform] appends for a FixedFunctionOp with valid
    data gives back, through [BuildFixedFunctionOp] in the forward direction,
    one Op with the same payload, which is the identity exactly when the
    first is and finalizes to the same result; for an Op of another kind
    [CreateFixedFunctionTransform] throws and leaves the group as it was. *)
Theorem fixedfunction_transform_round_trip :
  forall op group ops,
    FixedFunctionMore.FixedFunctionOpData_validate (fnData op) = Ok tt ->
    (exists t op',
       FixedFunctionMore.CreateFixedFunctionTransform group (OfFixedFunctionOp op)
       = ((group ++ [t])%list, Ok tt)
       /\ FixedFunctionMore.BuildFixedFunctionOp ops t TRANSFORM_DIR_FORWARD
          = ((ops ++ [OfFixedFunctionOp op'])%list, Ok tt)
       /\ fnData op' = fnData op
       /\ FixedFunctionMore.isIdentity op' = FixedFunctionMore.isIdentity op
       /\ (forall other,
             FixedFunctionMore.isInverse op' other
             = FixedFunctionMore.isInverse op other)
       /\ forall oFlags,
            FixedFunction.finalize op' oFlags = FixedFunction.finalize op oFlags)
    /\ forall other,
         FixedFunction.isSameType op other = false ->
         FixedFunctionMore.CreateFixedFunctionTransform group other
         = (group,
            Throw (Exception
              "CreateFixedFunctionTransform: op has to be a FixedFunctionOp")).
Proof.
  intros op group ops V. split.
  - exists {| FixedFunctionMore.data := fnData op |},
           {| fnData := fnData op; m_cacheID := "" |}.
    split; [reflexivity|]. split.
    + unfold FixedFunctionMore.BuildFixedFunctionOp.
      cbn [FixedFunctionMore.data]. rewrite V. reflexivity.
    + repeat split.
  - intros other S. destruct other; try reflexivity. discriminate S.
Qed.

End FixedFunctionProperties.

(* ================================================================== *)
(** * The properties at work, in single precision *)

(** C9, at a stream that declares one entry and lists two: the second entry
    is written at index 3 of an array of 3 values, before the entries are
    counted. *)
Theorem spi1d_read_writes_past_end :
  forall fileName,
    Z.of_nat (length (lut1d_array (Lut1DOpData_new (H := Binary32.externals) 1))) = 3 * 1
    /\ Spi1D.read (H := Binary32.externals)
                  (istringstream Scenario.overlong_text) fileName
       = Undefined (OutOfBoundsWrite 3 3).
Proof.
  intros fileName. split; [reflexivity|].
  apply (@spi1d_overlong_values Binary32.externals fileName
           (S754_zero false) (Binary32.of_Z 1)); reflexivity.
Qed.

Import Binary32.

Lemma fixedfunction_finalize_idempotent_witness :
  let self := {| fnData := {| ff_style := "ACES_RedMod03";
                              ff_params := [];
                              ff_cacheID := "" |};
                 m_cacheID := "" |} in
  let op1 := {| fnData := {| ff_style := "ACES_RedMod03";
                             ff_params := [];
                             ff_cacheID := "ACES_RedMod03" |};
                m_cacheID := "<FixedFunctionOp ACES_RedMod03 >" |} in
  FixedFunction.finalize self 0%N = Ok op1
  /\ (m_cacheID op1 = "<FixedFunctionOp " ++ getCacheID (fnData op1) ++ " >"
      /\ FixedFunction.finalize self 7%N = Ok op1
      /\ exists op2, FixedFunction.finalize op1 7%N = Ok op2
                     /\ m_cacheID op2 = m_cacheID op1).
Proof.
  cbv zeta. split; [reflexivity|].
  apply (fixedfunction_finalize_idempotent _ _ 0%N 7%N). reflexivity.
Defined.

Lemma spi1d_buildFileOps_chain_witness :
  let cachedFile := {| lut := Lut1DOpData_new 2;
                       from_min := float_zero;
                       from_max := float_one |} in
  let lut1d := Lut1D_setInterpolation (Lut1DOpData_new 2) INTERP_LINEAR in
  let min := (float_zero, float_zero, float_zero) in
  let max := (float_one, float_one, float_one) in
  (CombineTransformDirections TRANSFORM_DIR_FORWARD TRANSFORM_DIR_FORWARD
   = TRANSFORM_DIR_FORWARD
   /\ Spi1D.buildFileOps [] (CachedSpi1D cachedFile)
        {| getDirection := TRANSFORM_DIR_FORWARD; getInterpolation := INTERP_LINEAR |}
        TRANSFORM_DIR_FORWARD
      = ([MinMaxOp min max TRANSFORM_DIR_FORWARD; Lut1DOp lut1d TRANSFORM_DIR_FORWARD],
         Ok tt))
  /\
  (CombineTransformDirections TRANSFORM_DIR_INVERSE TRANSFORM_DIR_FORWARD
   = TRANSFORM_DIR_INVERSE
   /\ Spi1D.buildFileOps [] (CachedSpi1D cachedFile)
        {| getDirection := TRANSFORM_DIR_FORWARD; getInterpolation := INTERP_LINEAR |}
        TRANSFORM_DIR_INVERSE
      = ([Lut1DOp lut1d TRANSFORM_DIR_INVERSE; MinMaxOp min max TRANSFORM_DIR_INVERSE],
         Ok tt)).
Proof.
  cbv zeta. split; (split; [reflexivity|]).
  - exact (proj1 (spi1d_buildFileOps_chain []
             {| lut := Lut1DOpData_new 2; from_min := float_zero; from_max := float_one |}
             {| getDirection := TRANSFORM_DIR_FORWARD; getInterpolation := INTERP_LINEAR |}
             TRANSFORM_DIR_FORWARD) eq_refl).
  - exact (proj2 (spi1d_buildFileOps_chain []
             {| lut := Lut1DOpData_new 2; from_min := float_zero; from_max := float_one |}
             {| getDirection := TRANSFORM_DIR_FORWARD; getInterpolation := INTERP_LINEAR |}
             TRANSFORM_DIR_INVERSE) eq_refl).
Defined.


Lemma itx_read_eight_triples_witness :
  let strm := istringstream Scenario.A_text in
  let hdr := "LUT_3D_SIZE 2" in
  let body := ["0.0 0.0 0.0"; "1.0 0.0 0.0"; "0.0 1.0 0.0"; "1.0 1.0 0.0";
               "0.0 0.0 1.0"; "1.0 0.0 1.0"; "0.0 1.0 1.0"; "1.0 1.0 1.0"] in
  let o := float_zero in
  let l := float_one in
  (good strm = true
   /\ Z.of_nat (length (ParseUtils.nextlines strm)) <= INT_MAX
   /\ ItxLines.data_lines strm = hdr :: body
   /\ ItxLines.size_tag hdr = Some 2
   /\ Forall (fun l => ItxLines.is_triple l = true) body
   /\ length body = 8%nat)
  /\ IridasItx.read strm "lut.itx"
     = Ok {| lut3D :=
               Some {| lut3d_gridSize := 2;
                       lut3d_array := [o; o; o;  l; o; o;  o; l; o;  l; l; o;
                                       o; o; l;  l; o; l;  o; l; l;  l; l; l];
                       lut3d_interpolation := INTERP_DEFAULT;
                       lut3d_fileOutputBitDepth := BIT_DEPTH_F32 |} |}.
Proof.
  cbv zeta.
  assert (T : Forall (fun l => ItxLines.is_triple l = true)
                ["0.0 0.0 0.0"; "1.0 0.0 0.0"; "0.0 1.0 0.0"; "1.0 1.0 0.0";
                 "0.0 0.0 1.0"; "1.0 0.0 1.0"; "0.0 1.0 1.0"; "1.0 1.0 1.0"])
    by (repeat constructor).
  assert (B : Z.of_nat (length (ParseUtils.nextlines (istringstream Scenario.A_text)))
              <= INT_MAX) by (vm_compute; discriminate).
  split; [repeat split; try reflexivity; assumption|].
  exact (proj1 (itx_read_eight_triples (istringstream Scenario.A_text) "lut.itx"
                  "LUT_3D_SIZE 2" _ eq_refl B eq_refl eq_refl T eq_refl)).
Defined.

Lemma spi1d_scenario_C_witness :
  let strm := istringstream Scenario.C_text in
  let cachedFile :=
    {| lut := {| lut1d_dimension := 2;
                 lut1d_array := [float_zero; float_zero; float_zero;
                                 float_one; float_one; float_one];
                 lut1d_interpolation := INTERP_DEFAULT;
                 lut1d_fileOutputBitDepth := BIT_DEPTH_F32 |};
       from_min := float_zero;
       from_max := float_one |} in
  (StringToFloat "0.0" = Some float_zero
   /\ StringToFloat "1.0" = Some float_one
   /\ Spi1D.read strm "lut.spi1d" = Ok cachedFile)
  /\
  (Forall (fun l => pystring.startswith l "From" = false) (Spi1DLines.header_lines strm)
   /\ Spi1D.read strm "lut.spi1d" = Ok cachedFile
   /\ from_min cachedFile = float_zero /\ from_max cachedFile = float_one).
Proof.
  cbv zeta.
  assert (R : Spi1D.read (istringstream Scenario.C_text) "lut.spi1d" = Ok _)
    by exact (proj1 spi1d_scenario_C eq_refl eq_refl "lut.spi1d").
  assert (F : Forall (fun l => pystring.startswith l "From" = false)
                     (Spi1DLines.header_lines (istringstream Scenario.C_text)))
    by (repeat constructor).
  split; [repeat split; try reflexivity; exact R|].
  split; [exact F|]. split; [exact R|].
  exact (proj2 spi1d_scenario_C _ _ _ F R).
Defined.



Lemma itx_bake_output_witness :
  let nl := Scenario.nl in
  (IridasItx.getCubeSize (BakeScenario.baker (-1)) = -1
   /\ ItxOutput.edge_size (IridasItx.getCubeSize (BakeScenario.baker (-1))) = 64)
  /\
  (exists cubeData,
     IridasItx.bake_cubeData (BakeScenario.baker 2) 2 = Ok cubeData
     /\ IridasItx.bake (BakeScenario.baker 2) "iridas_itx" ""
        = ("LUT_3D_SIZE 2" ++ nl
           ++ "0.000000 0.000000 0.000000" ++ nl
           ++ "1.000000 0.000000 0.000000" ++ nl
           ++ "0.000000 1.000000 0.000000" ++ nl
           ++ "1.000000 1.000000 0.000000" ++ nl
           ++ "0.000000 0.000000 1.000000" ++ nl
           ++ "1.000000 0.000000 1.000000" ++ nl
           ++ "0.000000 1.000000 1.000000" ++ nl
           ++ "1.000000 1.000000 1.000000" ++ nl
           ++ nl,
           Ok tt))
  /\
  (let baker := BakeScenario.baker_of BakeScenario.empty_config 1 in
   let e := Exception "Color space 'lnf' could not be found." in
   IridasItx.bake_cubeData baker 2 = Throw e
   /\ IridasItx.bake baker "iridas_itx" "" = ("", Throw e))
  /\
  (IridasItx.bake_cubeData (BakeScenario.baker 2000) 2000 = Undefined SignedOverflow
   /\ IridasItx.bake (BakeScenario.baker 2000) "iridas_itx" ""
      = ("", Undefined SignedOverflow)).
Proof.
  cbv zeta. split; [|split; [|split]].
  - split; [reflexivity|].
    exact (proj1 (itx_bake_output (BakeScenario.baker (-1)) "") eq_refl).
  - eexists. split; [reflexivity|].
    exact (proj1 (proj1 (proj2 (proj2 (itx_bake_output (BakeScenario.baker 2) "")))
                        _ eq_refl)).
  - split; [reflexivity|].
    exact (proj1 (proj2 (proj2 (proj2
             (itx_bake_output (BakeScenario.baker_of BakeScenario.empty_config 1) ""))))
             _ eq_refl).
  - split; [reflexivity|].
    exact (proj2 (proj2 (proj2 (proj2 (itx_bake_output (BakeScenario.baker 2000) ""))))
             _ eq_refl).
Defined.


(** ** The properties above at concrete streams *)

Lemma itx_read_cube_witness :
  let strm := istringstream MoreScenario.one_text in
  let hdr := "LUT_3D_SIZE 1" in
  let body := ["1.0 0.0 1.0"] in
  (good strm = true
   /\ Z.of_nat (length (ParseUtils.nextlines strm)) <= INT_MAX
   /\ ItxLines.data_lines strm = hdr :: body
   /\ ItxLines.size_tag hdr = Some 1
   /\ ItxMore.size_ok 1
   /\ Forall (fun l => ItxLines.is_triple l = true) body)
  /\ IridasItx.read strm "one.itx"
     = Ok {| lut3D :=
               Some {| lut3d_gridSize := 1;
                       lut3d_array := [float_one; float_zero; float_one];
                       lut3d_interpolation := INTERP_DEFAULT;
                       lut3d_fileOutputBitDepth := BIT_DEPTH_F32 |} |}.
Proof.
  cbv zeta.
  assert (T : Forall (fun l => ItxLines.is_triple l = true) ["1.0 0.0 1.0"])
    by (repeat constructor).
  assert (B : Z.of_nat (length (ParseUtils.nextlines
                                  (istringstream MoreScenario.one_text)))
              <= INT_MAX) by (vm_compute; discriminate).
  assert (S : ItxMore.size_ok 1) by (split; [lia|vm_compute; discriminate]).
  split; [repeat split; try reflexivity; try assumption; apply S|].
  exact (itx_read_cube (istringstream MoreScenario.one_text) "one.itx"
           "LUT_3D_SIZE 1" ["1.0 0.0 1.0"] 1 eq_refl B eq_refl eq_refl S T).
Defined.




Lemma itx_read_negative_size_witness :
  let strm := istringstream MoreScenario.negative_text in
  let pre := ["# inside out"] in
  let tag := "LUT_3D_SIZE -1" in
  let post := ["0.0 0.0 0.0"] in
  (good strm = true
   /\ ParseUtils.nextlines strm = (pre ++ tag :: post)%list
   /\ Z.of_nat (length pre) < INT_MAX
   /\ Forall (fun l => ItxMore.is_tag l = false) pre
   /\ ItxLines.size_tag tag = Some (-1)
   /\ -894 <= -1 < 0)
  /\ IridasItx.read strm "lut.itx" = Throw std_length_error.
Proof.
  cbv zeta.
  assert (T : Forall (fun l => ItxMore.is_tag l = false) ["# inside out"])
    by (repeat constructor).
  assert (B : Z.of_nat (length ["# inside out"]) < INT_MAX) by reflexivity.
  assert (R : -894 <= -1 < 0) by lia.
  split; [repeat split; try reflexivity; try assumption; apply R|].
  exact (itx_read_negative_size (istringstream MoreScenario.negative_text)
           "lut.itx" ["# inside out"] "LUT_3D_SIZE -1" ["0.0 0.0 0.0"] (-1)
           eq_refl eq_refl B T eq_refl R).
Defined.

Lemma itx_read_then_build_witness :
  let o := float_zero in
  let l := float_one in
  let lut :=
    {| lut3d_gridSize := 2;
       lut3d_array := [o; o; o;  l; o; o;  o; l; o;  l; l; o;
                       o; o; l;  l; o; l;  o; l; l;  l; l; l];
       lut3d_interpolation := INTERP_DEFAULT;
       lut3d_fileOutputBitDepth := BIT_DEPTH_F32 |} in
  let fileTransform := {| getDirection := TRANSFORM_DIR_INVERSE;
                          getInterpolation := INTERP_TETRAHEDRAL |} in
  IridasItx.read (istringstream Scenario.A_text) "lut.itx" = Ok {| lut3D := Some lut |}
  /\ exists l',
       Some lut = Some l'
       /\ IridasItx.buildFileOps [] (CachedItx {| lut3D := Some lut |})
            fileTransform TRANSFORM_DIR_FORWARD
          = ([Lut3DOp (Lut3D_setInterpolation l' INTERP_TETRAHEDRAL)
                      TRANSFORM_DIR_INVERSE], Ok tt).
Proof.
  cbv zeta.
  assert (R : IridasItx.read (istringstream Scenario.A_text) "lut.itx"
              = Ok {| lut3D :=
                        Some {| lut3d_gridSize := 2;
                                lut3d_array :=
                                  [float_zero; float_zero; float_zero;
                                   float_one; float_zero; float_zero;
                                   float_zero; float_one; float_zero;
                                   float_one; float_one; float_zero;
                                   float_zero; float_zero; float_one;
                                   float_one; float_zero; float_one;
                                   float_zero; float_one; float_one;
                                   float_one; float_one; float_one];
                                lut3d_interpolation := INTERP_DEFAULT;
                                lut3d_fileOutputBitDepth := BIT_DEPTH_F32 |} |})
    by reflexivity.
  split; [exact R|].
  exact (itx_read_then_build (istringstream Scenario.A_text) "lut.itx" _ []
           {| getDirection := TRANSFORM_DIR_INVERSE;
              getInterpolation := INTERP_TETRAHEDRAL |}
           TRANSFORM_DIR_FORWARD R).
Defined.

Lemma spi1d_read_shape_witness :
  let o := float_zero in
  let l := float_one in
  let cachedFile :=
    {| lut := {| lut1d_dimension := 2;
                 lut1d_array := [o; l; o;  l; o; o];
                 lut1d_interpolation := INTERP_DEFAULT;
                 lut1d_fileOutputBitDepth := BIT_DEPTH_F32 |};
       from_min := o;
       from_max := l |} in
  Spi1D.read (istringstream MoreScenario.two_text) "lut.spi1d" = Ok cachedFile
  /\ (N.of_nat (length (lut1d_array (lut cachedFile)))
      = (3 * lut1d_dimension (lut cachedFile))%N
      /\ Z.of_N (lut1d_dimension (lut cachedFile)) <= INT_MAX
      /\ lut1d_fileOutputBitDepth (lut cachedFile) = BIT_DEPTH_F32).
Proof.
  cbv zeta. split; [reflexivity|].
  exact (spi1d_read_shape (istringstream MoreScenario.two_text) "lut.spi1d" _
           eq_refl).
Defined.

Lemma spi1d_read_entries_witness :
  let o := float_zero in
  let l := float_one in
  let strm := istringstream MoreScenario.two_text in
  let h := {| Spi1D.lut_size := 2; Spi1D.h_from_min := o; Spi1D.h_from_max := l;
              Spi1D.version := 1; Spi1D.components := 2 |} in
  let segs := ["0.0 1.0"; ""; "1.0 0.0"] in
  let entries := [[o; l; o]; []; [l; o; o]] in
  (Spi1D.read_header "lut.spi1d" strm 0 Spi1D.initial_header
   = Ok (h, 5, (segs ++ "}" :: [""])%list)
   /\ Spi1D.version h = 1
   /\ 0 <= Spi1D.components h <= 3
   /\ 0 <= Spi1D.lut_size h
   /\ 5 + Z.of_nat (length segs) < INT_MAX
   /\ Forall2 (fun seg e => Spi1DMore.body_entry (Spi1D.components h) seg = Some e)
              segs entries
   /\ Spi1DMore.closes "}" [""] = true
   /\ Z.of_nat (Spi1DMore.entries_count entries) <= Spi1D.lut_size h)
  /\ Spi1D.read strm "lut.spi1d"
     = Ok {| lut := {| lut1d_dimension := 2;
                       lut1d_array := [o; l; o;  l; o; o];
                       lut1d_interpolation := INTERP_DEFAULT;
                       lut1d_fileOutputBitDepth := BIT_DEPTH_F32 |};
             from_min := o;
             from_max := l |}.
Proof.
  cbv zeta.
  assert (F : Forall2 (fun seg e => Spi1DMore.body_entry 2 seg = Some e)
                ["0.0 1.0"; ""; "1.0 0.0"]
                [[float_zero; float_one; float_zero]; [];
                 [float_one; float_zero; float_zero]])
    by (repeat constructor).
  assert (C : 0 <= 2 <= 3) by lia.
  assert (L : 0 <= 2) by lia.
  assert (N : 5 + Z.of_nat (length ["0.0 1.0"; ""; "1.0 0.0"]) < INT_MAX)
    by reflexivity.
  assert (K : Z.of_nat 2 <= 2) by (cbn; lia).
  split; [repeat split; try reflexivity; try assumption; try apply C; exact K|].
  exact (spi1d_read_entries (istringstream MoreScenario.two_text) "lut.spi1d"
           {| Spi1D.lut_size := 2; Spi1D.h_from_min := float_zero;
              Spi1D.h_from_max := float_one;
              Spi1D.version := 1; Spi1D.components := 2 |}
           5 ["0.0 1.0"; ""; "1.0 0.0"]
           [[float_zero; float_one; float_zero]; [];
            [float_one; float_zero; float_zero]]
           "}" [""] eq_refl eq_refl C L N F eq_refl K).
Defined.

Lemma spi1d_read_too_many_entries_witness :
  let o := float_zero in
  let l := float_one in
  let strm := istringstream MoreScenario.many_text in
  let h := {| Spi1D.lut_size := 1; Spi1D.h_from_min := o; Spi1D.h_from_max := l;
              Spi1D.version := 1; Spi1D.components := 3 |} in
  let segs := ["0.0 0.0 0.0"] in
  let entries := [[o; o; o]] in
  (Spi1D.read_header "lut.spi1d" strm 0 Spi1D.initial_header
   = Ok (h, 4, (segs ++ "1.0 1.0 1.0" :: ["}"; ""])%list)
   /\ Spi1D.version h = 1
   /\ 0 <= Spi1D.components h <= 3
   /\ 4 + Z.of_nat (length segs) < INT_MAX
   /\ Forall2 (fun seg e => Spi1DMore.body_entry (Spi1D.components h) seg = Some e)
              segs entries
   /\ Z.of_nat (Spi1DMore.entries_count entries) = Spi1D.lut_size h
   /\ Spi1DMore.body_entry (Spi1D.components h) "1.0 1.0 1.0" = Some [l; l; l]
   /\ good ["}"; ""] = true)
  /\ Spi1D.read strm "lut.spi1d" = Undefined (OutOfBoundsWrite 3 3).
Proof.
  cbv zeta.
  assert (F : Forall2 (fun seg e => Spi1DMore.body_entry 3 seg = Some e)
                ["0.0 0.0 0.0"] [[float_zero; float_zero; float_zero]])
    by (repeat constructor).
  assert (C : 0 <= 3 <= 3) by lia.
  assert (N : 4 + Z.of_nat (length ["0.0 0.0 0.0"]) < INT_MAX) by reflexivity.
  split; [repeat split; try reflexivity; try assumption; apply C|].
  exact (spi1d_read_too_many_entries (istringstream MoreScenario.many_text)
           "lut.spi1d"
           {| Spi1D.lut_size := 1; Spi1D.h_from_min := float_zero;
              Spi1D.h_from_max := float_one;
              Spi1D.version := 1; Spi1D.components := 3 |}
           4 ["0.0 0.0 0.0"] [[float_zero; float_zero; float_zero]]
           "1.0 1.0 1.0" float_one float_one float_one ["}"; ""]
           eq_refl eq_refl C N F eq_refl eq_refl eq_refl).
Defined.

Lemma spi1d_read_malformed_line_witness :
  let o := float_zero in
  let l := float_one in
  let strm := istringstream MoreScenario.short_line_text in
  let h := {| Spi1D.lut_size := 2; Spi1D.h_from_min := o; Spi1D.h_from_max := l;
              Spi1D.version := 1; Spi1D.components := 3 |} in
  let segs := ["0.0 0.0 0.0"] in
  let entries := [[o; o; o]] in
  (Spi1D.read_header "lut.spi1d" strm 0 Spi1D.initial_header
   = Ok (h, 4, (segs ++ "1.0 1.0" :: ["}"; ""])%list)
   /\ Spi1D.version h = 1
   /\ 0 <= Spi1D.components h <= 3
   /\ 4 + Z.of_nat (length segs) < INT_MAX
   /\ Forall2 (fun seg e => Spi1DMore.body_entry (Spi1D.components h) seg = Some e)
              segs entries
   /\ Z.of_nat (Spi1DMore.entries_count entries) <= Spi1D.lut_size h
   /\ Spi1DMore.is_malformed (Spi1D.components h) "1.0 1.0" = true
   /\ good ["}"; ""] = true)
  /\ Spi1D.read strm "lut.spi1d"
     = Throw (Exception
         "Error parsing .spi1d file (lut.spi1d).  At line (6): '1.0 1.0'.  Malformed LUT line.").
Proof.
  cbv zeta.
  assert (F : Forall2 (fun seg e => Spi1DMore.body_entry 3 seg = Some e)
                ["0.0 0.0 0.0"] [[float_zero; float_zero; float_zero]])
    by (repeat constructor).
  assert (C : 0 <= 3 <= 3) by lia.
  assert (N : 4 + Z.of_nat (length ["0.0 0.0 0.0"]) < INT_MAX) by reflexivity.
  assert (K : Z.of_nat 1 <= 2) by (cbn; lia).
  split; [repeat split; try reflexivity; try assumption; try apply C; exact K|].
  exact (spi1d_read_malformed_line (istringstream MoreScenario.short_line_text)
           "lut.spi1d"
           {| Spi1D.lut_size := 2; Spi1D.h_from_min := float_zero;
              Spi1D.h_from_max := float_one;
              Spi1D.version := 1; Spi1D.components := 3 |}
           4 ["0.0 0.0 0.0"] [[float_zero; float_zero; float_zero]]
           "1.0 1.0" ["}"; ""]
           eq_refl eq_refl C N F K eq_refl eq_refl).
Defined.

Lemma spi1d_read_needs_tags_witness :
  let strm := istringstream Scenario.C_text in
  let cachedFile :=
    {| lut := {| lut1d_dimension := 2;
                 lut1d_array := [float_zero; float_zero; float_zero;
                                 float_one; float_one; float_one];
                 lut1d_interpolation := INTERP_DEFAULT;
                 lut1d_fileOutputBitDepth := BIT_DEPTH_F32 |};
       from_min := float_zero;
       from_max := float_one |} in
  Spi1D.read strm "lut.spi1d" = Ok cachedFile
  /\ (Exists (fun l => pystring.startswith l "Version" = true)
             (Spi1DLines.header_lines strm)
      /\ Exists (fun l => pystring.startswith l "Length" = true)
                (Spi1DLines.header_lines strm)
      /\ Exists (fun l => pystring.startswith l "Components" = true)
                (Spi1DLines.header_lines strm)
      /\ Forall (fun l => pystring.startswith l "Version" = true ->
                          Scan.sscanf_d "Version" l = Ok (Some 1))
                (Spi1DLines.header_lines strm)).
Proof.
  cbv zeta. split; [reflexivity|].
  exact (spi1d_read_needs_tags (istringstream Scenario.C_text) "lut.spi1d" _
           eq_refl).
Defined.

Lemma itx_bake_then_read_witness :
  let o := float_zero in
  let l := float_one in
  let cube := [o; o; o;  l; o; o;  o; l; o;  l; l; o;
               o; o; l;  l; o; l;  o; l; l;  l; l; l] in
  (IridasItx.bake_cubeData (BakeScenario.baker 2)
     (IridasItx.bake_cubeSize (BakeScenario.baker 2)) = Ok cube
   /\ Forall2 BakedText.reads_back cube cube)
  /\ (snd (IridasItx.bake (BakeScenario.baker 2) "iridas_itx" "") = Ok tt
      /\ IridasItx.read
           (istringstream
              (fst (IridasItx.bake (BakeScenario.baker 2) "iridas_itx" "")))
           "baked.itx"
         = Ok {| lut3D :=
                   Some {| lut3d_gridSize := 2;
                           lut3d_array := cube;
                           lut3d_interpolation := INTERP_DEFAULT;
                           lut3d_fileOutputBitDepth := BIT_DEPTH_F32 |} |}).
Proof.
  cbv zeta.
  assert (Z0 : BakedText.reads_back float_zero float_zero)
    by (split; reflexivity).
  assert (Z1 : BakedText.reads_back float_one float_one)
    by (split; reflexivity).
  assert (F : Forall2 BakedText.reads_back
                [float_zero; float_zero; float_zero;
                 float_one; float_zero; float_zero;
                 float_zero; float_one; float_zero;
                 float_one; float_one; float_zero;
                 float_zero; float_zero; float_one;
                 float_one; float_zero; float_one;
                 float_zero; float_one; float_one;
                 float_one; float_one; float_one]
                [float_zero; float_zero; float_zero;
                 float_one; float_zero; float_zero;
                 float_zero; float_one; float_zero;
                 float_one; float_one; float_zero;
                 float_zero; float_zero; float_one;
                 float_one; float_zero; float_one;
                 float_zero; float_one; float_one;
                 float_one; float_one; float_one])
    by (repeat (constructor; [assumption|]); constructor).
  assert (D : IridasItx.bake_cubeData (BakeScenario.baker 2)
                (IridasItx.bake_cubeSize (BakeScenario.baker 2))
              = Ok [float_zero; float_zero; float_zero;
                    float_one; float_zero; float_zero;
                    float_zero; float_one; float_zero;
                    float_one; float_one; float_zero;
                    float_zero; float_zero; float_one;
                    float_one; float_zero; float_one;
                    float_zero; float_one; float_one;
                    float_one; float_one; float_one])
    by reflexivity.
  split; [split; assumption|].
  exact (itx_bake_then_read (BakeScenario.baker 2) _ _ "baked.itx" D F).
Defined.

Lemma itx_read_second_tag_witness :
  let strm := istringstream MoreScenario.two_tags_text in
  let lines1 := ["LUT_3D_SIZE 1"; "0.0 0.0 0.0"] in
  let lines2 := ["LUT_3D_SIZE 2"; "1.0 0.0 0.0"; "0.0 1.0 0.0"; "1.0 1.0 0.0";
                 "0.0 0.0 1.0"; "1.0 0.0 1.0"; "0.0 1.0 1.0"; "1.0 1.0 1.0"] in
  let o := float_zero in
  let l := float_one in
  (good strm = true
   /\ ParseUtils.nextlines strm = (lines1 ++ lines2)%list
   /\ Z.of_nat (length lines1 + length lines2) <= INT_MAX
   /\ filter (fun l => negb (ItxLines.is_skipped l)) lines1 = lines1
   /\ ItxLines.size_tag "LUT_3D_SIZE 1" = Some 1
   /\ ItxMore.size_ok 1
   /\ Forall (fun l => ItxLines.is_triple l = true) (tl lines1)
   /\ filter (fun l => negb (ItxLines.is_skipped l)) lines2 = lines2
   /\ ItxLines.size_tag "LUT_3D_SIZE 2" = Some 2
   /\ ItxMore.size_ok 2
   /\ Forall (fun l => ItxLines.is_triple l = true) (tl lines2))
  /\ IridasItx.read strm "lut.itx"
     = Ok {| lut3D :=
               Some {| lut3d_gridSize := 2;
                       lut3d_array := [o; o; o;  l; o; o;  o; l; o;  l; l; o;
                                       o; o; l;  l; o; l;  o; l; l;  l; l; l];
                       lut3d_interpolation := INTERP_DEFAULT;
                       lut3d_fileOutputBitDepth := BIT_DEPTH_F32 |} |}.
Proof.
  cbv zeta.
  assert (A1 : Forall (fun l => ItxLines.is_triple l = true) ["0.0 0.0 0.0"])
    by (repeat constructor).
  assert (A2 : Forall (fun l => ItxLines.is_triple l = true)
                 ["1.0 0.0 0.0"; "0.0 1.0 0.0"; "1.0 1.0 0.0";
                  "0.0 0.0 1.0"; "1.0 0.0 1.0"; "0.0 1.0 1.0"; "1.0 1.0 1.0"])
    by (repeat constructor).
  assert (K1 : ItxMore.size_ok 1) by (split; [lia|vm_compute; discriminate]).
  assert (K2 : ItxMore.size_ok 2) by (split; [lia|vm_compute; discriminate]).
  assert (B : Z.of_nat (length ["LUT_3D_SIZE 1"; "0.0 0.0 0.0"]
                        + length ["LUT_3D_SIZE 2"; "1.0 0.0 0.0"; "0.0 1.0 0.0";
                                  "1.0 1.0 0.0"; "0.0 0.0 1.0"; "1.0 0.0 1.0";
                                  "0.0 1.0 1.0"; "1.0 1.0 1.0"]) <= INT_MAX)
    by (vm_compute; discriminate).
  split; [repeat split; try reflexivity; try assumption; try apply K1; apply K2|].
  exact (itx_read_second_tag (istringstream MoreScenario.two_tags_text) "lut.itx"
           ["LUT_3D_SIZE 1"; "0.0 0.0 0.0"]
           ["LUT_3D_SIZE 2"; "1.0 0.0 0.0"; "0.0 1.0 0.0"; "1.0 1.0 0.0";
            "0.0 0.0 1.0"; "1.0 0.0 1.0"; "0.0 1.0 1.0"; "1.0 1.0 1.0"]
           "LUT_3D_SIZE 1" ["0.0 0.0 0.0"] 1
           "LUT_3D_SIZE 2"
           ["1.0 0.0 0.0"; "0.0 1.0 0.0"; "1.0 1.0 0.0";
            "0.0 0.0 1.0"; "1.0 0.0 1.0"; "0.0 1.0 1.0"; "1.0 1.0 1.0"] 2
           eq_refl eq_refl B eq_refl eq_refl K1 A1 eq_refl eq_refl K2 A2).
Defined.

Lemma itx_read_defined_witness :
  let strm := istringstream MoreScenario.bad_triple_text in
  (Z.of_nat (length (ParseUtils.nextlines strm)) <= INT_MAX
   /\ Forall (fun l => forall s, ItxLines.size_tag l = Some s -> -894 <= s <= 894)
             (ParseUtils.nextlines strm))
  /\ forall u, IridasItx.read strm "lut.itx" <> Undefined u.
Proof.
  cbv zeta.
  assert (B : Z.of_nat (length (ParseUtils.nextlines
                                  (istringstream MoreScenario.bad_triple_text)))
              <= INT_MAX) by (vm_compute; discriminate).
  assert (F : Forall (fun l => forall s, ItxLines.size_tag l = Some s ->
                                         -894 <= s <= 894)
                ["LUT_3D_SIZE 2"; "0.0 0.0 0.0"; "1.0 0.0"; "0.0 1.0 0.0"]).
  { repeat (apply Forall_cons;
            [intros s E; compute in E;
             first [discriminate E | inversion E; lia]|]).
    apply Forall_nil. }
  split; [split; [exact B|exact F]|].
  intros u.
  exact (itx_read_defined (istringstream MoreScenario.bad_triple_text) "lut.itx"
           u B F).
Defined.

Lemma itx_read_size_overflow_witness :
  let strm := istringstream MoreScenario.large_text in
  let pre := ["# too large"] in
  let tag := "LUT_3D_SIZE 895" in
  let post := ["0.0 0.0 0.0"] in
  (good strm = true
   /\ ParseUtils.nextlines strm = (pre ++ tag :: post)%list
   /\ Z.of_nat (length pre) < INT_MAX
   /\ Forall (fun l => ItxMore.is_tag l = false) pre
   /\ ItxLines.size_tag tag = Some 895
   /\ (895 < -894 \/ 894 < 895))
  /\ IridasItx.read strm "lut.itx" = Undefined SignedOverflow.
Proof.
  cbv zeta.
  assert (T : Forall (fun l => ItxMore.is_tag l = false) ["# too large"])
    by (repeat constructor).
  assert (B : Z.of_nat (length ["# too large"]) < INT_MAX) by reflexivity.
  assert (R : 895 < -894 \/ 894 < 895) by lia.
  split; [repeat split; try reflexivity; assumption|].
  exact (itx_read_size_overflow (istringstream MoreScenario.large_text)
           "lut.itx" ["# too large"] "LUT_3D_SIZE 895" ["0.0 0.0 0.0"] 895
           eq_refl eq_refl B T eq_refl R).
Defined.

Lemma spi1d_read_ignores_plain_lines_witness :
  let pre := ["# made by hand"; "Units none"] in
  let strm := istringstream Scenario.C_text in
  let cachedFile :=
    {| lut := {| lut1d_dimension := 2;
                 lut1d_array := [float_zero; float_zero; float_zero;
                                 float_one; float_one; float_one];
                 lut1d_interpolation := INTERP_DEFAULT;
                 lut1d_fileOutputBitDepth := BIT_DEPTH_F32 |};
       from_min := float_zero;
       from_max := float_one |} in
  (Forall (fun seg => Spi1DMore.is_plain seg = true) pre
   /\ Z.of_nat (length pre + length strm) + 2 < INT_MAX
   /\ Spi1D.read strm "lut.spi1d" = Ok cachedFile)
  /\ Spi1D.read (istringstream MoreScenario.titled_text) "lut.spi1d"
     = Ok cachedFile.
Proof.
  cbv zeta.
  assert (P : Forall (fun seg => Spi1DMore.is_plain seg = true)
                ["# made by hand"; "Units none"]) by (repeat constructor).
  assert (B : Z.of_nat (length ["# made by hand"; "Units none"]
                        + length (istringstream Scenario.C_text)) + 2 < INT_MAX)
    by (vm_compute; reflexivity).
  assert (R : Spi1D.read (istringstream Scenario.C_text) "lut.spi1d"
              = Ok {| lut := {| lut1d_dimension := 2;
                                lut1d_array := [float_zero; float_zero; float_zero;
                                                float_one; float_one; float_one];
                                lut1d_interpolation := INTERP_DEFAULT;
                                lut1d_fileOutputBitDepth := BIT_DEPTH_F32 |};
                      from_min := float_zero;
                      from_max := float_one |}) by reflexivity.
  split; [repeat split; assumption|].
  exact (spi1d_read_ignores_plain_lines ["# made by hand"; "Units none"]
           (istringstream Scenario.C_text) "lut.spi1d" _ P B R).
Defined.

Lemma spi1d_read_header_error_witness :
  let pre := ["# made by hand"] in
  let bad := "Version 2" in
  let rest := ["Length 2"; ""] in
  (Forall (fun seg => Spi1DMore.is_plain seg = true) pre
   /\ (String.length bad <= 4095)%nat
   /\ good rest = true
   /\ Z.of_nat (length pre) + 1 < INT_MAX
   /\ Spi1DMore.header_error (c_str bad) = Some "Only format version 1 supported.")
  /\ Spi1D.read (istringstream MoreScenario.version_two_text) "lut.spi1d"
     = Throw (Exception
         "Error parsing .spi1d file (lut.spi1d).  At line (2): 'Version 2'.  Only format version 1 supported.").
Proof.
  cbv zeta.
  assert (P : Forall (fun seg => Spi1DMore.is_plain seg = true) ["# made by hand"])
    by (repeat constructor).
  assert (L : (String.length "Version 2" <= 4095)%nat) by (cbn; lia).
  assert (B : Z.of_nat (length ["# made by hand"]) + 1 < INT_MAX) by reflexivity.
  split; [repeat split; try reflexivity; assumption|].
  exact (spi1d_read_header_error ["# made by hand"] "Version 2" ["Length 2"; ""]
           "lut.spi1d" "Only format version 1 supported." P L eq_refl B eq_refl).
Defined.

Import SamplePayload.

Lemma fixedfunction_build_op_witness :
  let d := {| ff_style := "ACES_RedMod03_Fwd"; ff_params := []; ff_cacheID := "" |} in
  let built := {| fnData := d; m_cacheID := "" |} in
  let flat := {| ff_style := "REC2100_Surround"; ff_params := [float_one];
                 ff_cacheID := "" |} in
  (FixedFunctionMore.BuildFixedFunctionOp [] {| FixedFunctionMore.data := d |}
     TRANSFORM_DIR_UNKNOWN
   = ([OfFixedFunctionOp built], Ok tt)
   /\ TRANSFORM_DIR_UNKNOWN <> TRANSFORM_DIR_INVERSE
   /\ FixedFunction.finalize built 0%N
      = Ok {| fnData := {| ff_style := "ACES_RedMod03_Fwd"; ff_params := [];
                           ff_cacheID := "ACES_RedMod03_Fwd" |};
              m_cacheID := "<FixedFunctionOp ACES_RedMod03_Fwd >" |})
  /\
  (FixedFunctionMore.BuildFixedFunctionOp [] {| FixedFunctionMore.data := flat |}
     TRANSFORM_DIR_INVERSE
   = ([], Throw (Exception "no inverse"))
   /\ Throw (Exception "no inverse") <> Ok tt).
Proof.
  cbv zeta.
  assert (N : TRANSFORM_DIR_UNKNOWN <> TRANSFORM_DIR_INVERSE) by discriminate.
  assert (T : @Throw unit (Exception "no inverse") <> Ok tt) by discriminate.
  split.
  - split; [reflexivity|]. split; [exact N|].
    exact (proj2 (proj2 (fixedfunction_build_op []
             {| FixedFunctionMore.data :=
                  {| ff_style := "ACES_RedMod03_Fwd"; ff_params := [];
                     ff_cacheID := "" |} |}
             TRANSFORM_DIR_UNKNOWN _ _ eq_refl) eq_refl N) 0%N).
  - split; [|exact T].
    exact (f_equal (fun ops' => (ops', Throw (Exception "no inverse")))
             (proj1 (fixedfunction_build_op []
                {| FixedFunctionMore.data :=
                     {| ff_style := "REC2100_Surround"; ff_params := [float_one];
                        ff_cacheID := "" |} |}
                TRANSFORM_DIR_INVERSE [] (Throw (Exception "no inverse"))
                eq_refl) T)).
Defined.

Lemma fixedfunction_transform_round_trip_witness :
  let d := {| ff_style := "ACES_RedMod03_Fwd"; ff_params := [];
              ff_cacheID := "ACES_RedMod03_Fwd" |} in
  let op := {| fnData := d; m_cacheID := "<FixedFunctionOp ACES_RedMod03_Fwd >" |} in
  let range := MinMaxOp (float_zero, float_zero, float_zero)
                        (float_one, float_one, float_one) TRANSFORM_DIR_FORWARD in
  (FixedFunctionMore.FixedFunctionOpData_validate (fnData op) = Ok tt
   /\ exists t op',
        FixedFunctionMore.CreateFixedFunctionTransform [] (OfFixedFunctionOp op)
        = ([t], Ok tt)
        /\ FixedFunctionMore.BuildFixedFunctionOp [range] t TRANSFORM_DIR_FORWARD
           = ([range; OfFixedFunctionOp op'], Ok tt)
        /\ fnData op' = fnData op
        /\ FixedFunctionMore.isIdentity op' = FixedFunctionMore.isIdentity op
        /\ (forall other,
              FixedFunctionMore.isInverse op' other
              = FixedFunctionMore.isInverse op other)
        /\ forall oFlags,
             FixedFunction.finalize op' oFlags = FixedFunction.finalize op oFlags)
  /\
  (FixedFunction.isSameType op range = false
   /\ FixedFunctionMore.CreateFixedFunctionTransform [] range
      = ([], Throw (Exception
               "CreateFixedFunctionTransform: op has to be a FixedFunctionOp"))).
Proof.
  cbv zeta. split.
  - split; [reflexivity|].
    exact (proj1 (fixedfunction_transform_round_trip
                    {| fnData := {| ff_style := "ACES_RedMod03_Fwd"; ff_params := [];
                                    ff_cacheID := "ACES_RedMod03_Fwd" |};
                       m_cacheID := "<FixedFunctionOp ACES_RedMod03_Fwd >" |}
                    []
                    [MinMaxOp (float_zero, float_zero, float_zero)
                              (float_one, float_one, float_one)
                              TRANSFORM_DIR_FORWARD]
                    eq_refl)).
  - split; [reflexivity|].
    exact (proj2 (fixedfunction_transform_round_trip
                    {| fnData := {| ff_style := "ACES_RedMod03_Fwd"; ff_params := [];
                                    ff_cacheID := "ACES_RedMod03_Fwd" |};
                       m_cacheID := "<FixedFunctionOp ACES_RedMod03_Fwd >" |}
                    [] [] eq_refl)
                 (MinMaxOp (float_zero, float_zero, float_zero)
                           (float_one, float_one, float_one)
                           TRANSFORM_DIR_FORWARD)
                 eq_refl).
Defined.
